(** * Tourist anomaly detection: rule-based detectors, history buffer and
    the orchestration around the pattern model

  A shallow embedding of [ai-service/anomaly.py] (class
  [TouristAnomalyDetector]) and of the history handling of
  [ai-service/api.py] ([check_anomaly]).

  Conventions of the embedding.
  - Python floats are idealised as real numbers ([R]); the only infinity
    the detector ever manufactures, [float('inf')] in
    [detect_route_deviation], is kept explicit ([pyfloat]).
  - A pandas DataFrame is the list of its rows, in index order.
  - Python exceptions are values of [exn]; a function that may raise
    returns [result A]. *)

From Stdlib Require Import Reals Machin Lra Lia ZArith List Permutation Sorted.
From Stdlib Require Import Ascii String.
From stdpp Require Import gmap.
Import ListNotations.

Local Open Scope R_scope.

(** ** GeoMath: the haversine great-circle distance *)

Module GeoMath.

(** [math.radians] *)
Definition radians (deg : R) : R := deg * PI / 180.

(** [math.atan2 y x], by quadrant. *)
Definition atan2 (y x : R) : R :=
  if Rlt_dec 0 x then atan (y / x)
  else if Rlt_dec x 0 then
    (if Rle_dec 0 y then atan (y / x) + PI else atan (y / x) - PI)
  else if Rlt_dec 0 y then PI / 2
  else if Rlt_dec y 0 then - (PI / 2)
  else 0.

(** The haversine term [a] of [haversine_distance]. *)
Definition haversine_a (lat1 lon1 lat2 lon2 : R) : R :=
  let lat1_rad := radians lat1 in
  let lat2_rad := radians lat2 in
  let delta_lat := radians (lat2 - lat1) in
  let delta_lon := radians (lon2 - lon1) in
  (sin (delta_lat / 2)) ^ 2
  + cos lat1_rad * cos lat2_rad * (sin (delta_lon / 2)) ^ 2.

(** [TouristAnomalyDetector.haversine_distance]: meters between two GPS
    points. *)
Definition haversine_distance (lat1 lon1 lat2 lon2 : R) : R :=
  let R_earth := 6371000 in
  let a := haversine_a lat1 lon1 lat2 lon2 in
  let c := 2 * atan2 (sqrt a) (sqrt (1 - a)) in
  R_earth * c.

Lemma haversine_a_sym lat1 lon1 lat2 lon2 :
  haversine_a lat1 lon1 lat2 lon2 = haversine_a lat2 lon2 lat1 lon1.
Proof.
  unfold haversine_a, radians.
  replace ((lat1 - lat2) * PI / 180 / 2) with (- ((lat2 - lat1) * PI / 180 / 2)) by lra.
  replace ((lon1 - lon2) * PI / 180 / 2) with (- ((lon2 - lon1) * PI / 180 / 2)) by lra.
  rewrite !sin_neg. ring.
Qed.

Lemma haversine_a_diag lat lon : haversine_a lat lon lat lon = 0.
Proof.
  unfold haversine_a, radians.
  replace ((lat - lat) * PI / 180 / 2) with 0 by lra.
  replace ((lon - lon) * PI / 180 / 2) with 0 by lra.
  rewrite sin_0. ring.
Qed.

Lemma atan2_0_1 : atan2 0 1 = 0.
Proof.
  unfold atan2. destruct (Rlt_dec 0 1) as [_|H]; [|exfalso; lra].
  replace (0 / 1) with 0 by lra. apply atan_0.
Qed.

Lemma haversine_distance_diag lat lon : haversine_distance lat lon lat lon = 0.
Proof.
  unfold haversine_distance. rewrite haversine_a_diag.
  rewrite Rminus_0_r, sqrt_0, sqrt_1, atan2_0_1. ring.
Qed.

Lemma haversine_distance_sym lat1 lon1 lat2 lon2 :
  haversine_distance lat1 lon1 lat2 lon2 = haversine_distance lat2 lon2 lat1 lon1.
Proof. unfold haversine_distance. now rewrite haversine_a_sym. Qed.

Lemma atan2_nonneg y x : 0 <= y -> 0 <= x -> 0 <= atan2 y x.
Proof.
  intros Hy Hx. unfold atan2.
  destruct (Rlt_dec 0 x) as [Hpos|Hnpos].
  - destruct (Req_dec y 0) as [->|Hy0].
    + replace (0 / x) with 0 by (field; lra). rewrite atan_0. lra.
    + left. rewrite <- atan_0. apply atan_increasing.
      apply Rdiv_lt_0_compat; lra.
  - destruct (Rlt_dec x 0) as [Hneg|_]; [lra|].
    pose proof PI_RGT_0.
    destruct (Rlt_dec 0 y); [lra|].
    destruct (Rlt_dec y 0); lra.
Qed.

Lemma haversine_distance_nonneg lat1 lon1 lat2 lon2 :
  0 <= haversine_distance lat1 lon1 lat2 lon2.
Proof.
  unfold haversine_distance.
  pose proof (atan2_nonneg _ _ (sqrt_pos (haversine_a lat1 lon1 lat2 lon2))
                (sqrt_pos (1 - haversine_a lat1 lon1 lat2 lon2))).
  nra.
Qed.

Lemma sin_half_sqr x : (sin (x / 2)) ^ 2 = (1 - cos x) / 2.
Proof.
  replace x with (2 * (x / 2)) at 2 by lra. rewrite cos_2a_sin. lra.
Qed.

(** [math.sqrt] is only ever applied inside its domain. *)
Lemma haversine_a_range lat1 lon1 lat2 lon2 :
  0 <= haversine_a lat1 lon1 lat2 lon2 <= 1.
Proof.
  unfold haversine_a. rewrite !sin_half_sqr.
  replace (radians (lat2 - lat1)) with (radians lat2 - radians lat1)
    by (unfold radians; lra).
  set (p1 := radians lat1). set (p2 := radians lat2).
  set (t := cos (radians (lon2 - lon1))).
  pose proof (COS_bound (p2 - p1)) as Hm. pose proof (COS_bound (p2 + p1)) as Hp.
  pose proof (COS_bound (radians (lon2 - lon1))) as Ht. fold t in Ht.
  rewrite cos_minus in *. rewrite cos_plus in Hp.
  set (c := cos p2 * cos p1) in *. set (s := sin p2 * sin p1) in *.
  replace (cos p1 * cos p2) with c by (unfold c; ring).
  nra.
Qed.

(** C9. The distance from a point to itself is 0, and the distance does
    not depend on the order of its two points. *)
Theorem haversine_distance_zero_symmetric :
  (forall lat lon : R, haversine_distance lat lon lat lon = 0)
  /\ (forall lat1 lon1 lat2 lon2 : R,
        haversine_distance lat1 lon1 lat2 lon2
        = haversine_distance lat2 lon2 lat1 lon1).
Proof.
  split.
  - intros lat lon. apply haversine_distance_diag.
  - intros lat1 lon1 lat2 lon2. apply haversine_distance_sym.
Qed.

End GeoMath.

(** ** GeoMath: bounds on the distance *)

Module GeoBounds.
Import GeoMath.

Lemma PI_upper : PI <= 68 / 21.
Proof.
  pose proof (PI_2_3_7_ineq 0) as [_ H].
  unfold sum_f_R0, tg_alt, PI_2_3_7_tg, Ratan_seq in H. simpl in H. lra.
Qed.

Lemma atan_le_x x : 0 <= x -> atan x <= x.
Proof.
  intros [Hpos| <-]; [|rewrite atan_0; lra].
  destruct (MVT_cor2 atan (fun c => / (1 + c ^ 2)) 0 x Hpos) as [c [Hc _]].
  { intros c _. apply derivable_pt_lim_atan. }
  rewrite atan_0, !Rminus_0_r in Hc. rewrite Hc.
  assert (0 < / (1 + c ^ 2) <= 1).
  { split; [apply Rinv_0_lt_compat; nra|].
    replace 1 with (/ 1) at 2 by apply Rinv_1.
    apply Rinv_le_contravar; nra. }
  nra.
Qed.

Lemma atan2_quadrant y x : 0 <= y -> 0 <= x -> atan2 y x <= PI / 2.
Proof.
  intros Hy Hx. unfold atan2. pose proof PI_RGT_0.
  destruct (Rlt_dec 0 x); [left; apply atan_bound|].
  destruct (Rlt_dec x 0); [lra|].
  destruct (Rlt_dec 0 y); [lra|]. destruct (Rlt_dec y 0); lra.
Qed.

Lemma sin_sqr_le x : (sin x) ^ 2 <= x ^ 2.
Proof.
  assert (Hpos : forall t, 0 <= t -> (sin t) ^ 2 <= t ^ 2).
  { intros t [Ht| <-]; [|rewrite sin_0; lra].
    pose proof (sin_lt_x t Ht). pose proof (SIN_bound t).
    destruct (Rle_or_lt t 1).
    - assert (0 <= sin t) by (apply sin_ge_0; pose proof PI2_1; lra). nra.
    - nra. }
  destruct (Rle_or_lt 0 x) as [H|H]; [now apply Hpos|].
  replace (x ^ 2) with ((- x) ^ 2) by ring.
  replace ((sin x) ^ 2) with ((sin (- x)) ^ 2) by (rewrite sin_neg; ring).
  apply Hpos. lra.
Qed.

(** The haversine term is at most a quarter of the squared coordinate
    differences, in radians. *)
Lemma haversine_a_le lat1 lon1 lat2 lon2 :
  haversine_a lat1 lon1 lat2 lon2
  <= ((radians (lat2 - lat1)) ^ 2 + (radians (lon2 - lon1)) ^ 2) / 4.
Proof.
  unfold haversine_a.
  pose proof (sin_sqr_le (radians (lat2 - lat1) / 2)).
  pose proof (sin_sqr_le (radians (lon2 - lon1) / 2)).
  pose proof (COS_bound (radians lat1)). pose proof (COS_bound (radians lat2)).
  assert (cos (radians lat1) * cos (radians lat2) <= 1) by nra.
  assert (0 <= (sin (radians (lon2 - lon1) / 2)) ^ 2) by nra.
  nra.
Qed.

Lemma haversine_distance_le_sqrt lat1 lon1 lat2 lon2 b :
  0 <= b -> b ^ 2 <= 1 / 1000 ->
  haversine_a lat1 lon1 lat2 lon2 <= b ^ 2 ->
  haversine_distance lat1 lon1 lat2 lon2 <= 6371000 * (2 * (b / (999 / 1000))).
Proof.
  intros Hb Hsmall Ha. unfold haversine_distance.
  pose proof (GeoMath.haversine_a_range lat1 lon1 lat2 lon2) as [Ha0 _].
  set (a := haversine_a lat1 lon1 lat2 lon2) in *.
  assert (Hsa : sqrt a <= b).
  { rewrite <- (sqrt_pow2 b Hb). now apply sqrt_le_1_alt. }
  assert (Hs1 : 999 / 1000 <= sqrt (1 - a)).
  { rewrite <- (sqrt_pow2 (999 / 1000)) by lra. apply sqrt_le_1_alt. lra. }
  pose proof (sqrt_pos a) as Hsa0.
  unfold atan2. destruct (Rlt_dec 0 (sqrt (1 - a))) as [_|Hn]; [|lra].
  assert (Hq : sqrt a / sqrt (1 - a) <= b / (999 / 1000)).
  { apply Rle_trans with (sqrt a / (999 / 1000)).
    - unfold Rdiv. apply Rmult_le_compat_l; [assumption|].
      apply Rinv_le_contravar; lra.
    - unfold Rdiv. apply Rmult_le_compat_r; [|assumption].
      left. apply Rinv_0_lt_compat. lra. }
  assert (0 <= sqrt a / sqrt (1 - a)).
  { apply Rmult_le_pos; [assumption|]. left. apply Rinv_0_lt_compat. lra. }
  pose proof (atan_le_x _ H). lra.
Qed.

(** Two points whose latitudes and whose longitudes differ by at most
    [eps] degrees, [eps <= 1], are at most [162300 * eps] meters apart. *)
Lemma haversine_distance_close_bound lat1 lon1 lat2 lon2 eps :
  eps <= 1 ->
  Rabs (lat2 - lat1) <= eps -> Rabs (lon2 - lon1) <= eps ->
  haversine_distance lat1 lon1 lat2 lon2 <= 162300 * eps.
Proof.
  intros Heps Hlat Hlon.
  assert (H0 : 0 <= eps) by (pose proof (Rabs_pos (lat2 - lat1)); lra).
  pose proof PI_upper as Hpi. pose proof PI_RGT_0 as Hpi0.
  set (b := eps * (68 / 21) / 180 * (7072 / 10000)).
  assert (Hb0 : 0 <= b) by (unfold b; nra).
  assert (Hb1 : b <= 127222 / 10000000 * eps) by (unfold b; lra).
  assert (Hrad : forall x, Rabs x <= eps -> (radians x) ^ 2 <= (eps * (68 / 21) / 180) ^ 2).
  { intros x Hx. unfold radians.
    assert (Habs : Rabs (x * PI / 180) <= eps * (68 / 21) / 180).
    { replace (x * PI / 180) with (x * (PI / 180)) by lra.
      rewrite Rabs_mult, (Rabs_pos_eq (PI / 180)) by lra.
      pose proof (Rabs_pos x). nra. }
    rewrite <- (Rsqr_abs (x * PI / 180)) || idtac.
    pose proof (Rabs_pos (x * PI / 180)).
    replace ((x * PI / 180) ^ 2) with ((Rabs (x * PI / 180)) ^ 2)
      by (rewrite <- !Rsqr_pow2; symmetry; apply Rsqr_abs).
    nra. }
  assert (Ha : haversine_a lat1 lon1 lat2 lon2 <= b ^ 2).
  { eapply Rle_trans; [apply haversine_a_le|].
    pose proof (Hrad _ Hlat). pose proof (Hrad _ Hlon).
    unfold b. set (k := eps * (68 / 21) / 180) in *.
    assert (0 <= k ^ 2) by nra. nra. }
  eapply Rle_trans; [apply (haversine_distance_le_sqrt _ _ _ _ b Hb0); [nra|exact Ha]|].
  lra.
Qed.

(** X1. Every distance is between 0 and half the circumference of the
    Earth of radius 6371000 meters. *)
Theorem haversine_distance_range lat1 lon1 lat2 lon2 :
  0 <= haversine_distance lat1 lon1 lat2 lon2 <= 6371000 * PI.
Proof.
  unfold haversine_distance.
  pose proof (sqrt_pos (haversine_a lat1 lon1 lat2 lon2)).
  pose proof (sqrt_pos (1 - haversine_a lat1 lon1 lat2 lon2)).
  pose proof (GeoMath.atan2_nonneg _ _ H H0). pose proof (atan2_quadrant _ _ H H0).
  split; nra.
Qed.

(** X2. Two points whose latitudes and whose longitudes each differ by at
    most [eps] degrees, [eps <= 1], are at most [162300 * eps] meters
    apart. *)
Theorem haversine_distance_close lat1 lon1 lat2 lon2 eps :
  eps <= 1 ->
  Rabs (lat2 - lat1) <= eps -> Rabs (lon2 - lon1) <= eps ->
  haversine_distance lat1 lon1 lat2 lon2 <= 162300 * eps.
Proof. apply haversine_distance_close_bound. Qed.

(** ** A lower bound

    Two points between the poles whose latitudes differ by [gap] degrees
    are at least [17000 * gap] meters apart. *)

Lemma atan_ge_half x : 0 <= x <= 1 -> x / 2 <= atan x.
Proof.
  intros [[Hpos| <-] Hle]; [|rewrite atan_0; lra].
  destruct (MVT_cor2 atan (fun c => / (1 + c ^ 2)) 0 x Hpos) as [c [Hc [Hc0 Hcx]]].
  { intros c _. apply derivable_pt_lim_atan. }
  rewrite atan_0, !Rminus_0_r in Hc. rewrite Hc.
  assert (/ 2 <= / (1 + c ^ 2)) by (apply Rinv_le_contravar; nra).
  nra.
Qed.

Lemma atan_lower y : 0 <= y -> Rmin y 1 / 2 <= atan y.
Proof.
  intros Hy. unfold Rmin. destruct (Rle_dec y 1) as [Hle|Hgt].
  - now apply atan_ge_half.
  - assert (H1 : atan 1 < atan y) by (apply atan_increasing; lra).
    rewrite atan_1 in H1. pose proof PI2_1. lra.
Qed.

Lemma atan2_sqrt_lower a :
  0 <= a <= 1 -> sqrt a / 2 <= atan2 (sqrt a) (sqrt (1 - a)).
Proof.
  intros [Ha0 Ha1]. pose proof (sqrt_pos a) as Hs0.
  assert (Hs1 : sqrt a <= 1)
    by (apply Rle_trans with (sqrt 1); [apply sqrt_le_1_alt; lra|rewrite sqrt_1; lra]).
  assert (Hc1 : sqrt (1 - a) <= 1)
    by (apply Rle_trans with (sqrt 1); [apply sqrt_le_1_alt; lra|rewrite sqrt_1; lra]).
  pose proof (sqrt_pos (1 - a)) as Hc0. pose proof PI2_1 as Hpi.
  unfold atan2. destruct (Rlt_dec 0 (sqrt (1 - a))) as [Hc|Hc].
  - assert (Hq : sqrt a <= sqrt a / sqrt (1 - a)).
    { apply Rmult_le_reg_r with (sqrt (1 - a)); [assumption|].
      unfold Rdiv. rewrite Rmult_assoc, Rinv_l by lra. nra. }
    eapply Rle_trans; [|apply atan_lower; lra].
    unfold Rmin. destruct (Rle_dec _ 1); lra.
  - destruct (Rlt_dec (sqrt (1 - a)) 0); [lra|].
    destruct (Rlt_dec 0 (sqrt a)); [lra|].
    destruct (Rlt_dec (sqrt a) 0); lra.
Qed.

Lemma sin_ge_half x : 0 <= x <= 1 -> x / 2 <= sin x.
Proof.
  intros [[Hpos| <-] Hle]; [|rewrite sin_0; lra].
  destruct (MVT_cor2 sin cos 0 x Hpos) as [c [Hc [Hc0 Hcx]]].
  { intros c _. apply derivable_pt_lim_sin. }
  rewrite sin_0, !Rminus_0_r in Hc. rewrite Hc.
  pose proof (GeoMath.sin_half_sqr c) as Hhalf. pose proof (sin_sqr_le (c / 2)) as Hsq.
  assert (/ 2 <= cos c) by nra.
  nra.
Qed.

(** Two points whose latitudes lie in [-90, 90] and differ by at most 100
    degrees are at least 17000 meters apart per degree of latitude. *)
Lemma haversine_distance_apart lat1 lon1 lat2 lon2 :
  -90 <= lat1 <= 90 -> -90 <= lat2 <= 90 ->
  0 <= lat2 - lat1 <= 100 ->
  17000 * (lat2 - lat1) <= haversine_distance lat1 lon1 lat2 lon2.
Proof.
  intros Hlat1 Hlat2 Hgap. unfold haversine_distance.
  pose proof (GeoMath.haversine_a_range lat1 lon1 lat2 lon2) as Hrange.
  pose proof (atan2_sqrt_lower _ Hrange) as Hatan.
  pose proof PI_upper as Hup. pose proof PI2_1 as Hlow.
  set (x := radians (lat2 - lat1) / 2).
  assert (Hx : 0 <= x <= 1) by (unfold x, radians; split; nra).
  pose proof (sin_ge_half x Hx) as Hsin.
  assert (Hcos1 : 0 <= cos (radians lat1))
    by (apply cos_ge_0; unfold radians; nra).
  assert (Hcos2 : 0 <= cos (radians lat2))
    by (apply cos_ge_0; unfold radians; nra).
  assert (Ha : (sin x) ^ 2 <= haversine_a lat1 lon1 lat2 lon2).
  { unfold haversine_a. fold x.
    assert (0 <= (sin (radians (lon2 - lon1) / 2)) ^ 2) by nra.
    assert (0 <= cos (radians lat1) * cos (radians lat2)) by nra.
    nra. }
  assert (Hsqrt : sin x <= sqrt (haversine_a lat1 lon1 lat2 lon2)).
  { rewrite <- (sqrt_pow2 (sin x)) by lra. apply sqrt_le_1_alt. exact Ha. }
  assert (Hxval : x = (lat2 - lat1) * PI / 360) by (unfold x, radians; lra).
  assert ((lat2 - lat1) / 360 <= x / 2) by (rewrite Hxval; nra).
  lra.
Qed.

End GeoBounds.

(** ** Python values: exceptions and floats *)

(** The exceptions the modelled code can raise. *)
Inductive exn : Type :=
| ZeroDivisionError          (* float division by zero *)
| IndexError                 (* [iloc] / list index out of range *)
| ValueError                 (* [pd.to_datetime] on an unparseable value *)
| LibraryError (code : Z).   (* anything raised inside scikit-learn *)

(** The outcome of a call: a value, or a raised exception. *)
Inductive result (A : Type) : Type :=
| Ok (a : A)
| Raise (e : exn).
Arguments Ok {A} a.
Arguments Raise {A} e.

Definition bind {A B} (m : result A) (k : A -> result B) : result B :=
  match m with
  | Ok a => k a
  | Raise e => Raise e
  end.

Notation "'do' x <- m ; k" := (bind m (fun x => k))
  (at level 10, x name, m at level 100, k at level 200).

(** A [for] loop whose body may raise: the accumulator is threaded through
    the items from left to right and the first exception ends the loop. *)
Fixpoint for_each {A S} (body : S -> A -> result S) (items : list A) (s : S)
  : result S :=
  match items with
  | [] => Ok s
  | x :: items' => do s' <- body s x; for_each body items' s'
  end.

(** Applying a fallible conversion to a whole column. *)
Fixpoint map_result {A B} (f : A -> result B) (l : list A) : result (list B) :=
  match l with
  | [] => Ok []
  | x :: l' => do y <- f x; do ys <- map_result f l'; Ok (y :: ys)
  end.

(** [xs[i]] on a Python list and [df.iloc[i]] on a DataFrame. *)
Definition iloc {A} (l : list A) (i : nat) : result A :=
  match nth_error l i with
  | Some x => Ok x
  | None => Raise IndexError
  end.

(** A Python float: a real number or one of the two infinities. *)
Inductive pyfloat : Type :=
| Fin (x : R)
| PosInf
| NegInf.

Definition Rltb (x y : R) : bool := if Rlt_dec x y then true else false.
Definition Rgeb (x y : R) : bool := if Rge_dec x y then true else false.

(** [a < b] on floats. *)
Definition pf_ltb (a b : pyfloat) : bool :=
  match a, b with
  | Fin x, Fin y => Rltb x y
  | Fin _, PosInf => true
  | Fin _, NegInf => false
  | PosInf, _ => false
  | NegInf, NegInf => false
  | NegInf, _ => true
  end.

(** Python's [min(a, b)]: [b] only when it is strictly smaller. *)
Definition pf_min (a b : pyfloat) : pyfloat := if pf_ltb b a then b else a.

(** [a / t] for a float [a] and a finite [t]; Python raises on [t = 0]. *)
Definition pf_div (a : pyfloat) (t : R) : result pyfloat :=
  if Req_dec_T t 0 then Raise ZeroDivisionError
  else Ok match a with
          | Fin x => Fin (x / t)
          | PosInf => if Rlt_dec 0 t then PosInf else NegInf
          | NegInf => if Rlt_dec 0 t then NegInf else PosInf
          end.

(** ** Data model *)

(** The three kinds of anomaly, named as the code names them. *)
Inductive anomaly_kind : Type :=
| stopped_too_long
| route_deviation
| ml_pattern_anomaly.

Definition anomaly_kind_eqb (k1 k2 : anomaly_kind) : bool :=
  match k1, k2 with
  | stopped_too_long, stopped_too_long => true
  | route_deviation, route_deviation => true
  | ml_pattern_anomaly, ml_pattern_anomaly => true
  | _, _ => false
  end.

Definition anomaly_kind_name (k : anomaly_kind) : string :=
  match k with
  | stopped_too_long => "stopped_too_long"
  | route_deviation => "route_deviation"
  | ml_pattern_anomaly => "ml_pattern_anomaly"
  end.

(** The number an anomaly's [details] text is formatted from. *)
Inductive details_text : Type :=
| Stopped_for (minutes : R)          (* f'Stopped for {time_diff:.1f} minutes' *)
| Deviated (meters : pyfloat)        (* f'Deviated {min_distance:.0f}m from planned route' *)
| ML_score (score : R).              (* f'ML detected unusual pattern (score: ...)' *)

(** One row of a DataFrame of pings. *)
Module Ping.
Record t : Type := mk {
  tourist_id : Z;
  lat : R;
  lon : R;
  timestamp : string;
  is_anomaly : bool;
  anomaly_type : string
}.
End Ping.

(** One anomaly dictionary, as the detectors build it. *)
Module Anomaly.
Record t : Type := mk {
  tourist_id : Z;
  timestamp : string;
  lat : R;
  lon : R;
  anomaly_type : anomaly_kind;
  details : details_text;
  confidence : pyfloat
}.
End Anomaly.

Definition dataframe : Type := list Ping.t.

(** ** The pandas operations the detectors use *)

(** [df[df['tourist_id'] == tourist_id]] *)
Definition select_tourist (df : dataframe) (tourist_id : Z) : dataframe :=
  List.filter (fun r => Z.eqb (Ping.tourist_id r) tourist_id) df.

(** The order [sort_values('timestamp')] sorts by: the column holds the
    timestamp strings, compared as Python compares [str]. *)
Definition timestamp_leb (r1 r2 : Ping.t) : bool :=
  String.leb (Ping.timestamp r1) (Ping.timestamp r2).

Fixpoint insert_sorted (r : Ping.t) (sorted : dataframe) : dataframe :=
  match sorted with
  | [] => [r]
  | r' :: rest =>
      if timestamp_leb r r' then r :: sorted else r' :: insert_sorted r rest
  end.

(** [df.sort_values('timestamp')], as a stable sort: rows with equal
    timestamps keep their relative order. pandas sorts with its default
    [kind='quicksort'], which promises the order of the column and nothing
    about tied rows (it keeps them in place in short frames only); what is
    proved below of frames with tied timestamps is proved of this stable
    instance, and [detect_stop_anomaly_with] leaves the sort open. *)
Fixpoint sort_values_timestamp (df : dataframe) : dataframe :=
  match df with
  | [] => []
  | r :: rest => insert_sorted r (sort_values_timestamp rest)
  end.

(** [df['tourist_id'].unique()]: the distinct ids, by first appearance. *)
Fixpoint unique_from (seen : list Z) (ids : list Z) : list Z :=
  match ids with
  | [] => []
  | i :: ids' =>
      if existsb (Z.eqb i) seen then unique_from seen ids'
      else i :: unique_from (i :: seen) ids'
  end.

Definition unique_tourist_ids (df : dataframe) : list Z :=
  unique_from [] (List.map Ping.tourist_id df).

(** ** Timestamps

    The detectors are stated over any [to_datetime]; this is the instance
    used to run them on concrete pings: [pd.to_datetime] on the two ISO
    layouts of the service. *)

Module Timestamp.
Local Open Scope Z_scope.

(** The value of a decimal digit character. *)
Definition digit_value (c : ascii) : option Z :=
  let n := Z.of_N (N_of_ascii c) in
  if (48 <=? n) && (n <=? 57) then Some (n - 48) else None.

(** The number a run of decimal digits denotes. *)
Fixpoint digits_value (acc : Z) (cs : list ascii) : option Z :=
  match cs with
  | [] => Some acc
  | c :: cs' =>
      match digit_value c with
      | Some v => digits_value (10 * acc + v) cs'
      | None => None
      end
  end.

Definition is_leap_year (y : Z) : bool :=
  (y mod 4 =? 0) && (negb (y mod 100 =? 0) || (y mod 400 =? 0)).

Definition days_in_month (y m : Z) : Z :=
  if m =? 2 then (if is_leap_year y then 29 else 28)
  else if (m =? 4) || (m =? 6) || (m =? 9) || (m =? 11) then 30
  else 31.

(** Days from 1970-01-01 to the given date of the proleptic Gregorian
    calendar. *)
Definition days_from_civil (y m d : Z) : Z :=
  let y' := if m <=? 2 then y - 1 else y in
  let era := y' / 400 in
  let yoe := y' - era * 400 in
  let mp := if 2 <? m then m - 3 else m + 9 in
  let doy := (153 * mp + 2) / 5 + d - 1 in
  let doe := yoe * 365 + yoe / 4 - yoe / 100 + doy in
  era * 146097 + doe - 719468.

(** The seconds from 1970-01-01 00:00:00 to a timestamp written
    [YYYY-MM-DDTHH:MM:SS] or [YYYY-MM-DD HH:MM:SS], the two layouts the
    service accepts; the years are kept inside the range of a pandas
    [Timestamp]. *)
Definition parse_timestamp (s : string) : option Z :=
  match list_ascii_of_string s with
  | [y1; y2; y3; y4; c1; m1; m2; c2; d1; d2; sep; h1; h2; c3; n1; n2; c4; s1; s2] =>
      if Ascii.eqb c1 "-" && Ascii.eqb c2 "-"
         && (Ascii.eqb sep "T" || Ascii.eqb sep " ")
         && Ascii.eqb c3 ":" && Ascii.eqb c4 ":"
      then
        match digits_value 0 [y1; y2; y3; y4], digits_value 0 [m1; m2],
              digits_value 0 [d1; d2], digits_value 0 [h1; h2],
              digits_value 0 [n1; n2], digits_value 0 [s1; s2] with
        | Some year, Some month, Some day, Some hour, Some minute, Some second =>
            if (1678 <=? year) && (year <=? 2261)
               && (1 <=? month) && (month <=? 12)
               && (1 <=? day) && (day <=? days_in_month year month)
               && (hour <=? 23) && (minute <=? 59) && (second <=? 59)
            then Some (days_from_civil year month day * 86400
                       + hour * 3600 + minute * 60 + second)
            else None
        | _, _, _, _, _, _ => None
        end
      else None
  | _ => None
  end.


(** [pd.to_datetime] on such a string, as seconds on the time line. Any
    other text is refused here, also where pandas would read it: this
    instance is only ever run on timestamps in the two layouts. *)
Definition to_datetime (s : string) : result R :=
  match parse_timestamp s with
  | Some seconds => Ok (IZR seconds)
  | None => Raise ValueError
  end.

End Timestamp.

(** ** The detector *)

Section Detector.

(** What the code takes from its libraries: [pd.to_datetime] on one
    timestamp string, giving its position on the time line in seconds, and
    the two scikit-learn estimators, whose internals stay opaque. *)
Variable to_datetime : string -> result R.
Context {StandardScaler IsolationForest : Type}.

(** A feature matrix: one row of six numbers per consecutive ping pair. *)
Definition matrix : Type := list (list R).

(** [StandardScaler()] and [IsolationForest(contamination, random_state,
    n_estimators)]: fresh, unfitted estimators. *)
Variable StandardScaler_new : StandardScaler.
Variable IsolationForest_new : R -> Z -> Z -> IsolationForest.

(** The estimators' methods. A method that fits returns the estimator as
    the call leaves it, whether or not it raised. *)
Variable fit_transform : StandardScaler -> matrix -> StandardScaler * result matrix.
Variable transform : StandardScaler -> matrix -> result matrix.
Variable fit : IsolationForest -> matrix -> IsolationForest * result unit.
Variable predict : IsolationForest -> matrix -> result (list Z).
Variable decision_function : IsolationForest -> matrix -> result (list R).

(** The attributes of a [TouristAnomalyDetector]. *)
Record detector : Type := mk_detector {
  stop_threshold_minutes : R;
  deviation_threshold_meters : R;
  planned_route : list (R * R);
  ml_model : option IsolationForest;
  scaler : StandardScaler
}.

(** The rows of [tourist_data] once its ['datetime'] column is added,
    every timestamp converted on its own. [pd.to_datetime] is handed the
    whole column; on a column written in one layout that is the same
    thing, and [detect_stop_anomaly_with] leaves the conversion of the
    column open. *)
Definition with_datetime (tourist_data : dataframe) : result (list (Ping.t * R)) :=
  do datetime <- map_result (fun r => to_datetime (Ping.timestamp r)) tourist_data;
  Ok (combine tourist_data datetime).

(** One turn of the loop of [detect_stop_anomaly], at index [i]. *)
Definition stop_loop_body (d : detector) (tourist_id : Z)
    (tourist_data : list (Ping.t * R))
    (anomalies : list Anomaly.t) (i : nat) : result (list Anomaly.t) :=
  do current_row <- iloc tourist_data i;
  do prev_row <- iloc tourist_data (i - 1);
  let distance :=
    GeoMath.haversine_distance
      (Ping.lat (fst prev_row)) (Ping.lon (fst prev_row))
      (Ping.lat (fst current_row)) (Ping.lon (fst current_row)) in
  let time_diff := (snd current_row - snd prev_row) / 60 in
  if Rltb distance 10 && Rgeb time_diff (stop_threshold_minutes d) then
    do ratio <- pf_div (Fin time_diff) (stop_threshold_minutes d);
    Ok (anomalies ++
        [Anomaly.mk tourist_id (Ping.timestamp (fst current_row))
           (Ping.lat (fst current_row)) (Ping.lon (fst current_row))
           stopped_too_long (Stopped_for time_diff) (pf_min ratio (Fin 2))])
  else Ok anomalies.

(** [detect_stop_anomaly(df, tourist_id)] *)
Definition detect_stop_anomaly (d : detector) (df : dataframe) (tourist_id : Z)
  : result (list Anomaly.t) :=
  let tourist_data := sort_values_timestamp (select_tourist df tourist_id) in
  if (length tourist_data <? 2)%nat then Ok []
  else
    do tourist_data <- with_datetime tourist_data;
    for_each (stop_loop_body d tourist_id tourist_data)
      (seq 1 (length tourist_data - 1)) [].

(** The inner loop of [detect_route_deviation]: the running minimum over the
    segments [i, i + 1] of the planned route, started at [float('inf')]. *)
Definition route_loop_body (d : detector) (row : Ping.t)
    (min_distance : pyfloat) (i : nat) : result pyfloat :=
  do start_point <- iloc (planned_route d) i;
  do end_point <- iloc (planned_route d) (i + 1);
  let dist_start :=
    GeoMath.haversine_distance (Ping.lat row) (Ping.lon row)
      (fst start_point) (snd start_point) in
  let dist_end :=
    GeoMath.haversine_distance (Ping.lat row) (Ping.lon row)
      (fst end_point) (snd end_point) in
  Ok (pf_min (pf_min min_distance (Fin dist_start)) (Fin dist_end)).

Definition route_min_distance (d : detector) (row : Ping.t) : result pyfloat :=
  for_each (route_loop_body d row)
    (seq 0 (length (planned_route d) - 1)) PosInf.

(** One turn of the outer loop of [detect_route_deviation]. *)
Definition deviation_loop_body (d : detector) (tourist_id : Z)
    (anomalies : list Anomaly.t) (row : Ping.t) : result (list Anomaly.t) :=
  do min_distance <- route_min_distance d row;
  if pf_ltb (Fin (deviation_threshold_meters d)) min_distance then
    do ratio <- pf_div min_distance (deviation_threshold_meters d);
    Ok (anomalies ++
        [Anomaly.mk tourist_id (Ping.timestamp row) (Ping.lat row) (Ping.lon row)
           route_deviation (Deviated min_distance) (pf_min ratio (Fin 3))])
  else Ok anomalies.

(** [detect_route_deviation(df, tourist_id)] *)
Definition detect_route_deviation (d : detector) (df : dataframe) (tourist_id : Z)
  : result (list Anomaly.t) :=
  for_each (deviation_loop_body d tourist_id) (select_tourist df tourist_id) [].

(** The one-row DataFrame [check_single_point] builds for the new ping. *)
Definition current_point (tourist_id : Z) (lat lon : R) (timestamp : string)
  : dataframe :=
  [Ping.mk tourist_id lat lon timestamp false "unknown"].

(** The filter of [check_single_point]: a stop anomaly is kept when it is
    less than 60 seconds away from the queried timestamp. *)
Definition recent_loop_body (current_time : R)
    (anomalies : list Anomaly.t) (anomaly : Anomaly.t) : result (list Anomaly.t) :=
  do anomaly_time <- to_datetime (Anomaly.timestamp anomaly);
  if Rltb (Rabs (current_time - anomaly_time)) 60
  then Ok (anomalies ++ [anomaly])
  else Ok anomalies.

(** [check_single_point(tourist_id, lat, lon, timestamp, historical_data)];
    [None] is Python's [None]. *)
Definition check_single_point (d : detector) (tourist_id : Z) (lat lon : R)
    (timestamp : string) (historical_data : option dataframe)
  : result (list Anomaly.t) :=
  let current_point := current_point tourist_id lat lon timestamp in
  do deviation_anomalies <- detect_route_deviation d current_point tourist_id;
  let anomalies := [] ++ deviation_anomalies in
  match historical_data with
  | None => Ok anomalies
  | Some historical_data =>
      if (0 <? length historical_data)%nat then
        let combined_data := historical_data ++ current_point in
        do stop_anomalies <- detect_stop_anomaly d combined_data tourist_id;
        do current_time <- to_datetime timestamp;
        for_each (recent_loop_body current_time) stop_anomalies anomalies
      else Ok anomalies
  end.

(** [TouristAnomalyDetector(stop_threshold_minutes, deviation_threshold_meters)] *)
Definition new_detector (stop_threshold_minutes deviation_threshold_meters : R)
  : detector :=
  mk_detector stop_threshold_minutes deviation_threshold_meters
    [ (12.9716, 77.5946); (12.9726, 77.5956); (12.9736, 77.5966);
      (12.9746, 77.5976); (12.9756, 77.5986) ]
    None StandardScaler_new.

(** The constructor's defaults: 5 minutes, 200 meters. *)
Definition default_detector : detector := new_detector 5 200.

(** [np.mean] *)
Definition mean (xs : list R) : R := fold_right Rplus 0 xs / INR (length xs).

(** One turn of the inner loop of [prepare_ml_features], at index [i]. *)
Definition features_loop_body (d : detector) (tourist_data : list (Ping.t * R))
    (features : matrix) (i : nat) : result matrix :=
  do current_row <- iloc tourist_data i;
  do prev_row <- iloc tourist_data (i - 1);
  let distance :=
    GeoMath.haversine_distance
      (Ping.lat (fst prev_row)) (Ping.lon (fst prev_row))
      (Ping.lat (fst current_row)) (Ping.lon (fst current_row)) in
  let time_diff := (snd current_row - snd prev_row) / 60 in
  let speed := distance / Rmax time_diff 0.1 in
  let route_center_lat := mean (List.map fst (planned_route d)) in
  let route_center_lon := mean (List.map snd (planned_route d)) in
  let distance_from_center :=
    GeoMath.haversine_distance
      (Ping.lat (fst current_row)) (Ping.lon (fst current_row))
      route_center_lat route_center_lon in
  Ok (features ++
      [[distance; time_diff; speed; distance_from_center;
        Ping.lat (fst current_row); Ping.lon (fst current_row)]]).

(** One turn of the outer loop of [prepare_ml_features]. *)
Definition features_of_tourist (d : detector) (df : dataframe)
    (features : matrix) (tourist_id : Z) : result matrix :=
  let tourist_data := sort_values_timestamp (select_tourist df tourist_id) in
  do tourist_data <- with_datetime tourist_data;
  for_each (features_loop_body d tourist_data)
    (seq 1 (length tourist_data - 1)) features.

(** [prepare_ml_features(df)] *)
Definition prepare_ml_features (d : detector) (df : dataframe) : result matrix :=
  for_each (features_of_tourist d df) (unique_tourist_ids df) [].

Definition set_scaler (d : detector) (s : StandardScaler) : detector :=
  mk_detector (stop_threshold_minutes d) (deviation_threshold_meters d)
    (planned_route d) (ml_model d) s.

Definition set_ml_model (d : detector) (m : IsolationForest) : detector :=
  mk_detector (stop_threshold_minutes d) (deviation_threshold_meters d)
    (planned_route d) (Some m) (scaler d).

(** [train_ml_model(df)]: the detector as the call leaves it, and whether
    the call returned or raised. *)
Definition train_ml_model (d : detector) (df : dataframe) : detector * result unit :=
  match prepare_ml_features d df with
  | Raise e => (d, Raise e)
  | Ok features =>
      if (length features =? 0)%nat then (d, Ok tt)
      else
        let '(scaler', scaled) := fit_transform (scaler d) features in
        let d := set_scaler d scaler' in
        match scaled with
        | Raise e => (d, Raise e)
        | Ok features_scaled =>
            let d := set_ml_model d (IsolationForest_new 0.1 42 100) in
            let '(model', fitted) := fit (IsolationForest_new 0.1 42 100) features_scaled in
            (set_ml_model d model', fitted)
        end
  end.

(** One turn of the inner loop of [detect_ml_anomalies]; the state is the
    pair of [anomalies] and [feature_idx]. *)
Definition ml_loop_body (tourist_id : Z) (tourist_data : dataframe)
    (predictions : list Z) (anomaly_scores : list R)
    (st : list Anomaly.t * nat) (i : nat) : result (list Anomaly.t * nat) :=
  let '(anomalies, feature_idx) := st in
  if (feature_idx <? length predictions)%nat
     && match nth_error predictions feature_idx with
        | Some p => Z.eqb p (-1)
        | None => false
        end
  then
    do current_row <- iloc tourist_data i;
    do score <- iloc anomaly_scores feature_idx;
    Ok (anomalies ++
        [Anomaly.mk tourist_id (Ping.timestamp current_row)
           (Ping.lat current_row) (Ping.lon current_row)
           ml_pattern_anomaly (ML_score score) (Fin (Rabs score))],
        (feature_idx + 1)%nat)
  else Ok (anomalies, (feature_idx + 1)%nat).

(** One turn of the outer loop of [detect_ml_anomalies]. *)
Definition ml_of_tourist (df : dataframe)
    (predictions : list Z) (anomaly_scores : list R)
    (st : list Anomaly.t * nat) (tourist_id : Z) : result (list Anomaly.t * nat) :=
  let tourist_data := sort_values_timestamp (select_tourist df tourist_id) in
  for_each (ml_loop_body tourist_id tourist_data predictions anomaly_scores)
    (seq 1 (length tourist_data - 1)) st.

(** [detect_ml_anomalies(df)] *)
Definition detect_ml_anomalies (d : detector) (df : dataframe)
  : result (list Anomaly.t) :=
  match ml_model d with
  | None => Ok []
  | Some model =>
      do features <- prepare_ml_features d df;
      if (length features =? 0)%nat then Ok []
      else
        do features_scaled <- transform (scaler d) features;
        do predictions <- predict model features_scaled;
        do anomaly_scores <- decision_function model features_scaled;
        do st <- for_each (ml_of_tourist df predictions anomaly_scores)
                   (unique_tourist_ids df) ([], 0%nat);
        Ok (fst st)
  end.

(** One turn of the rule-based loop of [analyze_tourist_data]. *)
Definition rules_loop_body (d : detector) (df : dataframe)
    (all_anomalies : list Anomaly.t) (tourist_id : Z) : result (list Anomaly.t) :=
  do stop_anomalies <- detect_stop_anomaly d df tourist_id;
  let all_anomalies := all_anomalies ++ stop_anomalies in
  do deviation_anomalies <- detect_route_deviation d df tourist_id;
  Ok (all_anomalies ++ deviation_anomalies).

(** [analyze_tourist_data(df, use_ml)]: the detector as the call leaves it
    and the call's outcome. The [try]/[except Exception] around the two ML
    calls turns an exception of either into "no ML anomalies". *)
Definition analyze_tourist_data (d : detector) (df : dataframe) (use_ml : bool)
  : detector * result (list Anomaly.t) :=
  match for_each (rules_loop_body d df) (unique_tourist_ids df) [] with
  | Raise e => (d, Raise e)
  | Ok all_anomalies =>
      if use_ml then
        let '(d, trained) := train_ml_model d df in
        match trained with
        | Raise _ => (d, Ok all_anomalies)
        | Ok _ =>
            match detect_ml_anomalies d df with
            | Raise _ => (d, Ok all_anomalies)
            | Ok ml_anomalies => (d, Ok (all_anomalies ++ ml_anomalies))
            end
        end
      else (d, Ok all_anomalies)
  end.

(** ** StopDetector, as the specification words it *)

(** The rule for one consecutive pair [(prev, cur)]: a stop record at [cur]
    when the two are less than 10 meters apart and at least the threshold
    apart in time, with confidence [min (gap / threshold) 2]. *)
Definition stop_rule (d : detector) (tourist_id : Z) (prev cur : Ping.t * R)
  : list Anomaly.t :=
  let dist :=
    GeoMath.haversine_distance (Ping.lat (fst prev)) (Ping.lon (fst prev))
      (Ping.lat (fst cur)) (Ping.lon (fst cur)) in
  let gap_minutes := (snd cur - snd prev) / 60 in
  if Rltb dist 10 && Rgeb gap_minutes (stop_threshold_minutes d) then
    [Anomaly.mk tourist_id (Ping.timestamp (fst cur))
       (Ping.lat (fst cur)) (Ping.lon (fst cur))
       stopped_too_long (Stopped_for gap_minutes)
       (Fin (Rmin (gap_minutes / stop_threshold_minutes d) 2))]
  else [].

(** All consecutive pairs of a sequence of timed pings, in order. *)
Fixpoint stop_spec (d : detector) (tourist_id : Z) (pings : list (Ping.t * R))
  : list Anomaly.t :=
  match pings with
  | prev :: (cur :: _) as rest =>
      stop_rule d tourist_id prev cur ++ stop_spec d tourist_id rest
  | _ => []
  end.

(** Rows in the order of their timestamp column. *)
Definition sorted_by_timestamp (df : dataframe) : Prop :=
  Sorted (fun r1 r2 => timestamp_leb r1 r2 = true) df.

(** ** DeviationDetector, as the specification words it *)

(** The segments of a path: its consecutive pairs of waypoints. *)
Definition segments (route : list (R * R)) : list ((R * R) * (R * R)) :=
  combine route (tl route).

(** The distances from a ping to the two endpoints of every segment. *)
Definition endpoint_distances (d : detector) (row : Ping.t) : list R :=
  flat_map
    (fun seg =>
       [GeoMath.haversine_distance (Ping.lat row) (Ping.lon row)
          (fst (fst seg)) (snd (fst seg));
        GeoMath.haversine_distance (Ping.lat row) (Ping.lon row)
          (fst (snd seg)) (snd (snd seg))])
    (segments (planned_route d)).

(** The least of [x] and the members of [xs]. *)
Definition list_min (x : R) (xs : list R) : R := fold_left Rmin xs x.

(** The minimum endpoint distance (0 stands in when the path has no
    segment, which the theorems below exclude). *)
Definition min_endpoint_distance (d : detector) (row : Ping.t) : R :=
  match endpoint_distances d row with
  | [] => 0
  | x :: xs => list_min x xs
  end.

(** The rule for one ping: a deviation record when the minimum endpoint
    distance strictly exceeds the threshold, with confidence
    [min (min_distance / threshold) 3]. *)
Definition deviation_rule (d : detector) (tourist_id : Z) (row : Ping.t)
  : list Anomaly.t :=
  let min_distance := min_endpoint_distance d row in
  if Rltb (deviation_threshold_meters d) min_distance then
    [Anomaly.mk tourist_id (Ping.timestamp row) (Ping.lat row) (Ping.lon row)
       route_deviation (Deviated (Fin min_distance))
       (Fin (Rmin (min_distance / deviation_threshold_meters d) 3))]
  else [].

Definition deviation_spec (d : detector) (tourist_id : Z) (df : dataframe)
  : list Anomaly.t :=
  flat_map (deviation_rule d tourist_id) (select_tourist df tourist_id).

(** The accumulator update of [route_loop_body], on a segment. *)
Definition route_step (row : Ping.t) (min_distance : pyfloat)
    (seg : (R * R) * (R * R)) : pyfloat :=
  pf_min
    (pf_min min_distance
       (Fin (GeoMath.haversine_distance (Ping.lat row) (Ping.lon row)
               (fst (fst seg)) (snd (fst seg)))))
    (Fin (GeoMath.haversine_distance (Ping.lat row) (Ping.lon row)
            (fst (snd seg)) (snd (snd seg)))).

(** ** Reading the answer of [check_single_point] *)

Definition is_kind (k : anomaly_kind) (a : Anomaly.t) : bool :=
  anomaly_kind_eqb (Anomaly.anomaly_type a) k.

(** The records of one kind among the anomalies a call returned. *)
Definition records_of_kind (k : anomaly_kind) (anomalies : list Anomaly.t)
  : list Anomaly.t :=
  List.filter (is_kind k) anomalies.

(** ** The pattern model and the batch analysis *)

(** The rule-based detections of a batch, as the specification words them:
    for every distinct entity, its stop records and then its deviation
    records. *)
Definition rule_based_detections (d : detector) (df : dataframe)
  : result (list Anomaly.t) :=
  do per_tourist <-
    map_result
      (fun tourist_id =>
         do stop_anomalies <- detect_stop_anomaly d df tourist_id;
         do deviation_anomalies <- detect_route_deviation d df tourist_id;
         Ok (stop_anomalies ++ deviation_anomalies))
      (unique_tourist_ids df);
  Ok (concat per_tourist).

(** Whether the ML stage of a batch analysis raised: in training, or in
    the prediction that follows a training that returned. *)
Definition ml_stage_raised (d : detector) (df : dataframe) : Prop :=
  (exists e, snd (train_ml_model d df) = Raise e)
  \/ (exists e, detect_ml_anomalies (fst (train_ml_model d df)) df = Raise e).

(** ** Facts about the Python layer *)

Lemma map_result_length {A B} (f : A -> result B) (l : list A) (ys : list B) :
  map_result f l = Ok ys -> length ys = length l.
Proof.
  revert ys. induction l as [|x l IH]; intros ys; simpl.
  - intros [= <-]. reflexivity.
  - destruct (f x) as [y|e]; simpl; [|discriminate].
    destruct (map_result f l) as [ys'|e]; simpl; [|discriminate].
    intros [= <-]. simpl. f_equal. now apply IH.
Qed.

Lemma nth_error_skipn {A} (l : list A) (k : nat) (x : A) :
  nth_error l k = Some x -> skipn k l = x :: skipn (S k) l.
Proof.
  revert k. induction l as [|y l IH]; intros [|k]; simpl; try discriminate.
  - intros [= ->]. reflexivity.
  - intros H. now apply IH.
Qed.

Lemma Rltb_true x y : Rltb x y = true <-> x < y.
Proof. unfold Rltb. destruct (Rlt_dec x y); split; intros; try easy. Qed.

Lemma Rgeb_true x y : Rgeb x y = true <-> x >= y.
Proof. unfold Rgeb. destruct (Rge_dec x y); split; intros; try easy. Qed.

Lemma pf_min_Fin x y : pf_min (Fin x) (Fin y) = Fin (Rmin x y).
Proof.
  unfold pf_min, pf_ltb, Rltb, Rmin.
  destruct (Rlt_dec y x), (Rle_dec x y); try reflexivity; f_equal; lra.
Qed.

Lemma pf_div_Fin x t : t <> 0 -> pf_div (Fin x) t = Ok (Fin (x / t)).
Proof. intros H. unfold pf_div. now destruct (Req_dec_T t 0). Qed.

Lemma Rltb_lt x y : x < y -> Rltb x y = true.
Proof. apply Rltb_true. Qed.

Lemma Rgeb_ge x y : x >= y -> Rgeb x y = true.
Proof. apply Rgeb_true. Qed.

Lemma Rgeb_lt x y : x < y -> Rgeb x y = false.
Proof. intros H. unfold Rgeb. destruct (Rge_dec x y); [lra|reflexivity]. Qed.

(** ** Facts about [sort_values_timestamp] and [select_tourist] *)

Lemma select_tourist_all (df : dataframe) (tourist_id : Z) :
  Forall (fun r => Ping.tourist_id r = tourist_id) df ->
  select_tourist df tourist_id = df.
Proof.
  unfold select_tourist. induction 1 as [|r df Hr _ IH]; simpl; [reflexivity|].
  rewrite Hr, Z.eqb_refl. now f_equal.
Qed.

Lemma sort_values_timestamp_sorted (df : dataframe) :
  sorted_by_timestamp df -> sort_values_timestamp df = df.
Proof.
  unfold sorted_by_timestamp.
  induction 1 as [|r df Hs IH Hhd]; simpl; [reflexivity|].
  rewrite IH. destruct Hhd as [|r' df' Hle]; simpl; [reflexivity|].
  now rewrite Hle.
Qed.

(** ** The loop of [detect_stop_anomaly] *)

Lemma stop_loop_body_rule d tourist_id l acc k prev cur :
  stop_threshold_minutes d <> 0 ->
  nth_error l k = Some prev -> nth_error l (S k) = Some cur ->
  stop_loop_body d tourist_id l acc (S k)
  = Ok (acc ++ stop_rule d tourist_id prev cur).
Proof.
  intros Hthr Hprev Hcur. unfold stop_loop_body, iloc, stop_rule.
  rewrite Hcur. simpl. rewrite Nat.sub_0_r, Hprev. simpl.
  destruct (Rltb _ 10 && Rgeb _ _); [|now rewrite app_nil_r].
  rewrite pf_div_Fin by assumption. simpl. now rewrite pf_min_Fin.
Qed.

Lemma stop_loop_spec d tourist_id l :
  stop_threshold_minutes d <> 0 ->
  forall m k acc, (k + 1 + m = length l)%nat ->
  for_each (stop_loop_body d tourist_id l) (seq (S k) m) acc
  = Ok (acc ++ stop_spec d tourist_id (skipn k l)).
Proof.
  intros Hthr. induction m as [|m IH]; intros k acc Hlen.
  - simpl. destruct (nth_error l k) as [x|] eqn:Hk.
    + rewrite (nth_error_skipn _ _ _ Hk).
      rewrite (skipn_all2 l (n := S k)) by lia. simpl. now rewrite app_nil_r.
    + apply nth_error_None in Hk. lia.
  - destruct (nth_error l k) as [prev|] eqn:Hprev;
      [|apply nth_error_None in Hprev; lia].
    destruct (nth_error l (S k)) as [cur|] eqn:Hcur;
      [|apply nth_error_None in Hcur; lia].
    cbn [seq for_each].
    rewrite (stop_loop_body_rule _ _ _ _ _ _ _ Hthr Hprev Hcur). simpl.
    rewrite IH by lia.
    rewrite (nth_error_skipn _ _ _ Hprev), (nth_error_skipn _ _ _ Hcur).
    cbn [stop_spec]. now rewrite <- app_assoc.
Qed.

(** ** [stop_spec] on particular pairs *)

(** A pair whose gap is below the threshold produces nothing. *)
Lemma stop_rule_short_gap (d : detector) tourist_id prev cur :
  (snd cur - snd prev) / 60 < stop_threshold_minutes d ->
  stop_rule d tourist_id prev cur = [].
Proof.
  intros Hgap. unfold stop_rule. rewrite (Rgeb_lt _ _ Hgap).
  now rewrite andb_false_r.
Qed.

(** A pair at one and the same position whose gap reaches the threshold
    produces one record, at the later ping. *)
Lemma stop_rule_same_place (d : detector) tourist_id prev cur :
  Ping.lat (fst prev) = Ping.lat (fst cur) ->
  Ping.lon (fst prev) = Ping.lon (fst cur) ->
  (snd cur - snd prev) / 60 >= stop_threshold_minutes d ->
  stop_rule d tourist_id prev cur
  = [Anomaly.mk tourist_id (Ping.timestamp (fst cur))
       (Ping.lat (fst cur)) (Ping.lon (fst cur))
       stopped_too_long (Stopped_for ((snd cur - snd prev) / 60))
       (Fin (Rmin ((snd cur - snd prev) / 60 / stop_threshold_minutes d) 2))].
Proof.
  intros Hlat Hlon Hgap. unfold stop_rule.
  rewrite Hlat, Hlon, GeoMath.haversine_distance_diag.
  rewrite Rltb_lt by lra. now rewrite (Rgeb_ge _ _ Hgap).
Qed.

(** Pings that follow each other in less than the threshold never make a
    stop record, wherever they are: the detector looks at one consecutive
    pair at a time and keeps no running dwell. *)
Lemma stop_spec_short_gaps (d : detector) tourist_id pings :
  Forall (fun pair => (snd (snd pair) - snd (fst pair)) / 60 < stop_threshold_minutes d)
    (combine pings (tl pings)) ->
  stop_spec d tourist_id pings = [].
Proof.
  induction pings as [|prev pings IH]; [reflexivity|].
  destruct pings as [|cur pings]; [reflexivity|].
  cbn [tl combine]. intros Hgaps. inversion Hgaps as [|pair rest Hgap Hrest]; subst.
  cbn [stop_spec]. rewrite (stop_rule_short_gap _ _ _ _ Hgap). cbn [app].
  apply IH. exact Hrest.
Qed.

Lemma sort_values_timestamp_length (df : dataframe) :
  length (sort_values_timestamp df) = length df.
Proof.
  induction df as [|r df IH]; simpl; [reflexivity|].
  rewrite <- IH. generalize (sort_values_timestamp df). intros sorted.
  induction sorted as [|r' sorted IHs]; simpl; [reflexivity|].
  destruct (timestamp_leb r r'); simpl; [reflexivity|now rewrite IHs].
Qed.

(** Whatever the order of the input, the detector applies [stop_spec] to
    the entity's rows in the order of their timestamp column. *)
Lemma detect_stop_anomaly_spec d tourist_id df datetime :
  map_result (fun r => to_datetime (Ping.timestamp r))
    (sort_values_timestamp (select_tourist df tourist_id)) = Ok datetime ->
  stop_threshold_minutes d <> 0 ->
  detect_stop_anomaly d df tourist_id
  = Ok (stop_spec d tourist_id
          (combine (sort_values_timestamp (select_tourist df tourist_id)) datetime)).
Proof.
  intros Hdt Hthr. unfold detect_stop_anomaly.
  set (tourist_data := sort_values_timestamp (select_tourist df tourist_id)) in *.
  pose proof (map_result_length _ _ _ Hdt) as Hlen.
  destruct (length tourist_data <? 2)%nat eqn:Hshort.
  - apply Nat.ltb_lt in Hshort.
    destruct tourist_data as [|r [|r' rows]]; simpl in Hshort; try lia;
      destruct datetime as [|t [|t' datetime]]; simpl in Hlen; try lia;
      reflexivity.
  - apply Nat.ltb_ge in Hshort. unfold with_datetime. rewrite Hdt. simpl.
    assert (Hc : length (combine tourist_data datetime) = length tourist_data)
      by (rewrite length_combine; lia).
    rewrite (stop_loop_spec d tourist_id _ Hthr
               (length (combine tourist_data datetime) - 1) 0 []) by lia.
    reflexivity.
Qed.

(** On rows that are all the entity's and already in timestamp order, that
    is [stop_spec] on the input itself. *)
Lemma detect_stop_anomaly_sorted d tourist_id df datetime :
  Forall (fun r => Ping.tourist_id r = tourist_id) df ->
  sorted_by_timestamp df ->
  map_result (fun r => to_datetime (Ping.timestamp r)) df = Ok datetime ->
  stop_threshold_minutes d <> 0 ->
  detect_stop_anomaly d df tourist_id
  = Ok (stop_spec d tourist_id (combine df datetime)).
Proof.
  intros Hid Hsorted Hdt Hthr.
  pose proof (detect_stop_anomaly_spec d tourist_id df datetime) as Hspec.
  rewrite (select_tourist_all _ _ Hid), (sort_values_timestamp_sorted _ Hsorted)
    in Hspec.
  now apply Hspec.
Qed.

Lemma detect_stop_anomaly_short d tourist_id df :
  (length (select_tourist df tourist_id) < 2)%nat ->
  detect_stop_anomaly d df tourist_id = Ok [].
Proof.
  intros Hshort. unfold detect_stop_anomaly.
  rewrite sort_values_timestamp_length. apply Nat.ltb_lt in Hshort.
  now rewrite Hshort.
Qed.

(** Hence an entity whose pings follow each other in less than the
    threshold is never reported as stopped, however long it stays. *)
Lemma detect_stop_anomaly_short_gaps d tourist_id df datetime :
  Forall (fun r => Ping.tourist_id r = tourist_id) df ->
  sorted_by_timestamp df ->
  map_result (fun r => to_datetime (Ping.timestamp r)) df = Ok datetime ->
  stop_threshold_minutes d <> 0 ->
  Forall (fun pair => (snd (snd pair) - snd (fst pair)) / 60 < stop_threshold_minutes d)
    (combine (combine df datetime) (tl (combine df datetime))) ->
  detect_stop_anomaly d df tourist_id = Ok [].
Proof.
  intros Hid Hsorted Hdt Hthr Hgaps.
  rewrite (detect_stop_anomaly_sorted d tourist_id df datetime) by assumption.
  f_equal. now apply stop_spec_short_gaps.
Qed.


(** ** The loops of [detect_route_deviation] *)

Lemma for_each_flat_map {A B} (body : list B -> A -> result (list B))
    (f : A -> list B) (l : list A) :
  (forall acc x, In x l -> body acc x = Ok (acc ++ f x)) ->
  forall acc, for_each body l acc = Ok (acc ++ flat_map f l).
Proof.
  induction l as [|x l IH]; intros Hbody acc; simpl.
  - now rewrite app_nil_r.
  - rewrite Hbody by now left. simpl.
    rewrite IH by (intros; apply Hbody; now right).
    now rewrite <- app_assoc.
Qed.

Lemma segments_nth_error (route : list (R * R)) (i : nat) :
  nth_error (segments route) i
  = match nth_error route i, nth_error route (S i) with
    | Some s, Some e => Some (s, e)
    | _, _ => None
    end.
Proof.
  unfold segments. revert i. induction route as [|a route IH]; intros i.
  - now destruct i.
  - destruct route as [|b route]; [destruct i as [|[|i]]; reflexivity|].
    destruct i as [|i]; [reflexivity|].
    change (nth_error (combine (a :: b :: route) (tl (a :: b :: route))) (S i))
      with (nth_error (combine (b :: route) (tl (b :: route))) i).
    rewrite IH. reflexivity.
Qed.

Lemma segments_length (route : list (R * R)) :
  length (segments route) = (length route - 1)%nat.
Proof.
  unfold segments. rewrite length_combine.
  destruct route as [|a route]; cbn [tl length]; lia.
Qed.

Lemma route_loop_fold d row :
  forall m k acc, (k + m = length (segments (planned_route d)))%nat ->
  for_each (route_loop_body d row) (seq k m) acc
  = Ok (fold_left (route_step row) (skipn k (segments (planned_route d))) acc).
Proof.
  induction m as [|m IH]; intros k acc Hlen.
  - simpl. rewrite skipn_all2 by lia. reflexivity.
  - destruct (nth_error (segments (planned_route d)) k) as [[s e]|] eqn:Hk;
      [|apply nth_error_None in Hk; lia].
    rewrite (nth_error_skipn _ _ _ Hk). cbn [seq for_each fold_left].
    rewrite segments_nth_error in Hk.
    destruct (nth_error (planned_route d) k) as [s'|] eqn:Hs; [|discriminate].
    destruct (nth_error (planned_route d) (S k)) as [e'|] eqn:He; [|discriminate].
    injection Hk as -> ->.
    unfold route_loop_body at 1, iloc. rewrite Hs. simpl.
    replace (k + 1)%nat with (S k) by lia. rewrite He. simpl.
    rewrite IH by lia. reflexivity.
Qed.

Lemma fold_route_step_distances row segs acc :
  fold_left (route_step row) segs acc
  = fold_left (fun m x => pf_min m (Fin x))
      (flat_map
         (fun seg =>
            [GeoMath.haversine_distance (Ping.lat row) (Ping.lon row)
               (fst (fst seg)) (snd (fst seg));
             GeoMath.haversine_distance (Ping.lat row) (Ping.lon row)
               (fst (snd seg)) (snd (snd seg))]) segs) acc.
Proof.
  revert acc. induction segs as [|seg segs IH]; intros acc; simpl; [reflexivity|].
  now rewrite IH.
Qed.

Lemma fold_pf_min_Fin xs x :
  fold_left (fun m y => pf_min m (Fin y)) xs (Fin x) = Fin (list_min x xs).
Proof.
  unfold list_min. revert x. induction xs as [|y xs IH]; intros x; simpl; [reflexivity|].
  now rewrite pf_min_Fin, IH.
Qed.

Lemma fold_pf_min_PosInf xs :
  fold_left (fun m y => pf_min m (Fin y)) xs PosInf
  = match xs with
    | [] => PosInf
    | x :: xs' => Fin (list_min x xs')
    end.
Proof. destruct xs as [|x xs]; [reflexivity|]. apply fold_pf_min_Fin. Qed.

Lemma route_min_distance_fold d row :
  route_min_distance d row
  = Ok (fold_left (fun m y => pf_min m (Fin y)) (endpoint_distances d row) PosInf).
Proof.
  unfold route_min_distance.
  rewrite route_loop_fold by (rewrite segments_length; lia).
  change (skipn 0 ?l) with l. now rewrite fold_route_step_distances.
Qed.

Lemma endpoint_distances_nonempty d row :
  (2 <= length (planned_route d))%nat -> endpoint_distances d row <> [].
Proof.
  intros Hlen. unfold endpoint_distances.
  pose proof (segments_length (planned_route d)) as Hseg.
  destruct (segments (planned_route d)); simpl in *; [lia|discriminate].
Qed.

Lemma route_min_distance_spec d row :
  (2 <= length (planned_route d))%nat ->
  route_min_distance d row = Ok (Fin (min_endpoint_distance d row)).
Proof.
  intros Hlen. rewrite route_min_distance_fold, fold_pf_min_PosInf.
  unfold min_endpoint_distance.
  pose proof (endpoint_distances_nonempty d row Hlen).
  now destruct (endpoint_distances d row).
Qed.

Lemma list_min_le_init x xs : list_min x xs <= x.
Proof.
  unfold list_min. revert x. induction xs as [|y xs IH]; intros x; simpl; [lra|].
  etransitivity; [apply IH|apply Rmin_l].
Qed.

Lemma list_min_lower_bound x xs : Forall (fun y => list_min x xs <= y) (x :: xs).
Proof.
  constructor; [apply list_min_le_init|].
  unfold list_min. revert x. induction xs as [|y xs IH]; intros x; simpl; constructor.
  - etransitivity; [apply (list_min_le_init (Rmin x y) xs)|apply Rmin_r].
  - apply IH.
Qed.

Lemma list_min_In x xs : In (list_min x xs) (x :: xs).
Proof.
  unfold list_min. revert x. induction xs as [|y xs IH]; intros x; simpl; [now left|].
  destruct (IH (Rmin x y)) as [H|H]; [|now right; right].
  rewrite <- H. unfold Rmin. destruct (Rle_dec x y); [now left|now right; left].
Qed.

Lemma min_endpoint_distance_is_min d row :
  (2 <= length (planned_route d))%nat ->
  In (min_endpoint_distance d row) (endpoint_distances d row)
  /\ Forall (fun y => min_endpoint_distance d row <= y) (endpoint_distances d row).
Proof.
  intros Hlen. pose proof (endpoint_distances_nonempty d row Hlen) as Hne.
  unfold min_endpoint_distance. destruct (endpoint_distances d row) as [|x xs]; [easy|].
  split; [apply list_min_In|apply list_min_lower_bound].
Qed.

Lemma endpoint_distances_nonneg d row :
  Forall (fun y => 0 <= y) (endpoint_distances d row).
Proof.
  unfold endpoint_distances. apply List.Forall_forall. intros y Hy.
  apply in_flat_map in Hy as [seg [_ [<-|[<-|[]]]]];
    apply GeoMath.haversine_distance_nonneg.
Qed.

Lemma waypoint_in_segment (route : list (R * R)) (w : R * R) :
  (2 <= length route)%nat -> In w route ->
  exists seg, In seg (segments route) /\ (fst seg = w \/ snd seg = w).
Proof.
  intros Hlen Hin. apply In_nth_error in Hin as [i Hi].
  destruct i as [|j].
  - destruct (nth_error route 1) as [e|] eqn:He;
      [|apply nth_error_None in He; lia].
    exists (w, e). split; [|now left].
    apply (nth_error_In _ 0). now rewrite segments_nth_error, Hi, He.
  - destruct (nth_error route j) as [s0|] eqn:Hs.
    + exists (s0, w). split; [|now right].
      apply (nth_error_In _ j). now rewrite segments_nth_error, Hs, Hi.
    + apply nth_error_None in Hs.
      assert (nth_error route (S j) <> None) by congruence.
      apply nth_error_Some in H. lia.
Qed.

Lemma min_endpoint_distance_at_waypoint d row :
  (2 <= length (planned_route d))%nat ->
  In (Ping.lat row, Ping.lon row) (planned_route d) ->
  min_endpoint_distance d row = 0.
Proof.
  intros Hlen Hin.
  destruct (min_endpoint_distance_is_min d row Hlen) as [Hmem Hlow].
  pose proof (endpoint_distances_nonneg d row) as Hpos.
  rewrite List.Forall_forall in Hlow, Hpos.
  destruct (waypoint_in_segment _ _ Hlen Hin) as [seg [Hseg Hend]].
  assert (Hzero : In 0 (endpoint_distances d row)).
  { unfold endpoint_distances. apply in_flat_map. exists seg. split; [exact Hseg|].
    destruct Hend as [-> | ->]; cbn [fst snd];
      rewrite GeoMath.haversine_distance_diag; [now left|now right; left]. }
  apply Rle_antisym; [now apply Hlow|now apply Hpos].
Qed.

Lemma deviation_loop_body_rule d tourist_id acc row :
  (2 <= length (planned_route d))%nat ->
  deviation_threshold_meters d <> 0 ->
  deviation_loop_body d tourist_id acc row
  = Ok (acc ++ deviation_rule d tourist_id row).
Proof.
  intros Hlen Hthr. unfold deviation_loop_body, deviation_rule.
  rewrite (route_min_distance_spec d row Hlen). cbn [bind pf_ltb].
  destruct (Rltb _ _); [|now rewrite app_nil_r].
  rewrite pf_div_Fin by assumption. cbn [bind]. now rewrite pf_min_Fin.
Qed.

Lemma detect_route_deviation_rule d tourist_id df :
  (2 <= length (planned_route d))%nat ->
  deviation_threshold_meters d <> 0 ->
  detect_route_deviation d df tourist_id = Ok (deviation_spec d tourist_id df).
Proof.
  intros Hlen Hthr. unfold detect_route_deviation, deviation_spec.
  apply (for_each_flat_map _ (deviation_rule d tourist_id)).
  intros acc row _. now apply deviation_loop_body_rule.
Qed.

Lemma detect_route_deviation_at_waypoint d row :
  (2 <= length (planned_route d))%nat ->
  0 < deviation_threshold_meters d ->
  In (Ping.lat row, Ping.lon row) (planned_route d) ->
  detect_route_deviation d [row] (Ping.tourist_id row) = Ok [].
Proof.
  intros Hlen Hthr Hway.
  rewrite detect_route_deviation_rule by (assumption || lra).
  unfold deviation_spec, select_tourist. cbn [List.filter].
  rewrite Z.eqb_refl. cbn [flat_map]. unfold deviation_rule.
  rewrite (min_endpoint_distance_at_waypoint d row Hlen Hway).
  destruct (Rltb (deviation_threshold_meters d) 0) eqn:Hlt; [|reflexivity].
  apply Rltb_true in Hlt. lra.
Qed.

(** The record the detector makes of a ping it reports. *)
Definition deviation_record (d : detector) (tourist_id : Z) (row : Ping.t)
  : Anomaly.t :=
  Anomaly.mk tourist_id (Ping.timestamp row) (Ping.lat row) (Ping.lon row)
    route_deviation (Deviated (Fin (min_endpoint_distance d row)))
    (Fin (Rmin (min_endpoint_distance d row / deviation_threshold_meters d) 3)).

(** Whether a row is a ping of the entity that lies farther than the
    threshold from every segment endpoint. *)
Definition reported (d : detector) (tourist_id : Z) (row : Ping.t) : bool :=
  Z.eqb (Ping.tourist_id row) tourist_id
  && Rltb (deviation_threshold_meters d) (min_endpoint_distance d row).

Lemma deviation_spec_reported d tourist_id df :
  deviation_spec d tourist_id df
  = List.map (deviation_record d tourist_id)
      (List.filter (reported d tourist_id) df).
Proof.
  unfold deviation_spec, select_tourist, reported.
  induction df as [|row df IH]; [reflexivity|]. cbn [List.filter].
  destruct (Z.eqb (Ping.tourist_id row) tourist_id); cbn [andb flat_map];
    [|exact IH].
  unfold deviation_rule at 1.
  destruct (Rltb (deviation_threshold_meters d) (min_endpoint_distance d row));
    cbn [app List.map]; [|exact IH].
  now rewrite IH.
Qed.

Lemma In_tl {A} (x : A) (l : list A) : In x (tl l) -> In x l.
Proof. destruct l; [easy|now right]. Qed.

(** Every endpoint distance is the distance to a waypoint of the route. *)
Lemma endpoint_distances_waypoints d row y :
  In y (endpoint_distances d row) ->
  exists w, In w (planned_route d)
            /\ y = GeoMath.haversine_distance (Ping.lat row) (Ping.lon row)
                     (fst w) (snd w).
Proof.
  unfold endpoint_distances, segments. intros Hy.
  apply in_flat_map in Hy as [[start_point end_point] [Hseg Hy]].
  cbn [fst snd] in Hy. destruct Hy as [<-|[<-|[]]].
  - exists start_point. split; [|reflexivity]. now apply in_combine_l in Hseg.
  - exists end_point. split; [|reflexivity].
    apply in_combine_r in Hseg. now apply In_tl.
Qed.

(** A ping at least [b] meters from every waypoint has a minimum of at
    least [b]. *)
Lemma min_endpoint_distance_lower d row b :
  (2 <= length (planned_route d))%nat ->
  (forall w, In w (planned_route d) ->
             b <= GeoMath.haversine_distance (Ping.lat row) (Ping.lon row)
                    (fst w) (snd w)) ->
  b <= min_endpoint_distance d row.
Proof.
  intros Hlen Hfar.
  destruct (min_endpoint_distance_is_min d row Hlen) as [Hmem _].
  apply endpoint_distances_waypoints in Hmem as [w [Hw ->]]. now apply Hfar.
Qed.

(** C2. With a reference path of at least two waypoints and a non-zero
    threshold: for every ping the detector's [min_distance] is the least
    of the haversine distances from the ping to the endpoints of every
    segment of the path; the detector returns, in the order of the input,
    one deviation record for each ping of the entity whose minimum
    strictly exceeds [deviation_threshold_meters], with confidence
    [min (min_distance / deviation_threshold_meters) 3], and none for any
    other ping; and a ping exactly at a waypoint has minimum distance 0
    and, under a positive threshold, yields no anomaly. *)
Theorem detect_route_deviation_min_endpoint (d : detector) (tourist_id : Z) :
  (2 <= length (planned_route d))%nat ->
  deviation_threshold_meters d <> 0 ->
  (forall row : Ping.t,
      route_min_distance d row = Ok (Fin (min_endpoint_distance d row))
      /\ In (min_endpoint_distance d row) (endpoint_distances d row)
      /\ Forall (fun y => min_endpoint_distance d row <= y) (endpoint_distances d row))
  /\ (forall df : dataframe,
        exists anomalies : list Anomaly.t,
          detect_route_deviation d df tourist_id = Ok anomalies
          /\ anomalies
             = List.map
                 (fun row =>
                    Anomaly.mk tourist_id (Ping.timestamp row) (Ping.lat row)
                      (Ping.lon row) route_deviation
                      (Deviated (Fin (min_endpoint_distance d row)))
                      (Fin (Rmin (min_endpoint_distance d row
                                  / deviation_threshold_meters d) 3)))
                 (List.filter
                    (fun row =>
                       Z.eqb (Ping.tourist_id row) tourist_id
                       && Rltb (deviation_threshold_meters d)
                            (min_endpoint_distance d row))
                    df)
          /\ forall row : Ping.t,
               In row df -> Ping.tourist_id row = tourist_id ->
               (In (deviation_record d tourist_id row) anomalies
                <-> deviation_threshold_meters d < min_endpoint_distance d row))
  /\ (forall row : Ping.t,
        In (Ping.lat row, Ping.lon row) (planned_route d) ->
        min_endpoint_distance d row = 0
        /\ (0 < deviation_threshold_meters d ->
            detect_route_deviation d [row] (Ping.tourist_id row) = Ok [])).
Proof.
  intros Hlen Hthr. split; [|split].
  - intros row. split; [now apply route_min_distance_spec|].
    now apply min_endpoint_distance_is_min.
  - intros df. eexists. split; [now apply detect_route_deviation_rule|].
    rewrite deviation_spec_reported. split; [reflexivity|].
    intros row Hrow Hid. split.
    + intros Hin. apply in_map_iff in Hin as [row' [Hrecord Hin]].
      apply filter_In in Hin as [_ Hreported].
      apply andb_true_iff in Hreported as [_ Hfar]. apply Rltb_true in Hfar.
      unfold deviation_record in Hrecord.
      injection Hrecord as _ _ _ Hmin _. now rewrite <- Hmin.
    + intros Hfar. apply in_map_iff. exists row. split; [reflexivity|].
      apply filter_In. split; [exact Hrow|]. unfold reported.
      apply andb_true_iff. split; [now apply Z.eqb_eq|now apply Rltb_lt].
  - intros row Hway. split.
    + now apply min_endpoint_distance_at_waypoint.
    + intros Hpos. now apply detect_route_deviation_at_waypoint.
Qed.

(** ** The answers of [check_single_point] *)

Lemma for_each_invariant {A S} (P : S -> Prop) (body : S -> A -> result S)
    (l : list A) :
  (forall s x s', In x l -> P s -> body s x = Ok s' -> P s') ->
  forall s s', P s -> for_each body l s = Ok s' -> P s'.
Proof.
  induction l as [|x l IH]; intros Hbody s s' Hs; simpl.
  - now intros [= <-].
  - destruct (body s x) as [s1|e] eqn:Hx; simpl; [|discriminate].
    apply IH; [intros; eapply Hbody; eauto; now right|].
    eapply Hbody; eauto. now left.
Qed.

Lemma detect_stop_anomaly_kind d df tourist_id anomalies :
  detect_stop_anomaly d df tourist_id = Ok anomalies ->
  Forall (fun a => Anomaly.anomaly_type a = stopped_too_long) anomalies.
Proof.
  unfold detect_stop_anomaly.
  destruct (_ <? 2)%nat; [now intros [= <-]|].
  destruct (with_datetime _) as [tourist_data|e]; simpl; [|discriminate].
  apply for_each_invariant; [|constructor].
  intros acc i acc' _ Hacc. unfold stop_loop_body.
  destruct (iloc tourist_data i) as [cur|]; simpl; [|discriminate].
  destruct (iloc tourist_data (i - 1)) as [prev|]; simpl; [|discriminate].
  destruct (Rltb _ 10 && Rgeb _ _); [|now intros [= <-]].
  destruct (pf_div _ _) as [ratio|]; simpl; [|discriminate].
  intros [= <-]. apply Forall_app. split; [assumption|]. now repeat constructor.
Qed.

Lemma detect_route_deviation_kind d df tourist_id anomalies :
  detect_route_deviation d df tourist_id = Ok anomalies ->
  Forall (fun a => Anomaly.anomaly_type a = route_deviation) anomalies.
Proof.
  unfold detect_route_deviation.
  apply for_each_invariant; [|constructor].
  intros acc row acc' _ Hacc. unfold deviation_loop_body.
  destruct (route_min_distance d row) as [m|]; cbn [bind]; [|discriminate].
  destruct (pf_ltb (Fin (deviation_threshold_meters d)) m); [|now intros [= <-]].
  destruct (pf_div m _) as [ratio|]; cbn [bind]; [|discriminate].
  intros [= <-]. apply Forall_app. split; [assumption|]. now repeat constructor.
Qed.

(** What the filtering loop of [check_single_point] adds to [anomalies]:
    members of [stop_anomalies] less than 60 seconds from [current_time]. *)
Lemma recent_loop_spec current_time stop_anomalies anomalies out :
  for_each (recent_loop_body current_time) stop_anomalies anomalies = Ok out ->
  exists kept,
    out = anomalies ++ kept
    /\ Forall (fun a =>
                 In a stop_anomalies
                 /\ exists anomaly_time,
                     to_datetime (Anomaly.timestamp a) = Ok anomaly_time
                     /\ Rabs (current_time - anomaly_time) < 60) kept.
Proof.
  apply (for_each_invariant
           (fun acc => exists kept,
                acc = anomalies ++ kept
                /\ Forall (fun a =>
                     In a stop_anomalies
                     /\ exists anomaly_time,
                         to_datetime (Anomaly.timestamp a) = Ok anomaly_time
                         /\ Rabs (current_time - anomaly_time) < 60) kept)).
  - intros acc a acc' Hin [kept [-> Hkept]]. unfold recent_loop_body.
    destruct (to_datetime (Anomaly.timestamp a)) as [t|] eqn:Ht; simpl; [|discriminate].
    destruct (Rltb _ 60) eqn:Hnear; intros [= <-]; [|now exists kept].
    exists (kept ++ [a]). split; [now rewrite app_assoc|].
    apply Forall_app. split; [assumption|].
    constructor; [|constructor]. split; [assumption|].
    exists t. split; [exact Ht|now apply Rltb_true].
  - exists []. split; [now rewrite app_nil_r|constructor].
Qed.

(** The shape of every answer of [check_single_point]: the deviation
    records of the lone new ping, followed by recent stop records (none
    when no history is supplied). *)
Lemma check_single_point_shape d tourist_id lat lon timestamp historical_data out :
  check_single_point d tourist_id lat lon timestamp historical_data = Ok out ->
  exists deviation kept,
    detect_route_deviation d (current_point tourist_id lat lon timestamp) tourist_id
    = Ok deviation
    /\ out = deviation ++ kept
    /\ Forall (fun a => Anomaly.anomaly_type a = route_deviation) deviation
    /\ Forall (fun a =>
                 Anomaly.anomaly_type a = stopped_too_long
                 /\ exists current_time anomaly_time,
                     to_datetime timestamp = Ok current_time
                     /\ to_datetime (Anomaly.timestamp a) = Ok anomaly_time
                     /\ Rabs (current_time - anomaly_time) < 60) kept
    /\ ((historical_data = None \/ historical_data = Some []) -> kept = []).
Proof.
  unfold check_single_point.
  destruct (detect_route_deviation _ _ _) as [deviation|] eqn:Hdev; simpl; [|discriminate].
  pose proof (detect_route_deviation_kind _ _ _ _ Hdev) as Hkind.
  assert (Hnone : Ok deviation = Ok out ->
          exists deviation0 kept,
            Ok deviation = Ok deviation0 /\ out = deviation0 ++ kept
            /\ Forall (fun a => Anomaly.anomaly_type a = route_deviation) deviation0
            /\ Forall (fun a =>
                 Anomaly.anomaly_type a = stopped_too_long
                 /\ exists current_time anomaly_time,
                     to_datetime timestamp = Ok current_time
                     /\ to_datetime (Anomaly.timestamp a) = Ok anomaly_time
                     /\ Rabs (current_time - anomaly_time) < 60) kept
            /\ ((historical_data = None \/ historical_data = Some []) -> kept = [])).
  { intros [= <-]. exists deviation, []. rewrite app_nil_r. repeat split; auto. }
  destruct historical_data as [history|]; [|exact Hnone].
  destruct (0 <? length history)%nat eqn:Hlen; [|exact Hnone].
  clear Hnone.
  destruct (detect_stop_anomaly _ _ _) as [stops|] eqn:Hstop; simpl; [|discriminate].
  destruct (to_datetime timestamp) as [current_time|] eqn:Hnow; simpl; [|discriminate].
  intros Hloop. apply recent_loop_spec in Hloop as [kept [-> Hkept]].
  pose proof (detect_stop_anomaly_kind _ _ _ _ Hstop) as Hstops.
  rewrite List.Forall_forall in Hstops.
  exists deviation, kept. repeat split; auto.
  - eapply List.Forall_impl; [|exact Hkept]. intros a [Hin [t [Ht Hnear]]].
    split; [now apply Hstops|]. now exists current_time, t.
  - intros [Habs|Habs]; [discriminate|].
    injection Habs as ->. discriminate.
Qed.


Lemma records_of_kind_none k k' anomalies :
  k <> k' ->
  Forall (fun a => Anomaly.anomaly_type a = k') anomalies ->
  records_of_kind k anomalies = [].
Proof.
  intros Hne. unfold records_of_kind, is_kind.
  induction 1 as [|a l Ha _ IH]; simpl; [reflexivity|].
  rewrite Ha, IH. destruct k, k'; try reflexivity; congruence.
Qed.


(** C4. Whenever [check_single_point] returns: with a history that is
    [None] or empty the answer holds no stop record, and every stop record
    in the answer has a timestamp strictly less than 60 seconds away from
    the queried ping's timestamp. *)
Theorem check_single_point_stop_records (d : detector) (tourist_id : Z)
    (lat lon : R) (timestamp : string) (historical_data : option dataframe)
    (out : list Anomaly.t) :
  check_single_point d tourist_id lat lon timestamp historical_data = Ok out ->
  ((historical_data = None \/ historical_data = Some []) ->
   records_of_kind stopped_too_long out = [])
  /\ Forall (fun a =>
               Anomaly.anomaly_type a = stopped_too_long ->
               exists current_time anomaly_time,
                 to_datetime timestamp = Ok current_time
                 /\ to_datetime (Anomaly.timestamp a) = Ok anomaly_time
                 /\ Rabs (current_time - anomaly_time) < 60) out.
Proof.
  intros Hcall.
  destruct (check_single_point_shape _ _ _ _ _ _ _ Hcall)
    as [deviation [kept [_ [-> [Hdev [Hkept Hempty]]]]]].
  split.
  - intros Hhist. rewrite (Hempty Hhist), app_nil_r.
    now apply (records_of_kind_none _ route_deviation).
  - apply Forall_app. split.
    + eapply List.Forall_impl; [|exact Hdev]. intros a Ha Hstop. congruence.
    + eapply List.Forall_impl; [|exact Hkept]. now intros a [_ Hnear] _.
Qed.


(** ** The pattern model and the batch analysis, on the code *)

Lemma for_each_concat {A B} (body : list B -> A -> result (list B))
    (f : A -> result (list B)) (l : list A) :
  (forall acc x, body acc x = do y <- f x; Ok (acc ++ y)) ->
  forall acc,
    for_each body l acc = do ys <- map_result f l; Ok (acc ++ concat ys).
Proof.
  intros Hbody. induction l as [|x l IH]; intros acc; simpl.
  - now rewrite app_nil_r.
  - rewrite Hbody. destruct (f x) as [y|e]; simpl; [|reflexivity].
    rewrite IH. destruct (map_result f l) as [ys|e]; simpl; [|reflexivity].
    now rewrite app_assoc.
Qed.

Lemma rules_loop_spec d df :
  for_each (rules_loop_body d df) (unique_tourist_ids df) []
  = rule_based_detections d df.
Proof.
  unfold rule_based_detections.
  rewrite (for_each_concat _
             (fun tourist_id =>
                do stop_anomalies <- detect_stop_anomaly d df tourist_id;
                do deviation_anomalies <- detect_route_deviation d df tourist_id;
                Ok (stop_anomalies ++ deviation_anomalies))); [reflexivity|].
  intros acc tourist_id. unfold rules_loop_body.
  destruct (detect_stop_anomaly d df tourist_id) as [stops|e]; simpl; [|reflexivity].
  destruct (detect_route_deviation d df tourist_id) as [devs|e]; simpl; [|reflexivity].
  now rewrite app_assoc.
Qed.

Lemma detect_ml_anomalies_kind d df anomalies :
  detect_ml_anomalies d df = Ok anomalies ->
  Forall (fun a => Anomaly.anomaly_type a = ml_pattern_anomaly) anomalies.
Proof.
  unfold detect_ml_anomalies.
  destruct (ml_model d) as [model|]; [|now intros [= <-]].
  destruct (prepare_ml_features d df) as [features|]; cbn [bind]; [|discriminate].
  destruct (length features =? 0)%nat; [now intros [= <-]|].
  destruct (transform _ _) as [scaled|]; cbn [bind]; [|discriminate].
  destruct (predict _ _) as [predictions|]; cbn [bind]; [|discriminate].
  destruct (decision_function _ _) as [scores|]; cbn [bind]; [|discriminate].
  destruct (for_each _ _ _) as [st|] eqn:Hloop; cbn [bind]; [|discriminate].
  intros [= <-]. revert Hloop.
  apply (for_each_invariant
           (fun st => Forall (fun a => Anomaly.anomaly_type a = ml_pattern_anomaly)
                        (fst st))); [|constructor].
  intros st0 tourist_id st1 _ Hst0. unfold ml_of_tourist.
  apply (for_each_invariant
           (fun st => Forall (fun a => Anomaly.anomaly_type a = ml_pattern_anomaly)
                        (fst st))); [|exact Hst0].
  intros [acc idx] i st' _ Hacc. unfold ml_loop_body.
  destruct (_ && _); [|now intros [= <-]].
  destruct (iloc _ i) as [cur|]; cbn [bind]; [|discriminate].
  destruct (iloc scores idx) as [score|]; cbn [bind]; [|discriminate].
  intros [= <-]. cbn [fst] in *. apply Forall_app. split; [assumption|].
  now repeat constructor.
Qed.



(** C6. A batch analysis with [use_ml = True] returns whatever the
    rule-based analysis returns, followed by the pattern records (none when
    training or prediction raised): an exception of the ML stage never
    reaches the caller, and every stop and deviation record of the
    rule-based detectors is still in the answer. *)
Theorem analyze_tourist_data_contains_ml_failure (d : detector) (df : dataframe) :
  snd (analyze_tourist_data d df false) = rule_based_detections d df
  /\ exists ml_anomalies : list Anomaly.t,
       snd (analyze_tourist_data d df true)
       = (do rule_anomalies <- rule_based_detections d df;
          Ok (rule_anomalies ++ ml_anomalies))
       /\ Forall (fun a => Anomaly.anomaly_type a = ml_pattern_anomaly) ml_anomalies
       /\ (ml_stage_raised d df -> ml_anomalies = []).
Proof.
  unfold analyze_tourist_data, ml_stage_raised. rewrite rules_loop_spec.
  destruct (rule_based_detections d df) as [rule_anomalies|e]; cbn [snd bind].
  - split; [reflexivity|].
    destruct (train_ml_model d df) as [d' [[]|e]] eqn:Htrain; cbn [snd fst].
    + destruct (detect_ml_anomalies d' df) as [ml|e] eqn:Hml; cbn [snd].
      * exists ml. split; [reflexivity|]. split.
        -- now apply (detect_ml_anomalies_kind d' df).
        -- intros [[e He]|[e He]]; discriminate.
      * exists []. rewrite app_nil_r. repeat split; auto.
    + exists []. rewrite app_nil_r. repeat split; auto.
  - split; [reflexivity|]. exists []. repeat split; auto.
Qed.

(** ** Permutations of the input of [detect_stop_anomaly] *)

Lemma ascii_compare_lt a b :
  Ascii.compare a b = Lt <-> (N_of_ascii a < N_of_ascii b)%N.
Proof. unfold Ascii.compare. apply N.compare_lt_iff. Qed.

Lemma string_leb_trans s1 s2 s3 :
  String.leb s1 s2 = true -> String.leb s2 s3 = true -> String.leb s1 s3 = true.
Proof.
  unfold String.leb. revert s2 s3.
  induction s1 as [|a s1 IH]; intros [|b s2] [|c s3]; simpl; try easy.
  destruct (Ascii.compare a b) eqn:Hab; try easy.
  - apply Ascii.compare_eq_iff in Hab as ->.
    destruct (Ascii.compare b c) eqn:Hbc; try easy. apply IH.
  - destruct (Ascii.compare b c) eqn:Hbc; try easy.
    + apply Ascii.compare_eq_iff in Hbc as ->. now rewrite Hab.
    + pose proof (proj1 (ascii_compare_lt _ _) Hab) as Hab'.
      pose proof (proj1 (ascii_compare_lt _ _) Hbc) as Hbc'.
      assert (Hac : Ascii.compare a c = Lt) by (apply ascii_compare_lt; lia).
      now rewrite Hac.
Qed.

Lemma timestamp_leb_trans r1 r2 r3 :
  timestamp_leb r1 r2 = true -> timestamp_leb r2 r3 = true ->
  timestamp_leb r1 r3 = true.
Proof. apply string_leb_trans. Qed.

Lemma insert_sorted_Permutation r l : Permutation (insert_sorted r l) (r :: l).
Proof.
  induction l as [|r' l IH]; simpl; [reflexivity|].
  destruct (timestamp_leb r r'); [reflexivity|].
  rewrite IH. apply perm_swap.
Qed.

Lemma sort_values_timestamp_Permutation df :
  Permutation (sort_values_timestamp df) df.
Proof.
  induction df as [|r df IH]; simpl; [reflexivity|].
  now rewrite insert_sorted_Permutation, IH.
Qed.

Lemma insert_sorted_Sorted r l :
  sorted_by_timestamp l -> sorted_by_timestamp (insert_sorted r l).
Proof.
  unfold sorted_by_timestamp.
  induction 1 as [|r' l Hs IH Hhd]; simpl; [repeat constructor|].
  destruct (timestamp_leb r r') eqn:Hle.
  - constructor; [now constructor|now constructor].
  - constructor; [exact IH|].
    assert (Hge : timestamp_leb r' r = true).
    { unfold timestamp_leb in *.
      destruct (String.leb_total (Ping.timestamp r) (Ping.timestamp r')); congruence. }
    destruct Hhd as [|r'' l' Hr'']; simpl; [now constructor|].
    destruct (timestamp_leb r r''); now constructor.
Qed.

Lemma sort_values_timestamp_Sorted df :
  sorted_by_timestamp (sort_values_timestamp df).
Proof.
  induction df as [|r df IH]; simpl; [constructor|].
  now apply insert_sorted_Sorted.
Qed.

(** Rows whose timestamps are pairwise distinct have one sorted order. *)
Lemma sorted_by_timestamp_unique l1 l2 :
  Permutation l1 l2 ->
  List.NoDup (List.map Ping.timestamp l1) ->
  sorted_by_timestamp l1 -> sorted_by_timestamp l2 ->
  l1 = l2.
Proof.
  unfold sorted_by_timestamp. intros Hperm Hnodup Hs1 Hs2.
  apply Sorted_StronglySorted in Hs1; [|intros ? ? ?; apply timestamp_leb_trans].
  apply Sorted_StronglySorted in Hs2; [|intros ? ? ?; apply timestamp_leb_trans].
  revert l2 Hperm Hs2.
  induction Hs1 as [|x l1 Hs1 IH Hx]; intros l2 Hperm Hs2.
  - now apply Permutation_nil in Hperm.
  - destruct Hs2 as [|y l2 Hs2 Hy].
    + symmetry in Hperm. now apply Permutation_nil in Hperm.
    + assert (Hxy : x = y).
      { assert (Hyin : In y (x :: l1))
          by (eapply Permutation_in; [symmetry; exact Hperm|now left]).
        assert (Hxin : In x (y :: l2))
          by (eapply Permutation_in; [exact Hperm|now left]).
        destruct Hyin as [Heq|Hyin]; [exact Heq|].
        destruct Hxin as [Heq|Hxin]; [now symmetry|].
        rewrite List.Forall_forall in Hx, Hy.
        pose proof (String.leb_antisym _ _ (Hx _ Hyin) (Hy _ Hxin)) as Hts.
        exfalso. simpl in Hnodup. apply NoDup_cons_iff in Hnodup as [Hnotin _].
        apply Hnotin. rewrite Hts. now apply in_map. }
      subst y. f_equal. apply IH.
      * simpl in Hnodup. now apply NoDup_cons_iff in Hnodup.
      * now apply Permutation_cons_inv in Hperm.
      * exact Hs2.
Qed.

Lemma select_tourist_Permutation df df' tourist_id :
  Permutation df df' ->
  Permutation (select_tourist df tourist_id) (select_tourist df' tourist_id).
Proof.
  unfold select_tourist. induction 1 as [|r l l' _ IH|r r' l|l l' l'' _ IH1 _ IH2]; simpl.
  - reflexivity.
  - destruct (_ =? _)%Z; [now constructor|exact IH].
  - destruct (Ping.tourist_id r' =? _)%Z, (Ping.tourist_id r =? _)%Z;
      try reflexivity. apply perm_swap.
  - now rewrite IH1.
Qed.

(** C10, as the code has it. [detect_stop_anomaly] returns the same outcome
    for every permutation of the input rows provided the entity's
    timestamps are pairwise distinct: then the rows have one sorted order,
    whatever order they arrive in. *)
Theorem detect_stop_anomaly_permutation (d : detector) (df df' : dataframe)
    (tourist_id : Z) :
  Permutation df df' ->
  List.NoDup (List.map Ping.timestamp (select_tourist df tourist_id)) ->
  detect_stop_anomaly d df tourist_id = detect_stop_anomaly d df' tourist_id.
Proof.
  intros Hperm Hnodup. unfold detect_stop_anomaly.
  assert (Hsame : sort_values_timestamp (select_tourist df tourist_id)
                  = sort_values_timestamp (select_tourist df' tourist_id)).
  { apply sorted_by_timestamp_unique.
    - rewrite !sort_values_timestamp_Permutation.
      now apply select_tourist_Permutation.
    - eapply Permutation_NoDup; [|exact Hnodup].
      apply Permutation_map. symmetry. apply sort_values_timestamp_Permutation.
    - apply sort_values_timestamp_Sorted.
    - apply sort_values_timestamp_Sorted. }
  now rewrite Hsame.
Qed.

Lemma stop_spec_cons (d : detector) tourist_id prev cur rest :
  stop_spec d tourist_id (prev :: cur :: rest)
  = stop_rule d tourist_id prev cur ++ stop_spec d tourist_id (cur :: rest).
Proof. reflexivity. Qed.

(** A pair 10 meters or more apart produces nothing. *)
Lemma stop_rule_far (d : detector) tourist_id prev cur :
  10 <= GeoMath.haversine_distance
          (Ping.lat (fst prev)) (Ping.lon (fst prev))
          (Ping.lat (fst cur)) (Ping.lon (fst cur)) ->
  stop_rule d tourist_id prev cur = [].
Proof.
  intros Hfar. unfold stop_rule.
  destruct (Rltb _ 10) eqn:Hnear; [|reflexivity].
  apply Rltb_true in Hnear. lra.
Qed.

(** ** The stop detector and the two pandas calls it makes *)

(** What pandas promises of [sort_values('timestamp')] with its default
    [kind='quicksort']: the rows, rearranged into the order of the column.
    Which of two rows with the same timestamp comes first is left open. *)
Definition sorts_by_timestamp (sort_values : dataframe -> dataframe) : Prop :=
  forall df, Permutation (sort_values df) df /\ sorted_by_timestamp (sort_values df).

(** [detect_stop_anomaly(df, tourist_id)] with its two pandas calls left
    open: [sort_values] is [tourist_data.sort_values('timestamp')] and
    [column_to_datetime] is [pd.to_datetime] on the whole timestamp
    column. [detect_stop_anomaly] above is the instance that sorts stably
    and converts one timestamp at a time. *)
Definition detect_stop_anomaly_with (sort_values : dataframe -> dataframe)
    (column_to_datetime : list string -> result (list R))
    (d : detector) (df : dataframe) (tourist_id : Z) : result (list Anomaly.t) :=
  let tourist_data := sort_values (select_tourist df tourist_id) in
  if (length tourist_data <? 2)%nat then Ok []
  else
    do datetime <- column_to_datetime (List.map Ping.timestamp tourist_data);
    let tourist_data := combine tourist_data datetime in
    for_each (stop_loop_body d tourist_id tourist_data)
      (seq 1 (length tourist_data - 1)) [].

Lemma map_result_map {A B C} (f : B -> result C) (g : A -> B) (l : list A) :
  map_result f (List.map g l) = map_result (fun x => f (g x)) l.
Proof.
  induction l as [|x l IH]; [reflexivity|]. cbn [List.map map_result].
  now rewrite IH.
Qed.

Lemma detect_stop_anomaly_with_model d df tourist_id :
  detect_stop_anomaly d df tourist_id
  = detect_stop_anomaly_with sort_values_timestamp (map_result to_datetime)
      d df tourist_id.
Proof.
  unfold detect_stop_anomaly, detect_stop_anomaly_with, with_datetime.
  rewrite map_result_map.
  destruct (_ <? 2)%nat; [reflexivity|].
  now destruct (map_result _ _).
Qed.

Lemma sort_values_timestamp_sorts : sorts_by_timestamp sort_values_timestamp.
Proof.
  intros df. split;
    [apply sort_values_timestamp_Permutation|apply sort_values_timestamp_Sorted].
Qed.

(** Whatever the sort does with ties, the detector applies [stop_spec] to
    the entity's rows in the order the sort left them in. *)
Lemma detect_stop_anomaly_with_spec sort_values column_to_datetime d df
    tourist_id datetime :
  column_to_datetime
    (List.map Ping.timestamp (sort_values (select_tourist df tourist_id)))
  = Ok datetime ->
  length datetime = length (sort_values (select_tourist df tourist_id)) ->
  stop_threshold_minutes d <> 0 ->
  detect_stop_anomaly_with sort_values column_to_datetime d df tourist_id
  = Ok (stop_spec d tourist_id
          (combine (sort_values (select_tourist df tourist_id)) datetime)).
Proof.
  intros Hdt Hlen Hthr. unfold detect_stop_anomaly_with.
  set (tourist_data := sort_values (select_tourist df tourist_id)) in Hdt, Hlen |- *.
  destruct (length tourist_data <? 2)%nat eqn:Hshort.
  - apply Nat.ltb_lt in Hshort.
    destruct tourist_data as [|r [|r' rows]]; simpl in Hshort; try lia;
      destruct datetime as [|t [|t' datetime]]; simpl in Hlen; try lia;
      reflexivity.
  - apply Nat.ltb_ge in Hshort. rewrite Hdt. cbn [bind].
    assert (Hc : length (combine tourist_data datetime) = length tourist_data)
      by (rewrite length_combine; lia).
    rewrite (stop_loop_spec d tourist_id _ Hthr
               (length (combine tourist_data datetime) - 1) 0 []) by lia.
    reflexivity.
Qed.

(** On rows that are all the entity's, in the order of the column and
    with no timestamp twice, every sort gives the input back. *)
Lemma sort_of_strictly_sorted sort_values df tourist_id :
  sorts_by_timestamp sort_values ->
  Forall (fun r => Ping.tourist_id r = tourist_id) df ->
  sorted_by_timestamp df ->
  List.NoDup (List.map Ping.timestamp df) ->
  sort_values (select_tourist df tourist_id) = df.
Proof.
  intros Hsort Hid Hsorted Hnodup. rewrite (select_tourist_all _ _ Hid).
  destruct (Hsort df) as [Hperm Hordered]. symmetry.
  apply sorted_by_timestamp_unique; [now symmetry|assumption..].
Qed.

(** C1, as the code has it. On the pings of one entity, given in the
    order of their timestamp column with no timestamp occurring twice,
    [detect_stop_anomaly] returns exactly one stop record per consecutive
    pair [(prev, cur)] that is less than 10 meters and at least
    [stop_threshold_minutes] minutes apart, placed at [cur] with confidence
    [min (gap / stop_threshold_minutes) 2]; and an entity with fewer than
    two pings gets no stop anomaly. This holds whichever way
    [sort_values] orders a frame and whatever [pd.to_datetime] makes of
    the column, [datetime] being what it returned. *)
Theorem detect_stop_anomaly_consecutive_pairs
    (sort_values : dataframe -> dataframe)
    (column_to_datetime : list string -> result (list R))
    (d : detector) (tourist_id : Z) :
  sorts_by_timestamp sort_values ->
  (forall (df : dataframe) (datetime : list R),
      Forall (fun r => Ping.tourist_id r = tourist_id) df ->
      sorted_by_timestamp df ->
      List.NoDup (List.map Ping.timestamp df) ->
      column_to_datetime (List.map Ping.timestamp df) = Ok datetime ->
      length datetime = length df ->
      stop_threshold_minutes d <> 0 ->
      detect_stop_anomaly_with sort_values column_to_datetime d df tourist_id
      = Ok (stop_spec d tourist_id (combine df datetime)))
  /\ (forall df : dataframe,
        (length (select_tourist df tourist_id) < 2)%nat ->
        detect_stop_anomaly_with sort_values column_to_datetime d df tourist_id
        = Ok []).
Proof.
  intros Hsort. split.
  - intros df datetime Hid Hsorted Hnodup Hdt Hlen Hthr.
    pose proof (sort_of_strictly_sorted sort_values df tourist_id
                  Hsort Hid Hsorted Hnodup) as Hsame.
    rewrite (detect_stop_anomaly_with_spec sort_values column_to_datetime
               d df tourist_id datetime);
      rewrite ?Hsame; (assumption || reflexivity).
  - intros df Hshort. unfold detect_stop_anomaly_with.
    destruct (Hsort (select_tourist df tourist_id)) as [Hperm _].
    rewrite (Permutation_length Hperm).
    apply Nat.ltb_lt in Hshort. now rewrite Hshort.
Qed.



(** ** What the rule-based detectors return *)

(** An anomaly record placed at a row of the entity. *)
Definition placed_at (tourist_id : Z) (row : Ping.t) (a : Anomaly.t) : Prop :=
  Ping.tourist_id row = tourist_id
  /\ Anomaly.tourist_id a = tourist_id
  /\ Anomaly.timestamp a = Ping.timestamp row
  /\ Anomaly.lat a = Ping.lat row
  /\ Anomaly.lon a = Ping.lon row.

Lemma for_each_length {A B} (body : list B -> A -> result (list B)) (l : list A) :
  (forall acc x acc', body acc x = Ok acc' -> (length acc' <= S (length acc))%nat) ->
  forall acc acc',
    for_each body l acc = Ok acc' -> (length acc' <= length acc + length l)%nat.
Proof.
  intros Hbody. induction l as [|x l IH]; intros acc acc'; simpl.
  - intros [= <-]. lia.
  - destruct (body acc x) as [acc1|e] eqn:Hx; simpl; [|discriminate].
    intros Hrest. apply IH in Hrest. apply Hbody in Hx. lia.
Qed.

Lemma sorted_row_in_df df tourist_id row :
  In row (sort_values_timestamp (select_tourist df tourist_id)) ->
  In row df /\ Ping.tourist_id row = tourist_id.
Proof.
  intros Hin.
  apply (Permutation_in _ (sort_values_timestamp_Permutation _)) in Hin.
  unfold select_tourist in Hin. apply filter_In in Hin as [Hdf Hid].
  split; [exact Hdf|]. now apply Z.eqb_eq.
Qed.

Lemma iloc_In {A} (l : list A) (i : nat) (x : A) : iloc l i = Ok x -> In x l.
Proof.
  unfold iloc. destruct (nth_error l i) eqn:Hi; [|discriminate].
  intros [= <-]. eapply nth_error_In. exact Hi.
Qed.

Lemma with_datetime_rows tourist_data timed :
  with_datetime tourist_data = Ok timed ->
  length timed = length tourist_data
  /\ forall p, In p timed -> In (fst p) tourist_data.
Proof.
  unfold with_datetime.
  destruct (map_result _ tourist_data) as [datetime|e] eqn:Hdt; simpl; [|discriminate].
  intros [= <-]. pose proof (map_result_length _ _ _ Hdt) as Hlen. split.
  - rewrite length_combine. lia.
  - intros [r t] Hin. now apply in_combine_l in Hin.
Qed.

(** X3. With a positive threshold, whatever [detect_stop_anomaly] returns
    is a list of at most [n - 1] records for an entity of [n] rows; each is
    of kind [stopped_too_long], carries the entity's id, sits at one of the
    entity's rows of the input, and has a confidence between 1 and 2. *)
Theorem detect_stop_anomaly_records (d : detector) (df : dataframe)
    (tourist_id : Z) (anomalies : list Anomaly.t) :
  0 < stop_threshold_minutes d ->
  detect_stop_anomaly d df tourist_id = Ok anomalies ->
  (length anomalies <= length (select_tourist df tourist_id) - 1)%nat
  /\ Forall (fun a =>
       Anomaly.anomaly_type a = stopped_too_long
       /\ (exists row, In row df /\ placed_at tourist_id row a)
       /\ exists x, Anomaly.confidence a = Fin x /\ 1 <= x <= 2) anomalies.
Proof.
  intros Hthr. unfold detect_stop_anomaly.
  destruct (_ <? 2)%nat; [intros [= <-]; split; [simpl; lia|constructor]|].
  destruct (with_datetime _) as [timed|e] eqn:Htimed; simpl; [|discriminate].
  destruct (with_datetime_rows _ _ Htimed) as [Hlen Hrows].
  intros Hloop. split.
  - apply for_each_length in Hloop.
    + rewrite length_seq, Hlen, sort_values_timestamp_length in Hloop.
      simpl in Hloop. lia.
    + intros acc i acc'. unfold stop_loop_body.
      destruct (iloc timed i); simpl; [|discriminate].
      destruct (iloc timed (i - 1)); simpl; [|discriminate].
      destruct (Rltb _ 10 && Rgeb _ _); [|intros [= <-]; lia].
      destruct (pf_div _ _); simpl; [|discriminate].
      intros [= <-]. rewrite length_app. simpl. lia.
  - revert Hloop.
    apply (for_each_invariant
             (fun acc => Forall (fun a =>
                Anomaly.anomaly_type a = stopped_too_long
                /\ (exists row, In row df /\ placed_at tourist_id row a)
                /\ exists x, Anomaly.confidence a = Fin x /\ 1 <= x <= 2) acc));
      [|constructor].
    intros acc i acc' _ Hacc. unfold stop_loop_body.
    destruct (iloc timed i) as [cur|] eqn:Hcur; simpl; [|discriminate].
    destruct (iloc timed (i - 1)) as [prev|]; simpl; [|discriminate].
    destruct (Rltb _ 10 && Rgeb _ _) eqn:Hcond; [|now intros [= <-]].
    rewrite pf_div_Fin by lra. simpl. rewrite pf_min_Fin. intros [= <-].
    apply Forall_app. split; [assumption|]. constructor; [|constructor].
    apply andb_prop in Hcond as [_ Hgap]. apply Rgeb_true in Hgap.
    split; [reflexivity|]. split.
    + apply iloc_In, Hrows, sorted_row_in_df in Hcur as [Hdf Hid].
      exists (fst cur). split; [exact Hdf|]. now repeat split.
    + eexists. split; [reflexivity|].
      set (gap := (snd cur - snd prev) / 60) in *.
      assert (1 <= gap / stop_threshold_minutes d).
      { apply Rmult_le_reg_r with (stop_threshold_minutes d); [assumption|].
        unfold Rdiv. rewrite Rmult_assoc, Rinv_l by lra. lra. }
      unfold Rmin. destruct (Rle_dec _ 2); lra.
Qed.

(** X4. With a positive threshold, whatever [detect_route_deviation]
    returns holds at most one record per row of the entity; each is of kind
    [route_deviation], carries the entity's id, sits at one of the entity's
    rows of the input, and has a confidence above 1 and at most 3. *)
Theorem detect_route_deviation_records (d : detector) (df : dataframe)
    (tourist_id : Z) (anomalies : list Anomaly.t) :
  0 < deviation_threshold_meters d ->
  detect_route_deviation d df tourist_id = Ok anomalies ->
  (length anomalies <= length (select_tourist df tourist_id))%nat
  /\ Forall (fun a =>
       Anomaly.anomaly_type a = route_deviation
       /\ (exists row, In row df /\ placed_at tourist_id row a)
       /\ exists x, Anomaly.confidence a = Fin x /\ 1 < x <= 3) anomalies.
Proof.
  intros Hthr. unfold detect_route_deviation. intros Hloop. split.
  - apply for_each_length in Hloop; [simpl in Hloop; lia|].
    intros acc row acc'. unfold deviation_loop_body.
    destruct (route_min_distance d row) as [m|]; cbn [bind]; [|discriminate].
    destruct (pf_ltb (Fin (deviation_threshold_meters d)) m); [|intros [= <-]; lia].
    destruct (pf_div m _); cbn [bind]; [|discriminate].
    intros [= <-]. rewrite length_app. simpl. lia.
  - revert Hloop.
    apply (for_each_invariant
             (fun acc => Forall (fun a =>
                Anomaly.anomaly_type a = route_deviation
                /\ (exists row, In row df /\ placed_at tourist_id row a)
                /\ exists x, Anomaly.confidence a = Fin x /\ 1 < x <= 3) acc));
      [|constructor].
    intros acc row acc' Hrow Hacc. unfold deviation_loop_body.
    destruct (route_min_distance d row) as [m|]; cbn [bind]; [|discriminate].
    destruct (pf_ltb (Fin (deviation_threshold_meters d)) m) eqn:Hfar;
      [|now intros [= <-]].
    unfold pf_div. destruct (Req_dec_T _ 0) as [Hz|_]; [lra|]. cbn [bind].
    intros [= <-]. apply Forall_app. split; [assumption|].
    constructor; [|constructor]. split; [reflexivity|]. split.
    + unfold select_tourist in Hrow. apply filter_In in Hrow as [Hdf Hid].
      apply Z.eqb_eq in Hid. exists row. now repeat split.
    + destruct m as [x| |]; cbn [pf_ltb] in Hfar; [| |discriminate].
      * apply Rltb_true in Hfar. rewrite pf_min_Fin. eexists. split; [reflexivity|].
        assert (1 < x / deviation_threshold_meters d).
        { apply Rmult_lt_reg_r with (deviation_threshold_meters d); [assumption|].
          unfold Rdiv. rewrite Rmult_assoc, Rinv_l by lra. lra. }
        unfold Rmin. destruct (Rle_dec _ 3); lra.
      * destruct (Rlt_dec 0 _) as [_|Hn]; [|lra].
        exists 3. split; [reflexivity|lra].
Qed.

(** ** The deviation detector works ping by ping *)

(** What one ping contributes to the answer of [detect_route_deviation]. *)
Definition deviation_of_row (d : detector) (tourist_id : Z) (row : Ping.t)
  : result (list Anomaly.t) :=
  deviation_loop_body d tourist_id [] row.

Lemma deviation_loop_body_acc d tourist_id acc row :
  deviation_loop_body d tourist_id acc row
  = do found <- deviation_of_row d tourist_id row; Ok (acc ++ found).
Proof.
  unfold deviation_of_row, deviation_loop_body.
  destruct (route_min_distance d row) as [m|]; cbn [bind]; [|reflexivity].
  destruct (pf_ltb (Fin (deviation_threshold_meters d)) m); cbn [bind];
    [|now rewrite app_nil_r].
  destruct (pf_div m _); cbn [bind]; reflexivity.
Qed.

Lemma map_result_app {A B} (f : A -> result B) (l1 l2 : list A) :
  map_result f (l1 ++ l2)
  = do ys1 <- map_result f l1; do ys2 <- map_result f l2; Ok (ys1 ++ ys2).
Proof.
  induction l1 as [|x l1 IH]; simpl.
  - now destruct (map_result f l2).
  - destruct (f x); simpl; [|reflexivity]. rewrite IH.
    destruct (map_result f l1); simpl; [|reflexivity].
    now destruct (map_result f l2).
Qed.

Lemma detect_route_deviation_rows d df tourist_id :
  detect_route_deviation d df tourist_id
  = do found <- map_result (deviation_of_row d tourist_id)
                  (select_tourist df tourist_id);
    Ok (concat found).
Proof.
  unfold detect_route_deviation.
  rewrite (for_each_concat _ (deviation_of_row d tourist_id));
    [reflexivity|]. intros acc row. apply deviation_loop_body_acc.
Qed.

Lemma select_tourist_app df1 df2 tourist_id :
  select_tourist (df1 ++ df2) tourist_id
  = select_tourist df1 tourist_id ++ select_tourist df2 tourist_id.
Proof. unfold select_tourist. apply List.filter_app. Qed.

Lemma select_tourist_idem df tourist_id :
  select_tourist (select_tourist df tourist_id) tourist_id
  = select_tourist df tourist_id.
Proof.
  unfold select_tourist. induction df as [|r df IH]; simpl; [reflexivity|].
  destruct (Z.eqb (Ping.tourist_id r) tourist_id) eqn:Hr; simpl; [|exact IH].
  now rewrite Hr, IH.
Qed.

(** X5. [detect_route_deviation] judges every ping on its own: on a frame
    cut in two it returns the records of the first part followed by those
    of the second (raising what the first part that raises would raise),
    and rows of other entities never matter. *)
Theorem detect_route_deviation_app (d : detector) (tourist_id : Z) :
  (forall df1 df2 : dataframe,
      detect_route_deviation d (df1 ++ df2) tourist_id
      = do found1 <- detect_route_deviation d df1 tourist_id;
        do found2 <- detect_route_deviation d df2 tourist_id;
        Ok (found1 ++ found2))
  /\ (forall df : dataframe,
        detect_route_deviation d df tourist_id
        = detect_route_deviation d (select_tourist df tourist_id) tourist_id).
Proof.
  split.
  - intros df1 df2. rewrite !detect_route_deviation_rows.
    rewrite select_tourist_app, map_result_app.
    destruct (map_result _ (select_tourist df1 tourist_id)) as [f1|]; simpl;
      [|reflexivity].
    destruct (map_result _ (select_tourist df2 tourist_id)) as [f2|]; simpl;
      [|reflexivity].
    now rewrite concat_app.
  - intros df. rewrite !detect_route_deviation_rows.
    now rewrite select_tourist_idem.
Qed.

(** ** Degenerate configurations *)


Lemma pf_div_zero a : pf_div a 0 = Raise ZeroDivisionError.
Proof. unfold pf_div. destruct (Req_dec_T 0 0) as [_|H]; [reflexivity|lra]. Qed.




(** X7. With [deviation_threshold_meters = 0] and a path of at least two
    waypoints, [detect_route_deviation] raises [ZeroDivisionError] as soon
    as one ping of the entity is off every waypoint, and returns the empty
    list otherwise. *)
Theorem detect_route_deviation_zero_threshold (d : detector) (df : dataframe)
    (tourist_id : Z) :
  deviation_threshold_meters d = 0 ->
  (2 <= length (planned_route d))%nat ->
  detect_route_deviation d df tourist_id
  = if existsb (fun row => Rltb 0 (min_endpoint_distance d row))
         (select_tourist df tourist_id)
    then Raise ZeroDivisionError else Ok [].
Proof.
  intros Hzero Hlen. unfold detect_route_deviation.
  generalize (@nil Anomaly.t) as acc.
  induction (select_tourist df tourist_id) as [|row rows IH]; intros acc;
    [reflexivity|].
  cbn [for_each existsb]. unfold deviation_loop_body at 1.
  rewrite (route_min_distance_spec d row Hlen). cbn [bind pf_ltb].
  rewrite Hzero. destruct (Rltb 0 (min_endpoint_distance d row)).
  - now rewrite pf_div_zero.
  - cbn [bind orb]. apply IH.
Qed.

(** X8. With a path of fewer than two waypoints there is no segment and
    the running minimum stays [float('inf')]: under a positive threshold
    every ping of the entity is reported, at distance infinity and with
    confidence 3. *)
Theorem detect_route_deviation_no_segment (d : detector) (df : dataframe)
    (tourist_id : Z) :
  (length (planned_route d) < 2)%nat ->
  0 < deviation_threshold_meters d ->
  detect_route_deviation d df tourist_id
  = Ok (List.map
          (fun row =>
             Anomaly.mk tourist_id (Ping.timestamp row) (Ping.lat row) (Ping.lon row)
               route_deviation (Deviated PosInf) (Fin 3))
          (select_tourist df tourist_id)).
Proof.
  intros Hlen Hthr. rewrite detect_route_deviation_rows.
  assert (Hrow : forall row,
    deviation_of_row d tourist_id row
    = Ok [Anomaly.mk tourist_id (Ping.timestamp row) (Ping.lat row) (Ping.lon row)
            route_deviation (Deviated PosInf) (Fin 3)]).
  { intros row. unfold deviation_of_row, deviation_loop_body, route_min_distance.
    replace (length (planned_route d) - 1)%nat with 0%nat by lia.
    cbn [seq for_each bind pf_ltb]. unfold pf_div.
    destruct (Req_dec_T _ 0) as [Hz|_]; [lra|].
    destruct (Rlt_dec 0 _) as [_|Hn]; [|lra]. reflexivity. }
  induction (select_tourist df tourist_id) as [|row rows IH]; [reflexivity|].
  cbn [map_result List.map]. rewrite Hrow. cbn [bind].
  destruct (map_result _ rows) as [found|e]; cbn [bind] in *; [|discriminate].
  injection IH as IH. cbn [concat app]. now rewrite IH.
Qed.

(** ** The feature matrix *)

(** One row of [prepare_ml_features], read off two pings [prev] and [cur]
    of one entity of the input, [prev] not after [cur] in the timestamp
    column: the distance between them, the minutes from the one to the
    other, the speed, the distance of [cur] from the centre of the route,
    and the position of [cur]. *)
Definition feature_row_of (d : detector) (df : dataframe) (row : list R) : Prop :=
  exists (prev cur : Ping.t) (t_prev t_cur : R),
    In prev df /\ In cur df
    /\ Ping.tourist_id prev = Ping.tourist_id cur
    /\ timestamp_leb prev cur = true
    /\ to_datetime (Ping.timestamp prev) = Ok t_prev
    /\ to_datetime (Ping.timestamp cur) = Ok t_cur
    /\ let distance :=
         GeoMath.haversine_distance (Ping.lat prev) (Ping.lon prev)
           (Ping.lat cur) (Ping.lon cur) in
       let time_diff := (t_cur - t_prev) / 60 in
       row = [distance; time_diff; distance / Rmax time_diff 0.1;
              GeoMath.haversine_distance (Ping.lat cur) (Ping.lon cur)
                (mean (List.map fst (planned_route d)))
                (mean (List.map snd (planned_route d)));
              Ping.lat cur; Ping.lon cur]
       /\ 0 <= distance.

Lemma for_each_length_sum {A B} (body : list B -> A -> result (list B))
    (gain : A -> nat) (l : list A) :
  (forall acc x acc', In x l -> body acc x = Ok acc' ->
                      length acc' = (length acc + gain x)%nat) ->
  forall acc acc',
    for_each body l acc = Ok acc' ->
    length acc' = (length acc + list_sum (List.map gain l))%nat.
Proof.
  induction l as [|x l IH]; intros Hbody acc acc'; simpl.
  - intros [= <-]. lia.
  - destruct (body acc x) as [acc1|e] eqn:Hx; simpl; [|discriminate].
    intros Hrest. apply IH in Hrest; [|intros; eapply Hbody; eauto; now right].
    apply Hbody in Hx; [|now left]. lia.
Qed.

Lemma list_sum_ones {A} (l : list A) :
  list_sum (List.map (fun _ => 1%nat) l) = length l.
Proof. induction l as [|x l IH]; simpl; [reflexivity|]. now rewrite IH. Qed.

Lemma features_loop_body_row d timed features i features' :
  features_loop_body d timed features i = Ok features' ->
  exists cur prev,
    iloc timed i = Ok cur /\ iloc timed (i - 1) = Ok prev
    /\ features'
       = features ++
         [[GeoMath.haversine_distance
             (Ping.lat (fst prev)) (Ping.lon (fst prev))
             (Ping.lat (fst cur)) (Ping.lon (fst cur));
           (snd cur - snd prev) / 60;
           GeoMath.haversine_distance
             (Ping.lat (fst prev)) (Ping.lon (fst prev))
             (Ping.lat (fst cur)) (Ping.lon (fst cur))
           / Rmax ((snd cur - snd prev) / 60) 0.1;
           GeoMath.haversine_distance
             (Ping.lat (fst cur)) (Ping.lon (fst cur))
             (mean (List.map fst (planned_route d)))
             (mean (List.map snd (planned_route d)));
           Ping.lat (fst cur); Ping.lon (fst cur)]].
Proof.
  unfold features_loop_body.
  destruct (iloc timed i) as [cur|]; cbn [bind]; [|discriminate].
  destruct (iloc timed (i - 1)) as [prev|]; cbn [bind]; [|discriminate].
  intros [= <-]. now exists cur, prev.
Qed.

Lemma map_result_combine {A B} (f : A -> result B) (l : list A) (ys : list B) :
  map_result f l = Ok ys ->
  forall p, In p (combine l ys) -> f (fst p) = Ok (snd p).
Proof.
  revert ys. induction l as [|x l IH]; intros ys; simpl.
  - now intros [= <-].
  - destruct (f x) as [y|] eqn:Hx; simpl; [|discriminate].
    destruct (map_result f l) as [ys'|]; simpl; [|discriminate].
    intros [= <-] p [<-|Hin]; [exact Hx|]. now apply (IH ys').
Qed.

Lemma with_datetime_times tourist_data timed :
  with_datetime tourist_data = Ok timed ->
  forall p, In p timed -> to_datetime (Ping.timestamp (fst p)) = Ok (snd p).
Proof.
  unfold with_datetime.
  destruct (map_result _ tourist_data) as [datetime|] eqn:Hdt; simpl; [|discriminate].
  intros [= <-]. exact (map_result_combine _ _ _ Hdt).
Qed.

Lemma nth_error_combine_fst {A B} (l1 : list A) (l2 : list B) i p :
  nth_error (combine l1 l2) i = Some p -> nth_error l1 i = Some (fst p).
Proof.
  revert l2 i. induction l1 as [|x l1 IH]; intros [|y l2] [|i]; simpl;
    try discriminate.
  - now intros [= <-].
  - apply IH.
Qed.

(** Neighbours in a frame that is in the order of its column. *)
Lemma sorted_neighbours l k prev cur :
  sorted_by_timestamp l ->
  nth_error l k = Some prev -> nth_error l (S k) = Some cur ->
  timestamp_leb prev cur = true.
Proof.
  unfold sorted_by_timestamp. intros Hsorted. revert k.
  induction Hsorted as [|r l _ IH Hhd]; intros k; [now destruct k|].
  destruct k as [|k]; simpl.
  - intros [= <-] Hcur. destruct Hhd as [|r' l' Hle]; [discriminate|].
    simpl in Hcur. now injection Hcur as <-.
  - apply IH.
Qed.

(** X9. Whatever [prepare_ml_features] returns has, for every distinct
    entity of [n] rows, [n - 1] rows of six numbers, each computed from
    two pings [prev] and [cur] of one entity of the input, [prev] not
    after [cur] in the timestamp column: the non-negative distance from
    [prev] to [cur], the minutes between their timestamps as
    [to_datetime] reads them, the speed [distance / max(minutes, 0.1)],
    the distance of [cur] from the centre of the route, and the latitude
    and longitude of [cur]. *)
Theorem prepare_ml_features_shape (d : detector) (df : dataframe)
    (features : matrix) :
  prepare_ml_features d df = Ok features ->
  length features
  = list_sum (List.map (fun tourist_id =>
                          (length (select_tourist df tourist_id) - 1)%nat)
                (unique_tourist_ids df))
  /\ Forall (feature_row_of d df) features.
Proof.
  unfold prepare_ml_features. intros Hloop. split.
  - apply (for_each_length_sum _
             (fun tourist_id => (length (select_tourist df tourist_id) - 1)%nat))
      in Hloop; [exact Hloop|].
    intros acc tourist_id acc' _. unfold features_of_tourist.
    destruct (with_datetime _) as [timed|] eqn:Htimed; cbn [bind]; [|discriminate].
    destruct (with_datetime_rows _ _ Htimed) as [Hlen _].
    rewrite sort_values_timestamp_length in Hlen. rewrite Hlen. intros Hinner.
    apply (for_each_length_sum _ (fun _ => 1%nat)) in Hinner.
    + rewrite Hinner, list_sum_ones, length_seq. reflexivity.
    + intros acc0 i acc1 _ Hbody.
      apply features_loop_body_row in Hbody as [cur [prev [_ [_ ->]]]].
      rewrite length_app. reflexivity.
  - revert Hloop.
    apply (for_each_invariant (Forall (feature_row_of d df))); [|constructor].
    intros acc tourist_id acc' _ Hacc. unfold features_of_tourist.
    destruct (with_datetime _) as [timed|] eqn:Htimed; cbn [bind]; [|discriminate].
    destruct (with_datetime_rows _ _ Htimed) as [_ Hrows].
    pose proof (with_datetime_times _ _ Htimed) as Htimes.
    apply for_each_invariant; [|exact Hacc].
    intros acc0 i acc1 Hi Hacc0 Hbody.
    apply features_loop_body_row in Hbody as [cur [prev [Hcur [Hprev ->]]]].
    apply Forall_app. split; [assumption|]. constructor; [|constructor].
    apply in_seq in Hi. destruct i as [|k]; [lia|].
    cbn [Nat.sub] in Hprev. rewrite Nat.sub_0_r in Hprev.
    assert (Hneighbours : timestamp_leb (fst prev) (fst cur) = true).
    { unfold with_datetime in Htimed.
      destruct (map_result _ _) as [datetime|]; cbn [bind] in Htimed;
        [|discriminate].
      injection Htimed as <-. unfold iloc in Hcur, Hprev.
      destruct (nth_error _ (S k)) as [p|] eqn:Hp; [|discriminate].
      injection Hcur as ->.
      destruct (nth_error _ k) as [q|] eqn:Hq; [|discriminate].
      injection Hprev as ->.
      apply nth_error_combine_fst in Hp, Hq.
      exact (sorted_neighbours _ _ _ _ (sort_values_timestamp_Sorted _) Hq Hp). }
    pose proof (iloc_In _ _ _ Hcur) as Hcur_in.
    pose proof (iloc_In _ _ _ Hprev) as Hprev_in.
    destruct (sorted_row_in_df _ _ _ (Hrows _ Hcur_in)) as [Hcur_df Hcur_id].
    destruct (sorted_row_in_df _ _ _ (Hrows _ Hprev_in)) as [Hprev_df Hprev_id].
    exists (fst prev), (fst cur), (snd prev), (snd cur).
    split; [exact Hprev_df|]. split; [exact Hcur_df|].
    split; [congruence|]. split; [exact Hneighbours|].
    split; [now apply Htimes|]. split; [now apply Htimes|].
    split; [reflexivity|apply GeoMath.haversine_distance_nonneg].
Qed.

(** ** Pattern records and feature rows *)

(** The pattern records the labels call for, read off the feature matrix:
    for every row whose prediction is -1, the position held in its last two
    columns and the absolute value of its score; [k] is the index of the
    first row. *)
Fixpoint labelled_outliers (predictions : list Z) (anomaly_scores : list R)
    (k : nat) (features : matrix) : list (R * R * pyfloat) :=
  match features with
  | [] => []
  | row :: rest =>
      match nth_error predictions k with
      | Some p =>
          if Z.eqb p (-1)
          then [(nth 4 row 0, nth 5 row 0, Fin (Rabs (nth k anomaly_scores 0)))]
          else []
      | None => []
      end ++ labelled_outliers predictions anomaly_scores (S k) rest
  end.

(** Where a record is and how confident it is. *)
Definition position_confidence (a : Anomaly.t) : R * R * pyfloat :=
  (Anomaly.lat a, Anomaly.lon a, Anomaly.confidence a).

Lemma labelled_outliers_snoc predictions anomaly_scores k features row :
  labelled_outliers predictions anomaly_scores k (features ++ [row])
  = labelled_outliers predictions anomaly_scores k features
    ++ labelled_outliers predictions anomaly_scores (k + length features) [row].
Proof.
  revert k. induction features as [|r features IH]; intros k.
  - simpl. now rewrite Nat.add_0_r.
  - cbn [app labelled_outliers length]. rewrite IH, <- app_assoc.
    now replace (S k + length features)%nat with (k + S (length features))%nat by lia.
Qed.

Lemma for_each_related {A S T} (related : S -> T -> Prop)
    (body1 : S -> A -> result S) (body2 : T -> A -> result T) (l : list A) :
  (forall s t x s' t', related s t -> body1 s x = Ok s' -> body2 t x = Ok t' ->
                       related s' t') ->
  forall s t s' t',
    related s t -> for_each body1 l s = Ok s' -> for_each body2 l t = Ok t' ->
    related s' t'.
Proof.
  intros Hbody. induction l as [|x l IH]; intros s t s' t' Hrel; simpl.
  - now intros [= <-] [= <-].
  - destruct (body1 s x) as [s1|] eqn:H1; simpl; [|discriminate].
    destruct (body2 t x) as [t1|] eqn:H2; simpl; [|discriminate].
    apply IH. eapply Hbody; eauto.
Qed.


(** The two loops stay in step: as many feature rows as [feature_idx]
    counts, and the records so far are the labelled rows so far. *)
Definition in_step (predictions : list Z) (anomaly_scores : list R)
    (features : matrix) (st : list Anomaly.t * nat) : Prop :=
  snd st = length features
  /\ List.map position_confidence (fst st)
     = labelled_outliers predictions anomaly_scores 0 features.

Lemma ml_loop_body_in_step d tourist_id rows datetime predictions anomaly_scores
    features st i features' st' :
  in_step predictions anomaly_scores features st ->
  features_loop_body d (combine rows datetime) features i = Ok features' ->
  ml_loop_body tourist_id rows predictions anomaly_scores st i = Ok st' ->
  in_step predictions anomaly_scores features' st'.
Proof.
  intros [Hidx Hrec] Hfeat Hml. destruct st as [anomalies feature_idx].
  cbn [fst snd] in *. subst feature_idx.
  apply features_loop_body_row in Hfeat as [cur [prev [Hcur [_ ->]]]].
  unfold iloc in Hcur.
  destruct (nth_error (combine rows datetime) i) as [p|] eqn:Hp; [|discriminate].
  injection Hcur as ->. apply nth_error_combine_fst in Hp.
  unfold in_step. rewrite labelled_outliers_snoc, length_app.
  cbn [length labelled_outliers nth Nat.add]. rewrite app_nil_r.
  unfold ml_loop_body in Hml.
  destruct (nth_error predictions (length features)) as [label|] eqn:Hlabel.
  - assert (Hlt : (length features <? length predictions)%nat = true).
    { apply Nat.ltb_lt, nth_error_Some. congruence. }
    rewrite Hlt in Hml. cbn [andb] in Hml.
    destruct (Z.eqb label (-1)).
    + unfold iloc in Hml. rewrite Hp in Hml. cbn [bind] in Hml.
      destruct (nth_error anomaly_scores (length features)) as [score|] eqn:Hscore;
        [|discriminate].
      cbn [bind] in Hml. injection Hml as <-. cbn [fst snd].
      split; [lia|]. rewrite List.map_app, Hrec. cbn [List.map].
      unfold position_confidence at 1. cbn [Anomaly.lat Anomaly.lon Anomaly.confidence].
      now rewrite (nth_error_nth _ _ 0 Hscore).
    + injection Hml as <-. cbn [fst snd]. split; [lia|]. now rewrite app_nil_r.
  - rewrite andb_false_r in Hml. injection Hml as <-. cbn [fst snd].
    split; [lia|]. now rewrite app_nil_r.
Qed.

Lemma ml_of_tourist_in_step d df tourist_id predictions anomaly_scores
    features st features' st' :
  in_step predictions anomaly_scores features st ->
  features_of_tourist d df features tourist_id = Ok features' ->
  ml_of_tourist df predictions anomaly_scores st tourist_id = Ok st' ->
  in_step predictions anomaly_scores features' st'.
Proof.
  intros Hstep. unfold features_of_tourist, ml_of_tourist, with_datetime.
  set (rows := sort_values_timestamp (select_tourist df tourist_id)).
  destruct (map_result _ rows) as [datetime|] eqn:Hdt; cbn [bind]; [|discriminate].
  pose proof (map_result_length _ _ _ Hdt) as Hlen.
  replace (length (combine rows datetime)) with (length rows)
    by (rewrite length_combine; lia).
  apply (for_each_related (in_step predictions anomaly_scores)); [|exact Hstep].
  intros s t i s' t'. apply ml_loop_body_in_step.
Qed.

(** X10. The pattern records line up with the feature matrix: when the
    estimator's calls return, the records of [detect_ml_anomalies] are, in
    order, one per feature row whose prediction is -1, each at the position
    stored in that row's last two columns and with the absolute value of
    that row's score as confidence. *)
Theorem detect_ml_anomalies_aligned (d : detector) (df : dataframe)
    (model : IsolationForest) (features features_scaled : matrix)
    (predictions : list Z) (anomaly_scores : list R)
    (anomalies : list Anomaly.t) :
  ml_model d = Some model ->
  prepare_ml_features d df = Ok features ->
  transform (scaler d) features = Ok features_scaled ->
  predict model features_scaled = Ok predictions ->
  decision_function model features_scaled = Ok anomaly_scores ->
  detect_ml_anomalies d df = Ok anomalies ->
  List.map position_confidence anomalies
  = labelled_outliers predictions anomaly_scores 0 features.
Proof.
  intros Hmodel Hfeatures Htransform Hpredict Hscores.
  unfold detect_ml_anomalies. rewrite Hmodel, Hfeatures. cbn [bind].
  destruct (length features =? 0)%nat eqn:Hempty.
  - apply Nat.eqb_eq, length_zero_iff_nil in Hempty. subst features.
    now intros [= <-].
  - rewrite Htransform. cbn [bind]. rewrite Hpredict. cbn [bind].
    rewrite Hscores. cbn [bind].
    destruct (for_each _ _ _) as [st|] eqn:Hloop; cbn [bind]; [|discriminate].
    intros [= <-].
    assert (Hstep : in_step predictions anomaly_scores features st).
    { unfold prepare_ml_features in Hfeatures.
      apply (for_each_related (in_step predictions anomaly_scores)
               (features_of_tourist d df)
               (ml_of_tourist df predictions anomaly_scores)
               (unique_tourist_ids df)) with (s := []) (t := ([], 0%nat));
        [|now split|assumption|assumption].
      intros s t tourist_id s' t'. apply ml_of_tourist_in_step. }
    apply Hstep.
Qed.

(** ** Pings close to the route *)

Lemma min_endpoint_distance_near_waypoint d row w eps :
  (2 <= length (planned_route d))%nat ->
  In w (planned_route d) ->
  eps <= 1 ->
  Rabs (fst w - Ping.lat row) <= eps -> Rabs (snd w - Ping.lon row) <= eps ->
  min_endpoint_distance d row <= 162300 * eps.
Proof.
  intros Hlen Hin Heps Hlat Hlon.
  destruct (min_endpoint_distance_is_min d row Hlen) as [_ Hlow].
  rewrite List.Forall_forall in Hlow.
  destruct (waypoint_in_segment _ _ Hlen Hin) as [seg [Hseg Hend]].
  eapply Rle_trans;
    [|apply (GeoBounds.haversine_distance_close_bound
               (Ping.lat row) (Ping.lon row) (fst w) (snd w) eps); assumption].
  apply Hlow. unfold endpoint_distances. apply in_flat_map. exists seg.
  split; [exact Hseg|]. destruct Hend as [<- | <-]; [now left|now right; left].
Qed.

(** A row within [eps] degrees, in latitude and in longitude, of some
    waypoint of the planned route. *)
Definition near_route (d : detector) (eps : R) (row : Ping.t) : Prop :=
  exists w, In w (planned_route d)
            /\ Rabs (fst w - Ping.lat row) <= eps
            /\ Rabs (snd w - Ping.lon row) <= eps.

Lemma deviation_loop_body_near_route d tourist_id eps acc row :
  (2 <= length (planned_route d))%nat ->
  eps <= 1 ->
  162300 * eps <= deviation_threshold_meters d ->
  near_route d eps row ->
  deviation_loop_body d tourist_id acc row = Ok acc.
Proof.
  intros Hlen Heps Hthr [w [Hin [Hlat Hlon]]]. unfold deviation_loop_body.
  rewrite (route_min_distance_spec d row Hlen). cbn [bind pf_ltb].
  pose proof (min_endpoint_distance_near_waypoint d row w eps Hlen Hin Heps Hlat Hlon).
  destruct (Rltb (deviation_threshold_meters d) (min_endpoint_distance d row)) eqn:Hfar;
    [|reflexivity].
  apply Rltb_true in Hfar. lra.
Qed.

Lemma detect_route_deviation_all_near d df tourist_id eps :
  (2 <= length (planned_route d))%nat ->
  eps <= 1 ->
  162300 * eps <= deviation_threshold_meters d ->
  Forall (near_route d eps) df ->
  detect_route_deviation d df tourist_id = Ok [].
Proof.
  intros Hlen Heps Hthr Hnear. unfold detect_route_deviation.
  assert (Hsel : Forall (near_route d eps) (select_tourist df tourist_id)).
  { rewrite List.Forall_forall in *. intros row Hrow. apply Hnear.
    unfold select_tourist in Hrow. now apply filter_In in Hrow as [? _]. }
  generalize (@nil Anomaly.t) as acc.
  induction Hsel as [|row rows Hrow _ IH]; intros acc; [reflexivity|].
  cbn [for_each].
  rewrite (deviation_loop_body_near_route d tourist_id eps acc row) by assumption.
  apply IH.
Qed.

(** X11. With a path of at least two waypoints, pings that all lie within
    [eps] degrees, in latitude and in longitude, of some waypoint are never
    reported when [162300 * eps] meters is within the threshold: with the
    default 200 meters, that is every ping within 0.0012 degrees of a
    waypoint. *)
Theorem detect_route_deviation_near_route (d : detector) (df : dataframe)
    (tourist_id : Z) (eps : R) :
  (2 <= length (planned_route d))%nat ->
  eps <= 1 ->
  162300 * eps <= deviation_threshold_meters d ->
  Forall (near_route d eps) df ->
  detect_route_deviation d df tourist_id = Ok [].
Proof. apply detect_route_deviation_all_near. Qed.

(** ** Training leaves the rules alone *)

(** Two detectors with the same thresholds and the same planned route. *)
Definition same_rules (d1 d2 : detector) : Prop :=
  stop_threshold_minutes d1 = stop_threshold_minutes d2
  /\ deviation_threshold_meters d1 = deviation_threshold_meters d2
  /\ planned_route d1 = planned_route d2.

Lemma train_ml_model_same_rules d df : same_rules (fst (train_ml_model d df)) d.
Proof.
  unfold train_ml_model, same_rules.
  destruct (prepare_ml_features d df) as [features|]; [|now cbn].
  destruct (length features =? 0)%nat; [now cbn|].
  destruct (fit_transform (scaler d) features) as [scaler' [scaled|]]; [|now cbn].
  destruct (fit _ scaled) as [model' fitted]. now cbn.
Qed.

Lemma analyze_tourist_data_same_rules d df use_ml :
  same_rules (fst (analyze_tourist_data d df use_ml)) d.
Proof.
  unfold analyze_tourist_data.
  destruct (for_each _ _ _) as [all_anomalies|]; [|now cbn].
  destruct use_ml; [|now cbn].
  pose proof (train_ml_model_same_rules d df) as Hsame.
  destruct (train_ml_model d df) as [d' [[]|]]; cbn [fst] in *; [|exact Hsame].
  now destruct (detect_ml_anomalies d' df).
Qed.

Lemma same_rules_detectors d1 d2 :
  same_rules d1 d2 ->
  (forall df tourist_id,
      detect_stop_anomaly d1 df tourist_id = detect_stop_anomaly d2 df tourist_id)
  /\ (forall df tourist_id,
        detect_route_deviation d1 df tourist_id
        = detect_route_deviation d2 df tourist_id).
Proof.
  destruct d1 as [s1 t1 r1 m1 c1], d2 as [s2 t2 r2 m2 c2].
  unfold same_rules. cbn. intros [-> [-> ->]]. split; reflexivity.
Qed.

(** X12. Whatever a batch analysis does to the detector (fitting the
    scaler, storing a model, or failing half-way), it leaves the two
    thresholds and the planned route as they were, so the rule-based
    detectors and the real-time check answer afterwards exactly as
    before. *)
Theorem analyze_tourist_data_keeps_rules (d : detector) (trained_on : dataframe)
    (use_ml : bool) :
  let d' := fst (analyze_tourist_data d trained_on use_ml) in
  (forall df tourist_id,
      detect_stop_anomaly d' df tourist_id = detect_stop_anomaly d df tourist_id)
  /\ (forall df tourist_id,
        detect_route_deviation d' df tourist_id
        = detect_route_deviation d df tourist_id)
  /\ (forall tourist_id lat lon timestamp historical_data,
        check_single_point d' tourist_id lat lon timestamp historical_data
        = check_single_point d tourist_id lat lon timestamp historical_data).
Proof.
  intros d'.
  destruct (same_rules_detectors d' d (analyze_tourist_data_same_rules _ _ _))
    as [Hstop Hdev].
  split; [exact Hstop|]. split; [exact Hdev|].
  intros tourist_id lat lon timestamp historical_data. unfold check_single_point.
  rewrite Hdev. destruct historical_data as [historical_data|]; [|reflexivity].
  now rewrite Hstop.
Qed.

(** ** When training leaves a model behind *)

(** X18. On a detector without a model, [train_ml_model] leaves a model
    behind exactly when the feature matrix is not empty and the scaler's
    [fit_transform] returned: the estimator is stored before it is fitted,
    so it stays even when [fit] raises, and the call then ends as [fit]
    did. *)
Theorem train_ml_model_stores_model (d : detector) (df : dataframe) :
  ml_model d = None ->
  (ml_model (fst (train_ml_model d df)) <> None
   <-> exists features features_scaled,
         prepare_ml_features d df = Ok features
         /\ features <> []
         /\ snd (fit_transform (scaler d) features) = Ok features_scaled
         /\ snd (train_ml_model d df)
            = snd (fit (IsolationForest_new 0.1 42 100) features_scaled)).
Proof.
  intros Hnone. unfold train_ml_model.
  destruct (prepare_ml_features d df) as [features|e].
  2: { cbn [fst]. split; [congruence|]. now intros [? [? [? _]]]. }
  destruct features as [|row features]; cbn [length Nat.eqb].
  { cbn [fst]. split; [congruence|]. now intros [? [? [[= <-] [? _]]]]. }
  destruct (fit_transform (scaler d) (row :: features)) as [scaler' [scaled|e]]
    eqn:Hscaled.
  - destruct (fit (IsolationForest_new 0.1 42 100) scaled) as [model' fitted] eqn:Hfit.
    cbn [fst snd set_ml_model ml_model]. split; [|discriminate].
    intros _. exists (row :: features), scaled.
    split; [reflexivity|]. split; [discriminate|].
    rewrite Hscaled, Hfit. now split.
  - cbn [fst set_scaler ml_model]. split; [congruence|].
    intros [features' [scaled [[= <-] [_ [Hok _]]]]].
    rewrite Hscaled in Hok. discriminate.
Qed.

Lemma same_rules_check_single_point d1 d2 tourist_id lat lon timestamp
    historical_data :
  same_rules d1 d2 ->
  check_single_point d1 tourist_id lat lon timestamp historical_data
  = check_single_point d2 tourist_id lat lon timestamp historical_data.
Proof.
  intros Hsame. destruct (same_rules_detectors d1 d2 Hsame) as [Hstop Hdev].
  unfold check_single_point. rewrite Hdev.
  destruct historical_data as [historical_data|]; [|reflexivity].
  now rewrite Hstop.
Qed.

End Detector.

(** ** HistoryStore: the per-entity buffers of [api.py] *)

Module HistoryStore.

(** One request that reached the storing step of [check_anomaly]: the
    validated ping and the anomalies [check_single_point] returned for it. *)
Record stored_call : Type := mk_call {
  call_tourist_id : Z;
  call_lat : R;
  call_lon : R;
  call_timestamp : string;
  call_anomalies : list Anomaly.t
}.

(** [xs[-100:]] *)
Definition last_100 {A} (xs : list A) : list A :=
  skipn (length xs - 100) xs.

(** The dictionary appended to the entity's list. *)
Definition history_entry (c : stored_call) : Ping.t :=
  Ping.mk (call_tourist_id c) (call_lat c) (call_lon c) (call_timestamp c)
    (0 <? length (call_anomalies c))%nat
    match call_anomalies c with
    | a :: _ => anomaly_kind_name (Anomaly.anomaly_type a)
    | [] => "normal"
    end.

(** "Store this point in history" and "keep only last 100 points per
    tourist", lines 120-135 of [check_anomaly], on the module-level dict
    [tourist_history]. *)
Definition store_point (tourist_history : gmap Z (list Ping.t)) (c : stored_call)
  : gmap Z (list Ping.t) :=
  let tourist_id := call_tourist_id c in
  let tourist_history :=
    match tourist_history !! tourist_id with
    | None => <[tourist_id := []]> tourist_history
    | Some _ => tourist_history
    end in
  let tourist_history :=
    <[tourist_id := (tourist_history !!! tourist_id) ++ [history_entry c]]>
      tourist_history in
  if (100 <? length (tourist_history !!! tourist_id))%nat
  then <[tourist_id := last_100 (tourist_history !!! tourist_id)]> tourist_history
  else tourist_history.

(** The dict after a run of storing steps, from the empty dict the module
    starts with. *)
Definition store_all (calls : list stored_call) : gmap Z (list Ping.t) :=
  fold_left store_point calls ∅.

(** Everything ever inserted for one entity, in insertion order. *)
Definition inserted (tourist_id : Z) (calls : list stored_call) : list Ping.t :=
  List.map history_entry
    (List.filter (fun c => Z.eqb (call_tourist_id c) tourist_id) calls).

Lemma last_100_short {A} (xs : list A) :
  (length xs <= 100)%nat -> last_100 xs = xs.
Proof. intros H. unfold last_100. now replace (length xs - 100)%nat with 0%nat by lia. Qed.

Lemma last_100_length {A} (xs : list A) : (length (last_100 xs) <= 100)%nat.
Proof. unfold last_100. rewrite length_skipn. lia. Qed.

Lemma last_100_snoc {A} (xs : list A) (x : A) :
  last_100 (last_100 xs ++ [x]) = last_100 (xs ++ [x]).
Proof.
  destruct (le_lt_dec (length xs) 100) as [Hshort|Hlong].
  - now rewrite (last_100_short xs).
  - unfold last_100. rewrite !length_app, length_skipn. cbn [length].
    replace (length xs - (length xs - 100) + 1 - 100)%nat with 1%nat by lia.
    rewrite !skipn_app, skipn_skipn, length_skipn.
    replace (1 - (length xs - (length xs - 100)))%nat with 0%nat by lia.
    replace (length xs + 1 - 100 - length xs)%nat with 0%nat by lia.
    now replace (1 + (length xs - 100))%nat with (length xs + 1 - 100)%nat by lia.
Qed.

(** One storing step, read off the dict: the entity's buffer becomes the
    last 100 of "old buffer plus the new entry"; no other buffer moves. *)
Lemma store_point_lookup (tourist_history : gmap Z (list Ping.t))
    (c : stored_call) (tourist_id : Z) :
  store_point tourist_history c !!! tourist_id
  = if Z.eqb (call_tourist_id c) tourist_id
    then last_100 ((tourist_history !!! tourist_id) ++ [history_entry c])
    else tourist_history !!! tourist_id.
Proof.
  unfold store_point.
  set (th1 := match tourist_history !! call_tourist_id c with
              | None => <[call_tourist_id c := []]> tourist_history
              | Some _ => tourist_history
              end).
  assert (Hth1 : forall i, th1 !!! i = tourist_history !!! i).
  { intros i. unfold th1.
    destruct (tourist_history !! call_tourist_id c) eqn:Hc; [reflexivity|].
    destruct (decide (call_tourist_id c = i)) as [<-|Hne].
    - rewrite lookup_total_insert_eq, lookup_total_alt, Hc. reflexivity.
    - now rewrite lookup_total_insert_ne. }
  rewrite lookup_total_insert_eq, Hth1.
  destruct (Z.eqb_spec (call_tourist_id c) tourist_id) as [<-|Hne].
  - destruct (100 <? _)%nat eqn:Hfull.
    + now rewrite lookup_total_insert_eq.
    + rewrite lookup_total_insert_eq. apply Nat.ltb_ge in Hfull.
      now rewrite last_100_short.
  - destruct (100 <? _)%nat;
      rewrite !lookup_total_insert_ne by assumption; apply Hth1.
Qed.

Lemma inserted_snoc tourist_id calls c :
  inserted tourist_id (calls ++ [c])
  = if Z.eqb (call_tourist_id c) tourist_id
    then inserted tourist_id calls ++ [history_entry c]
    else inserted tourist_id calls.
Proof.
  unfold inserted. rewrite List.filter_app, List.map_app. cbn [List.filter].
  destruct (Z.eqb (call_tourist_id c) tourist_id); [reflexivity|].
  apply app_nil_r.
Qed.

Lemma store_all_snoc calls c :
  store_all (calls ++ [c]) = store_point (store_all calls) c.
Proof. unfold store_all. now rewrite fold_left_app. Qed.

(** C7. After any run of insertions, every entity's buffer has at most 100
    entries and is exactly the last 100 pings inserted for that entity, in
    insertion order: when the capacity is exceeded it is the oldest entries
    that go. *)
Theorem history_buffer_last_100 (calls : list stored_call) (tourist_id : Z) :
  (length (store_all calls !!! tourist_id) <= 100)%nat
  /\ store_all calls !!! tourist_id = last_100 (inserted tourist_id calls)
  /\ exists evicted,
       inserted tourist_id calls = evicted ++ store_all calls !!! tourist_id
       /\ length evicted = (length (inserted tourist_id calls) - 100)%nat.
Proof.
  assert (Hbuf : store_all calls !!! tourist_id
                 = last_100 (inserted tourist_id calls)).
  { induction calls as [|c calls IH] using rev_ind.
    - unfold store_all. cbn [fold_left]. now rewrite lookup_total_empty.
    - rewrite store_all_snoc, store_point_lookup, inserted_snoc, IH.
      destruct (Z.eqb (call_tourist_id c) tourist_id); [|reflexivity].
      apply last_100_snoc. }
  rewrite Hbuf. split; [apply last_100_length|]. split; [reflexivity|].
  exists (firstn (length (inserted tourist_id calls) - 100) (inserted tourist_id calls)).
  split.
  - unfold last_100. symmetry. apply firstn_skipn.
  - rewrite length_firstn. lia.
Qed.

End HistoryStore.

Arguments detector : clear implicits.

(** ** The detectors on concrete pings *)

Module Scenario.

(** The detector of [api.py]: [TouristAnomalyDetector()]. *)
Definition detector0 : detector unit unit := default_detector tt.



Definition no_fit (m : unit) (X : matrix) : unit * result unit :=
  (m, Raise (LibraryError 0)).



Definition ping (tourist_id : Z) (lat lon : R) (timestamp : string) : Ping.t :=
  Ping.mk tourist_id lat lon timestamp false "normal".

(** Two pings at the first waypoint, six minutes apart. *)
Definition dwell : dataframe :=
  [ ping 1 12.9716 77.5946 "2024-01-15T10:00:00";
    ping 1 12.9716 77.5946 "2024-01-15T10:06:00" ].

(** The stop record the six-minute dwell produces. *)
Definition dwell_stop : Anomaly.t :=
  Anomaly.mk 1 "2024-01-15T10:06:00" 12.9716 77.5946
    stopped_too_long (Stopped_for 6) (Fin 1.2).

(** The stop scenario of [data_sim.generate_stop_anomaly]: three pings
    around the second waypoint, then eight pings at one spot, all one
    minute apart. *)
Definition stop_scenario : dataframe :=
  [ ping 2 12.9727 77.5955 "2024-01-15 10:30:00";
    ping 2 12.9725 77.5957 "2024-01-15 10:31:00";
    ping 2 12.9726 77.5955 "2024-01-15 10:32:00";
    ping 2 12.9726 77.5956 "2024-01-15 10:33:00";
    ping 2 12.9726 77.5956 "2024-01-15 10:34:00";
    ping 2 12.9726 77.5956 "2024-01-15 10:35:00";
    ping 2 12.9726 77.5956 "2024-01-15 10:36:00";
    ping 2 12.9726 77.5956 "2024-01-15 10:37:00";
    ping 2 12.9726 77.5956 "2024-01-15 10:38:00";
    ping 2 12.9726 77.5956 "2024-01-15 10:39:00";
    ping 2 12.9726 77.5956 "2024-01-15 10:40:00" ].

Definition stop_scenario_datetime : list R :=
  [ IZR 1705314600; IZR 1705314660; IZR 1705314720; IZR 1705314780;
    IZR 1705314840; IZR 1705314900; IZR 1705314960; IZR 1705315020;
    IZR 1705315080; IZR 1705315140; IZR 1705315200 ].

(** The stationary part of the scenario. *)
Definition stationary : dataframe := skipn 3 stop_scenario.

(** Three pings of one entity, the last two with the same timestamp but at
    different places, in the two orders they can arrive in. *)
Definition tie_first : dataframe :=
  [ ping 7 12.9716 77.5946 "2024-01-15T10:00:00";
    ping 7 12.9716 77.5946 "2024-01-15T10:10:00";
    ping 7 12.9800 77.6000 "2024-01-15T10:10:00" ].

Definition tie_second : dataframe :=
  [ ping 7 12.9716 77.5946 "2024-01-15T10:00:00";
    ping 7 12.9800 77.6000 "2024-01-15T10:10:00";
    ping 7 12.9716 77.5946 "2024-01-15T10:10:00" ].

Definition tie_datetime : list R :=
  [IZR 1705312800; IZR 1705313400; IZR 1705313400].

(** The stop record at the tied ping that stayed at the first waypoint. *)
Definition tie_stop : Anomaly.t :=
  Anomaly.mk 7 "2024-01-15T10:10:00" 12.9716 77.5946
    stopped_too_long (Stopped_for 10) (Fin 2).

(** ** Evaluating the detectors *)

Lemma dwell_datetime :
  map_result (fun r => Timestamp.to_datetime (Ping.timestamp r)) dwell
  = Ok [IZR 1705312800; IZR 1705313160].
Proof. reflexivity. Qed.

Lemma dwell_stop_spec :
  stop_spec detector0 1 (combine dwell [IZR 1705312800; IZR 1705313160])
  = [dwell_stop].
Proof.
  cbn [dwell combine stop_spec app]. unfold stop_rule.
  cbn [fst snd ping Ping.lat Ping.lon Ping.timestamp
       detector0 default_detector new_detector stop_threshold_minutes].
  rewrite GeoMath.haversine_distance_diag.
  rewrite Rltb_lt by lra. rewrite Rgeb_ge by lra. cbn [andb].
  replace ((1705313160 - 1705312800) / 60) with 6 by lra.
  replace (Rmin (6 / 5) 2) with 1.2 by (unfold Rmin; destruct (Rle_dec _ _); lra).
  reflexivity.
Qed.

Lemma dwell_detected :
  detect_stop_anomaly Timestamp.to_datetime detector0 dwell 1 = Ok [dwell_stop].
Proof.
  rewrite <- dwell_stop_spec.
  apply detect_stop_anomaly_sorted.
  - repeat constructor.
  - repeat constructor.
  - exact dwell_datetime.
  - cbn. lra.
Qed.

(** The real-time path on the same dwell: the first ping is the stored
    history, the second is the queried one. *)
Lemma dwell_single_point :
  check_single_point Timestamp.to_datetime detector0 1 12.9716 77.5946
    "2024-01-15T10:06:00"
    (Some [ping 1 12.9716 77.5946 "2024-01-15T10:00:00"])
  = Ok [dwell_stop].
Proof.
  unfold check_single_point, current_point.
  pose proof (detect_route_deviation_at_waypoint detector0
                (Ping.mk 1 12.9716 77.5946 "2024-01-15T10:06:00" false "unknown"))
    as Hdev.
  cbn [Ping.tourist_id Ping.lat Ping.lon] in Hdev.
  rewrite Hdev; [|cbn; lia|cbn; lra|now left].
  cbn [bind app length Nat.ltb Nat.leb].
  rewrite (detect_stop_anomaly_sorted _ detector0 1 _
             [IZR 1705312800; IZR 1705313160]);
    [|repeat constructor|repeat constructor|reflexivity|cbn; lra].
  cbn [combine stop_spec app bind].
  rewrite stop_rule_same_place; [|reflexivity|reflexivity|cbn; lra].
  cbn [fst snd ping Ping.lat Ping.lon Ping.timestamp
       detector0 default_detector new_detector stop_threshold_minutes].
  replace ((1705313160 - 1705312800) / 60) with 6 by lra.
  replace (Rmin (6 / 5) 2) with 1.2 by (unfold Rmin; destruct (Rle_dec _ _); lra).
  change (Timestamp.to_datetime "2024-01-15T10:06:00") with (Ok (IZR 1705313160)).
  cbn [bind for_each app]. unfold recent_loop_body. cbn [Anomaly.timestamp].
  change (Timestamp.to_datetime "2024-01-15T10:06:00") with (Ok (IZR 1705313160)).
  cbn [bind]. rewrite Rltb_lt; [reflexivity|].
  replace (1705313160 - 1705313160) with 0 by lra. rewrite Rabs_R0. lra.
Qed.

(** C3, on the code. On the stop scenario, whose last eight pings are at
    distance 0 from each other and one minute apart, so that the dwell
    passes 5 minutes at the sixth of them, [detect_stop_anomaly] with the
    default threshold of 5 minutes returns no stop record at all. *)
Theorem stop_scenario_undetected :
  detect_stop_anomaly Timestamp.to_datetime detector0 stop_scenario 2 = Ok []
  /\ map_result (fun r => Timestamp.to_datetime (Ping.timestamp r)) stop_scenario
     = Ok stop_scenario_datetime
  /\ Forall (fun p =>
       Forall (fun q =>
         GeoMath.haversine_distance (Ping.lat p) (Ping.lon p) (Ping.lat q) (Ping.lon q)
         = 0) stationary) stationary
  /\ stop_threshold_minutes detector0 = 5.
Proof.
  split; [|split; [|split]].
  - apply (detect_stop_anomaly_short_gaps _ detector0 2 _ stop_scenario_datetime);
      [repeat constructor|repeat constructor|reflexivity|cbn; lra|].
    cbn [stop_scenario stop_scenario_datetime combine tl].
    repeat constructor; cbn; lra.
  - reflexivity.
  - repeat constructor; cbn [Ping.lat Ping.lon ping];
      apply GeoMath.haversine_distance_diag.
  - reflexivity.
Qed.

(** C10, refuted as stated. The two orders of the tied pings are
    permutations of each other, yet the detector answers differently: in
    the first order it reports one stop, at the ping that stayed at the
    first waypoint; in the second order it does not report that. *)
Lemma detect_stop_anomaly_tie_order :
  Permutation tie_first tie_second
  /\ detect_stop_anomaly Timestamp.to_datetime detector0 tie_first 7 = Ok [tie_stop]
  /\ detect_stop_anomaly Timestamp.to_datetime detector0 tie_second 7 <> Ok [tie_stop].
Proof.
  split; [apply perm_skip, perm_swap|].
  rewrite (detect_stop_anomaly_sorted _ detector0 7 tie_first tie_datetime);
    [|repeat constructor|repeat constructor|reflexivity|cbn; lra].
  rewrite (detect_stop_anomaly_sorted _ detector0 7 tie_second tie_datetime);
    [|repeat constructor|repeat constructor|reflexivity|cbn; lra].
  cbn [tie_first tie_second tie_datetime combine stop_spec].
  rewrite (stop_rule_same_place detector0 7
             (ping 7 12.9716 77.5946 "2024-01-15T10:00:00", IZR 1705312800)
             (ping 7 12.9716 77.5946 "2024-01-15T10:10:00", IZR 1705313400));
    [|reflexivity|reflexivity|cbn; lra].
  rewrite (stop_rule_short_gap detector0 7
             (ping 7 12.9716 77.5946 "2024-01-15T10:10:00", IZR 1705313400)
             (ping 7 12.9800 77.6000 "2024-01-15T10:10:00", IZR 1705313400))
    by (cbn; lra).
  rewrite (stop_rule_short_gap detector0 7
             (ping 7 12.9800 77.6000 "2024-01-15T10:10:00", IZR 1705313400)
             (ping 7 12.9716 77.5946 "2024-01-15T10:10:00", IZR 1705313400))
    by (cbn; lra).
  rewrite !app_nil_r. split.
  - cbn [fst snd ping Ping.lat Ping.lon Ping.timestamp
         detector0 default_detector new_detector stop_threshold_minutes].
    replace ((1705313400 - 1705312800) / 60) with 10 by lra.
    replace (Rmin (10 / 5) 2) with 2 by (unfold Rmin; destruct (Rle_dec _ _); lra).
    reflexivity.
  - unfold stop_rule, tie_stop.
    cbn [fst snd ping Ping.lat Ping.lon Ping.timestamp].
    destruct (Rltb _ 10 && Rgeb _ _); [|discriminate].
    intros Heq. injection Heq as Hlat Hlon. lra.
Qed.

(** ** Ties in a longer frame

    A sort that keeps pandas' promise and leaves tied rows in the reverse
    of their arrival order: a row goes behind the rows it ties with. *)
Fixpoint insert_after_ties (r : Ping.t) (sorted : dataframe) : dataframe :=
  match sorted with
  | [] => [r]
  | r' :: rest =>
      if timestamp_leb r' r then r' :: insert_after_ties r rest else r :: sorted
  end.

Fixpoint sort_ties_reversed (df : dataframe) : dataframe :=
  match df with
  | [] => []
  | r :: rest => insert_after_ties r (sort_ties_reversed rest)
  end.

(** Eighteen pings of one entity, in the order of their timestamps: one
    at the first waypoint, one still there ten minutes later, and sixteen
    elsewhere with that same later timestamp. *)
Definition elsewhere : Ping.t := ping 7 12.9800 77.6000 "2024-01-15T10:10:00".

Definition crowd : dataframe :=
  ping 7 12.9716 77.5946 "2024-01-15T10:00:00"
  :: ping 7 12.9716 77.5946 "2024-01-15T10:10:00"
  :: repeat elsewhere 16.

Definition crowd_datetime : list R :=
  IZR 1705312800 :: repeat (IZR 1705313400) 17.

Lemma insert_after_ties_Permutation r l :
  Permutation (insert_after_ties r l) (r :: l).
Proof.
  induction l as [|r' l IH]; simpl; [reflexivity|].
  destruct (timestamp_leb r' r); [|reflexivity].
  rewrite IH. apply perm_swap.
Qed.

Lemma insert_after_ties_Sorted r l :
  sorted_by_timestamp l -> sorted_by_timestamp (insert_after_ties r l).
Proof.
  unfold sorted_by_timestamp.
  induction 1 as [|r' l Hs IH Hhd]; simpl; [repeat constructor|].
  destruct (timestamp_leb r' r) eqn:Hle.
  - constructor; [exact IH|].
    destruct Hhd as [|r'' l' Hr'']; simpl; [now constructor|].
    destruct (timestamp_leb r'' r); now constructor.
  - assert (Hge : timestamp_leb r r' = true).
    { unfold timestamp_leb in Hle |- *.
      destruct (String.leb_total (Ping.timestamp r) (Ping.timestamp r'));
        congruence. }
    constructor; [now constructor|now constructor].
Qed.

Lemma sort_ties_reversed_sorts : sorts_by_timestamp sort_ties_reversed.
Proof.
  intros df. split.
  - induction df as [|r df IH]; simpl; [reflexivity|].
    now rewrite insert_after_ties_Permutation, IH.
  - induction df as [|r df IH]; simpl; [constructor|].
    now apply insert_after_ties_Sorted.
Qed.

Lemma crowd_sorted_ties_reversed :
  sort_ties_reversed (select_tourist crowd 7)
  = ping 7 12.9716 77.5946 "2024-01-15T10:00:00"
    :: repeat elsewhere 16
    ++ [ping 7 12.9716 77.5946 "2024-01-15T10:10:00"].
Proof. reflexivity. Qed.

Lemma elsewhere_is_far :
  10 <= GeoMath.haversine_distance 12.9716 77.5946 12.9800 77.6000.
Proof.
  pose proof (GeoBounds.haversine_distance_apart 12.9716 77.5946 12.9800 77.6000
                ltac:(lra) ltac:(lra) ltac:(lra)).
  lra.
Qed.

(** C1, refuted as stated. The eighteen pings are in the order of their
    timestamps, and the first two, ten minutes apart at one place, are a
    consecutive pair that calls for a stop record at the second. Under a
    sort that keeps pandas' promise but moves the tied second ping behind
    the sixteen it ties with, the detector reports nothing. *)
Lemma detect_stop_anomaly_ties_moved :
  sorts_by_timestamp sort_ties_reversed
  /\ Forall (fun r => Ping.tourist_id r = 7%Z) crowd
  /\ sorted_by_timestamp crowd
  /\ map_result Timestamp.to_datetime (List.map Ping.timestamp crowd)
     = Ok crowd_datetime
  /\ stop_spec detector0 7 (combine crowd crowd_datetime) = [tie_stop]
  /\ detect_stop_anomaly_with sort_ties_reversed
       (map_result Timestamp.to_datetime) detector0 crowd 7 = Ok []
  /\ detect_stop_anomaly_with sort_ties_reversed
       (map_result Timestamp.to_datetime) detector0 crowd 7
     <> Ok (stop_spec detector0 7 (combine crowd crowd_datetime)).
Proof.
  split; [exact sort_ties_reversed_sorts|].
  split; [repeat constructor|]. split; [repeat constructor|].
  split; [reflexivity|].
  enough (Hboth : stop_spec detector0 7 (combine crowd crowd_datetime) = [tie_stop]
                  /\ detect_stop_anomaly_with sort_ties_reversed
                       (map_result Timestamp.to_datetime) detector0 crowd 7 = Ok []).
  { destruct Hboth as [Hspec Hcode]. split; [exact Hspec|]. split; [exact Hcode|].
    rewrite Hspec, Hcode. discriminate. }
  split.
  - unfold crowd, crowd_datetime. cbn [repeat combine].
    rewrite stop_spec_cons.
    rewrite stop_rule_same_place; [|reflexivity|reflexivity|cbn; lra].
    rewrite stop_spec_short_gaps by (cbn [combine tl]; repeat constructor; cbn; lra).
    cbn [fst snd ping Ping.lat Ping.lon Ping.timestamp app
         detector0 default_detector new_detector stop_threshold_minutes].
    replace ((1705313400 - 1705312800) / 60) with 10 by lra.
    replace (Rmin (10 / 5) 2) with 2 by (unfold Rmin; destruct (Rle_dec _ _); lra).
    reflexivity.
  - rewrite (detect_stop_anomaly_with_spec sort_ties_reversed
               (map_result Timestamp.to_datetime) detector0 crowd 7
               crowd_datetime);
      [|reflexivity|reflexivity|cbn; lra].
    rewrite crowd_sorted_ties_reversed. f_equal.
    unfold crowd_datetime. cbn [repeat combine app].
    rewrite stop_spec_cons.
    rewrite stop_rule_far
      by (cbn [fst snd ping elsewhere Ping.lat Ping.lon]; exact elsewhere_is_far).
    cbn [app].
    apply stop_spec_short_gaps. cbn [combine tl]. repeat constructor; cbn; lra.
Qed.

(** ** A fit that raises

    A scaler that fits and leaves the numbers as they are, beside a forest
    whose [fit] raises and whose [predict], the forest never having been
    fitted, raises too. *)
Definition scaled_as_is (s : unit) (X : matrix) : unit * result matrix := (s, Ok X).



(** ** The theorems above, applied *)

Lemma detect_stop_anomaly_consecutive_pairs_applied :
  detect_stop_anomaly_with sort_values_timestamp
    (map_result Timestamp.to_datetime) detector0 dwell 1 = Ok [dwell_stop]
  /\ detect_stop_anomaly Timestamp.to_datetime detector0 dwell 1 = Ok [dwell_stop]
  /\ detect_stop_anomaly_with sort_values_timestamp
       (map_result Timestamp.to_datetime) detector0
       [ping 1 12.9716 77.5946 "2024-01-15T10:00:00"] 1 = Ok [].
Proof.
  destruct (detect_stop_anomaly_consecutive_pairs sort_values_timestamp
              (map_result Timestamp.to_datetime) detector0 1
              sort_values_timestamp_sorts) as [Hpairs Hshort].
  assert (Hdwell : detect_stop_anomaly_with sort_values_timestamp
                     (map_result Timestamp.to_datetime) detector0 dwell 1
                   = Ok [dwell_stop]).
  { rewrite <- dwell_stop_spec. apply Hpairs.
    - repeat constructor.
    - repeat constructor.
    - repeat constructor; cbn; intuition discriminate.
    - reflexivity.
    - reflexivity.
    - cbn. lra. }
  split; [exact Hdwell|]. split.
  - rewrite detect_stop_anomaly_with_model. exact Hdwell.
  - apply Hshort. cbn. lia.
Defined.

(** A ping a good thirteen kilometers north of the route. *)
Definition far_north : Ping.t := ping 1 13.1 77.5946 "2024-01-15T10:01:00".

Lemma far_north_distance : 2000 <= min_endpoint_distance detector0 far_north.
Proof.
  apply min_endpoint_distance_lower; [cbn; lia|].
  intros w Hw. rewrite GeoMath.haversine_distance_sym.
  cbn [far_north ping Ping.lat Ping.lon].
  cbn [detector0 default_detector new_detector planned_route In] in Hw.
  destruct Hw as [<-|[<-|[<-|[<-|[<-|[]]]]]]; cbn [fst snd];
    match goal with
    | |- _ <= GeoMath.haversine_distance ?lat1 ?lon1 ?lat2 ?lon2 =>
        pose proof (GeoBounds.haversine_distance_apart lat1 lon1 lat2 lon2
                      ltac:(lra) ltac:(lra) ltac:(lra))
    end; lra.
Qed.

Lemma detect_route_deviation_min_endpoint_applied :
  min_endpoint_distance detector0 (ping 1 12.9716 77.5946 "2024-01-15T10:00:00") = 0
  /\ 2000 <= min_endpoint_distance detector0 far_north
  /\ detect_route_deviation detector0
       [ping 1 12.9716 77.5946 "2024-01-15T10:00:00"; far_north] 1
     = Ok [Anomaly.mk 1 "2024-01-15T10:01:00" 13.1 77.5946 route_deviation
             (Deviated (Fin (min_endpoint_distance detector0 far_north)))
             (Fin 3)].
Proof.
  assert (Hlen : (2 <= length (planned_route detector0))%nat) by (cbn; lia).
  assert (Hthr : deviation_threshold_meters detector0 <> 0) by (cbn; lra).
  destruct (detect_route_deviation_min_endpoint detector0 1 Hlen Hthr)
    as [_ [Hrecords Hwaypoint]].
  destruct (Hwaypoint (ping 1 12.9716 77.5946 "2024-01-15T10:00:00"))
    as [Hzero _]; [now left|].
  pose proof far_north_distance as Hfar.
  split; [exact Hzero|]. split; [exact Hfar|].
  destruct (Hrecords [ping 1 12.9716 77.5946 "2024-01-15T10:00:00"; far_north])
    as [anomalies [-> [-> _]]].
  cbn [List.filter ping far_north Ping.tourist_id Z.eqb Pos.eqb andb].
  fold (ping 1 12.9716 77.5946 "2024-01-15T10:00:00").
  change (Ping.mk 1 13.1 77.5946 "2024-01-15T10:01:00" false "normal")
    with far_north.
  rewrite Hzero.
  change (deviation_threshold_meters detector0) with 200.
  replace (Rltb 200 0) with false
    by (unfold Rltb; destruct (Rlt_dec 200 0); [lra|reflexivity]).
  rewrite (Rltb_lt 200 (min_endpoint_distance detector0 far_north)) by lra.
  cbn [List.map far_north ping Ping.timestamp Ping.lat Ping.lon].
  replace (Rmin (min_endpoint_distance detector0 far_north / 200) 3) with 3;
    [reflexivity|].
  unfold Rmin. destruct (Rle_dec _ 3) as [Hle|_]; lra.
Defined.

Lemma check_single_point_stop_records_applied :
  Forall (fun a =>
            Anomaly.anomaly_type a = stopped_too_long ->
            exists current_time anomaly_time,
              Timestamp.to_datetime "2024-01-15T10:06:00" = Ok current_time
              /\ Timestamp.to_datetime (Anomaly.timestamp a) = Ok anomaly_time
              /\ Rabs (current_time - anomaly_time) < 60) [dwell_stop].
Proof.
  exact (proj2 (check_single_point_stop_records Timestamp.to_datetime detector0
                  1 12.9716 77.5946 "2024-01-15T10:06:00"
                  (Some [ping 1 12.9716 77.5946 "2024-01-15T10:00:00"])
                  [dwell_stop] dwell_single_point)).
Defined.



Lemma detect_stop_anomaly_permutation_applied :
  detect_stop_anomaly Timestamp.to_datetime detector0 dwell 1
  = detect_stop_anomaly Timestamp.to_datetime detector0 (rev dwell) 1.
Proof.
  apply detect_stop_anomaly_permutation.
  - apply perm_swap.
  - cbn. repeat constructor; cbn; intuition discriminate.
Defined.


End Scenario.

(** [x / y] on numbers; Python raises on [y = 0]. *)
Definition py_div (x y : R) : result R :=
  if Req_dec_T y 0 then Raise ZeroDivisionError else Ok (x / y).

(** ** The simulator of [data_sim.py] *)

Section Simulator.

(** The state of Python's [random] module and [random.uniform(a, b)]: the
    number drawn and the state the call leaves. *)
Context {rng : Type}.
Variable uniform : R -> R -> rng -> R * rng.

(** A [datetime] is a whole number of microseconds on the time line;
    [strftime t] is [t.strftime('%Y-%m-%d %H:%M:%S')], and
    [to_datetime] is pandas' reading of such a text, in seconds. *)
Variable strftime : Z -> string.
Variable to_datetime : string -> result R.

Context {StandardScaler IsolationForest : Type}.
Implicit Types d : detector StandardScaler IsolationForest.

(** [timedelta(minutes=n)] *)
Definition timedelta_minutes (n : Z) : Z := (n * 60000000)%Z.

Definition base_route : list (R * R) :=
  [ (12.9716, 77.5946); (12.9726, 77.5956); (12.9736, 77.5966);
    (12.9746, 77.5976); (12.9756, 77.5986) ].

(** One turn of a generating loop: a ping at [(lat, lon)] moved by two
    draws from [uniform(-spread, spread)] is appended to [data] and
    [current_time] advances by one minute. The state is [data],
    [current_time] and the generator. *)
Definition noisy_ping (tourist_id : Z) (lat lon spread : R)
    (is_anomaly : bool) (anomaly_type : string)
    (st : dataframe * Z * rng) (i : nat) : dataframe * Z * rng :=
  let '(data, current_time, g) := st in
  let '(noise_lat, g) := uniform (- spread) spread g in
  let '(noise_lon, g) := uniform (- spread) spread g in
  (data ++ [Ping.mk tourist_id (lat + noise_lat) (lon + noise_lon)
              (strftime current_time) is_anomaly anomaly_type],
   (current_time + timedelta_minutes 1)%Z, g).

(** [generate_stop_anomaly(tourist_id, start_time)] *)
Definition generate_stop_anomaly (tourist_id : Z) (start_time : Z) (g : rng)
  : dataframe * rng :=
  let data := [] in
  let current_time := start_time in
  let '(lat, lon) := nth 1 base_route (0, 0) in
  let st :=
    fold_left (noisy_ping tourist_id lat lon 0.0001 false "normal")
      (seq 0 3) (data, current_time, g) in
  let stop_duration := 8%nat in
  let '(data, _, g) :=
    fold_left (noisy_ping tourist_id lat lon 0.00005 true "stopped_too_long")
      (seq 0 stop_duration) st in
  (data, g).

(** [generate_deviation_anomaly(tourist_id, start_time)] *)
Definition generate_deviation_anomaly (tourist_id : Z) (start_time : Z) (g : rng)
  : dataframe * rng :=
  let current_time := start_time in
  let '(lat, lon) := nth 2 base_route (0, 0) in
  let data :=
    [Ping.mk tourist_id lat lon (strftime current_time) false "normal"] in
  let current_time := (current_time + timedelta_minutes 1)%Z in
  let deviation_distance := 0.003 in
  let deviated_lat := lat + deviation_distance in
  let deviated_lon := lon + deviation_distance in
  let '(data, _, g) :=
    fold_left
      (noisy_ping tourist_id deviated_lat deviated_lon 0.0001 true "route_deviation")
      (seq 0 5) (data, current_time, g) in
  (data, g).

(** What Python promises of [random.uniform(a, b)] for [a <= b]. *)
Definition uniform_in_range : Prop :=
  forall a b g, a <= b -> a <= fst (uniform a b g) <= b.

(** The time of the [k]-th ping of a generated run. *)
Definition ping_time (start_time : Z) (k : nat) : Z :=
  (start_time + Z.of_nat k * 60000000)%Z.

(** The texts [strftime] writes for the first [n] pings of a run are read
    back by [to_datetime] as the whole seconds they show. *)
Definition read_back (start_time : Z) (n : nat) : Prop :=
  forall k, (k < n)%nat ->
    to_datetime (strftime (ping_time start_time k))
    = Ok (IZR (ping_time start_time k / 1000000)).

(** The texts of the first [n] pings of a run are in the order of their
    times. *)
Definition texts_in_order (start_time : Z) (n : nat) : Prop :=
  forall k, (S k < n)%nat ->
    String.leb (strftime (ping_time start_time k))
      (strftime (ping_time start_time (S k))) = true.

Ltac draw Hrange :=
  match goal with
  | |- context [uniform ?a ?b ?g] =>
      let u := fresh "u" in
      let g' := fresh "g" in
      let Hu := fresh "Hu" in
      pose proof (Hrange a b g ltac:(lra)) as Hu;
      destruct (uniform a b g) as [u g']; cbn [fst] in Hu
  end.

Lemma near_route_at (d : detector StandardScaler IsolationForest) eps row i w :
  nth_error (planned_route d) i = Some w ->
  Rabs (fst w - Ping.lat row) <= eps ->
  Rabs (snd w - Ping.lon row) <= eps ->
  near_route d eps row.
Proof.
  intros Hw Hlat Hlon. exists w. split; [|now split].
  eapply nth_error_In. exact Hw.
Qed.

Lemma generate_deviation_anomaly_near d tourist_id start_time g :
  uniform_in_range ->
  planned_route d = base_route ->
  let data := fst (generate_deviation_anomaly tourist_id start_time g) in
  Forall (near_route d 0.0011) data
  /\ List.map Ping.anomaly_type data
     = "normal"%string :: repeat "route_deviation"%string 5.
Proof.
  intros Hrange Hroute data. subst data. unfold generate_deviation_anomaly.
  cbn [nth base_route seq fold_left noisy_ping].
  do 10 (draw Hrange; cbn [fold_left noisy_ping]).
  cbn [fst app]. split; [|reflexivity].
  constructor.
  { apply (near_route_at d 0.0011 _ 2 (12.9736, 77.5966));
      [now rewrite Hroute|cbn [fst snd Ping.lat Ping.lon]..];
      apply Rabs_le; lra. }
  repeat (constructor;
          [apply (near_route_at d 0.0011 _ 4 (12.9756, 77.5986));
           [now rewrite Hroute|cbn [fst snd Ping.lat Ping.lon]..];
           apply Rabs_le; lra|]).
  constructor.
Qed.

(** X13. The deviation the simulator generates is too small for the
    detector: whatever the draws, the five pings it labels
    [route_deviation] lie within 0.0011 degrees of the last waypoint, so a
    detector on the same route with a threshold of at least 178.53 meters,
    the default 200 among them, reports none of them. *)
Theorem generate_deviation_anomaly_undetected
    (d : detector StandardScaler IsolationForest)
    (tourist_id start_time : Z) (g : rng) :
  uniform_in_range ->
  planned_route d = base_route ->
  162300 * 0.0011 <= deviation_threshold_meters d ->
  let data := fst (generate_deviation_anomaly tourist_id start_time g) in
  detect_route_deviation d data tourist_id = Ok []
  /\ List.map Ping.anomaly_type data
     = "normal"%string :: repeat "route_deviation"%string 5.
Proof.
  intros Hrange Hroute Hthr data.
  destruct (generate_deviation_anomaly_near d tourist_id start_time g
              Hrange Hroute) as [Hnear Hlabels].
  split; [|exact Hlabels].
  apply (detect_route_deviation_all_near d _ tourist_id 0.0011);
    [rewrite Hroute; cbn; lia|lra|exact Hthr|exact Hnear].
Qed.

Lemma ping_time_0 start_time : ping_time start_time 0 = start_time.
Proof. unfold ping_time. cbn. lia. Qed.

Lemma ping_time_S start_time k :
  ping_time start_time (S k)
  = (ping_time start_time k + timedelta_minutes 1)%Z.
Proof. unfold ping_time, timedelta_minutes. lia. Qed.

Lemma a_minute_later t :
  IZR ((t + timedelta_minutes 1) / 1000000) = IZR (t / 1000000) + 60.
Proof.
  unfold timedelta_minutes.
  replace (1 * 60000000)%Z with (60 * 1000000)%Z by reflexivity.
  rewrite Z.div_add by discriminate. now rewrite plus_IZR.
Qed.

Ltac at_ping H k :=
  let F := fresh "F" in
  pose proof (H k ltac:(lia)) as F;
  rewrite ?ping_time_S, ?ping_time_0 in F.

(** X14. The stop the simulator generates is invisible to the detector:
    its eleven pings are one minute apart, so whatever the draws and the
    start time, a detector whose threshold is above one minute, the default
    5 among them, reports no stop on them, the eight pings labelled
    [stopped_too_long] included. The texts [strftime] writes are taken to
    be read back by [to_datetime] and to sort in the order of their
    times. *)
Theorem generate_stop_anomaly_undetected
    (d : detector StandardScaler IsolationForest)
    (tourist_id start_time : Z) (g : rng) :
  read_back start_time 11 ->
  texts_in_order start_time 11 ->
  1 < stop_threshold_minutes d ->
  let data := fst (generate_stop_anomaly tourist_id start_time g) in
  detect_stop_anomaly to_datetime d data tourist_id = Ok []
  /\ List.map Ping.anomaly_type data
     = repeat "normal"%string 3 ++ repeat "stopped_too_long"%string 8.
Proof.
  intros Hread Horder Hthr data. subst data.
  unfold generate_stop_anomaly.
  cbn [nth base_route seq fold_left noisy_ping].
  do 22 (match goal with
         | |- context [uniform ?a ?b ?g] => destruct (uniform a b g) as [? ?]
         end; cbn [fold_left noisy_ping]).
  cbn [fst app]. split; [|reflexivity].
  at_ping Hread 0%nat. at_ping Hread 1%nat. at_ping Hread 2%nat. at_ping Hread 3%nat.
  at_ping Hread 4%nat. at_ping Hread 5%nat. at_ping Hread 6%nat. at_ping Hread 7%nat.
  at_ping Hread 8%nat. at_ping Hread 9%nat. at_ping Hread 10%nat.
  eapply (detect_stop_anomaly_short_gaps to_datetime d tourist_id).
  - repeat constructor.
  - clear F F0 F1 F2 F3 F4 F5 F6 F7 F8 F9.
    at_ping Horder 0%nat. at_ping Horder 1%nat. at_ping Horder 2%nat. at_ping Horder 3%nat.
    at_ping Horder 4%nat. at_ping Horder 5%nat. at_ping Horder 6%nat. at_ping Horder 7%nat.
    at_ping Horder 8%nat. at_ping Horder 9%nat.
    unfold sorted_by_timestamp, timestamp_leb.
    repeat (constructor; cbn [Ping.timestamp]; try assumption).
  - cbn [map_result Ping.timestamp].
    rewrite F, F0, F1, F2, F3, F4, F5, F6, F7, F8, F9. cbn [bind]. reflexivity.
  - lra.
  - cbn [combine tl].
    repeat (constructor; [cbn [fst snd]; rewrite !a_minute_later; lra|]).
    constructor.
Qed.

(** ** Normal movement and the complete dataset *)

(** [random.randint(a, b)], and [timedelta(minutes=m)] for a float [m],
    in whole microseconds. *)
Variable randint : Z -> Z -> rng -> Z * rng.
Variable timedelta_float_minutes : R -> Z.

(** [timedelta(hours=n)] *)
Definition timedelta_hours (n : Z) : Z := (n * 3600000000)%Z.

(** One turn of the inner loop of [generate_normal_movement], at [j]. *)
Definition normal_point (tourist_id : Z) (start_point end_point : R * R)
    (num_points : Z) (st : dataframe * Z * rng) (j : nat)
  : result (dataframe * Z * rng) :=
  let '(data, current_time, g) := st in
  do progress <- py_div (INR j) (IZR (num_points - 1));
  let lat := fst start_point + (fst end_point - fst start_point) * progress in
  let lon := snd start_point + (snd end_point - snd start_point) * progress in
  let '(noise, g) := uniform (- 0.0001) 0.0001 g in
  let lat := lat + noise in
  let '(noise, g) := uniform (- 0.0001) 0.0001 g in
  let lon := lon + noise in
  let data :=
    data ++ [Ping.mk tourist_id lat lon (strftime current_time) false "normal"] in
  let '(pause, g) := uniform 1 2 g in
  Ok (data, (current_time + timedelta_float_minutes pause)%Z, g).

(** One turn of its outer loop, at segment [i]. *)
Definition normal_segment (tourist_id : Z) (st : dataframe * Z * rng) (i : nat)
  : result (dataframe * Z * rng) :=
  let '(data, current_time, g) := st in
  do start_point <- iloc base_route i;
  do end_point <- iloc base_route (i + 1);
  let '(num_points, g) := randint 8 12 g in
  for_each (normal_point tourist_id start_point end_point num_points)
    (seq 0 (Z.to_nat num_points)) (data, current_time, g).

(** [generate_normal_movement(tourist_id, start_time)] *)
Definition generate_normal_movement (tourist_id : Z) (start_time : Z) (g : rng)
  : result (dataframe * rng) :=
  do st <- for_each (normal_segment tourist_id)
             (seq 0 (length base_route - 1)) ([], start_time, g);
  let '(data, _, g) := st in
  Ok (data, g).

(** [generate_complete_dataset()], with [now] for [datetime.now()]. *)
Definition generate_complete_dataset (now : Z) (g : rng)
  : result (dataframe * rng) :=
  let all_data := [] in
  let base_time := (now - timedelta_hours 2)%Z in
  do normal <- generate_normal_movement 1 base_time g;
  let '(normal_data, g) := normal in
  let all_data := all_data ++ normal_data in
  let '(stop_data, g) :=
    generate_stop_anomaly 2 (base_time + timedelta_minutes 30)%Z g in
  let all_data := all_data ++ stop_data in
  let '(deviation_data, g) :=
    generate_deviation_anomaly 3 (base_time + timedelta_hours 1)%Z g in
  let all_data := all_data ++ deviation_data in
  Ok (all_data, g).

(** What Python promises of [random.randint(a, b)]. *)
Definition randint_in_range : Prop :=
  forall a b g, (a <= b)%Z -> (a <= fst (randint a b g) <= b)%Z.

(** How many pings of a frame the simulator labelled [label]. *)
Definition labelled (label : string) (df : dataframe) : nat :=
  count_occ string_dec (List.map Ping.anomaly_type df) label.

(** A ping of [tourist_id] labelled [normal] and within 0.0011 degrees of
    a waypoint. *)
Definition normal_near (d : detector StandardScaler IsolationForest)
    (tourist_id : Z) (row : Ping.t) : Prop :=
  near_route d 0.0011 row
  /\ Ping.tourist_id row = tourist_id
  /\ Ping.anomaly_type row = "normal"%string.

Lemma Rabs_bounds x a : Rabs x <= a -> - a <= x <= a.
Proof. unfold Rabs. destruct (Rcase_abs x); lra. Qed.

Lemma normal_point_near d tourist_id start_point end_point num_points
    (data : dataframe) current_time g j :
  uniform_in_range ->
  In start_point (planned_route d) ->
  Rabs (fst end_point - fst start_point) <= 0.001 ->
  Rabs (snd end_point - snd start_point) <= 0.001 ->
  (8 <= num_points <= 12)%Z ->
  (j < Z.to_nat num_points)%nat ->
  Forall (normal_near d tourist_id) data ->
  exists data' current_time' g',
    normal_point tourist_id start_point end_point num_points
      (data, current_time, g) j = Ok (data', current_time', g')
    /\ Forall (normal_near d tourist_id) data'
    /\ length data' = S (length data).
Proof.
  intros Hrange Hstart Hlat Hlon Hnum Hj Hdata. unfold normal_point, py_div.
  assert (Hwhole : 7 <= IZR (num_points - 1)) by (apply IZR_le; lia).
  destruct (Req_dec_T (IZR (num_points - 1)) 0) as [Hzero|_]; [lra|].
  cbn [bind].
  assert (Hpart : 0 <= INR j <= IZR (num_points - 1)).
  { split; [apply pos_INR|]. rewrite INR_IZR_INZ. apply IZR_le. lia. }
  assert (Hprogress : 0 <= INR j / IZR (num_points - 1) <= 1).
  { split.
    - apply Rmult_le_pos; [lra|]. left. apply Rinv_0_lt_compat. lra.
    - apply Rmult_le_reg_r with (IZR (num_points - 1)); [lra|].
      unfold Rdiv. rewrite Rmult_assoc, Rinv_l by lra. lra. }
  set (progress := INR j / IZR (num_points - 1)) in *.
  do 3 draw Hrange.
  do 3 eexists. split; [reflexivity|]. split; [|rewrite length_app; cbn; lia].
  apply Forall_app. split; [exact Hdata|]. constructor; [|constructor].
  split; [|now split].
  exists start_point. split; [exact Hstart|].
  cbn [Ping.lat Ping.lon].
  apply Rabs_bounds in Hlat as [Hlat1 Hlat2].
  apply Rabs_bounds in Hlon as [Hlon1 Hlon2].
  split; apply Rabs_le; split; nra.
Qed.

Lemma normal_points_near d tourist_id start_point end_point num_points :
  uniform_in_range ->
  In start_point (planned_route d) ->
  Rabs (fst end_point - fst start_point) <= 0.001 ->
  Rabs (snd end_point - snd start_point) <= 0.001 ->
  (8 <= num_points <= 12)%Z ->
  forall m j (data : dataframe) current_time g,
    (j + m <= Z.to_nat num_points)%nat ->
    Forall (normal_near d tourist_id) data ->
    exists data' current_time' g',
      for_each (normal_point tourist_id start_point end_point num_points)
        (seq j m) (data, current_time, g) = Ok (data', current_time', g')
      /\ Forall (normal_near d tourist_id) data'
      /\ length data' = (length data + m)%nat.
Proof.
  intros Hrange Hstart Hlat Hlon Hnum.
  induction m as [|m IH]; intros j data current_time g Hj Hdata.
  - exists data, current_time, g. cbn. split; [reflexivity|]. split; [assumption|lia].
  - cbn [seq for_each].
    destruct (normal_point_near d tourist_id start_point end_point num_points
                data current_time g j Hrange Hstart Hlat Hlon Hnum ltac:(lia) Hdata)
      as [data1 [time1 [g1 [-> [Hdata1 Hlen1]]]]].
    cbn [bind].
    destruct (IH (S j) data1 time1 g1 ltac:(lia) Hdata1)
      as [data2 [time2 [g2 [Hrest [Hdata2 Hlen2]]]]].
    exists data2, time2, g2. split; [exact Hrest|]. split; [assumption|lia].
Qed.

Lemma normal_segment_near d tourist_id (data : dataframe) current_time g i :
  uniform_in_range -> randint_in_range ->
  planned_route d = base_route ->
  (i < 4)%nat ->
  Forall (normal_near d tourist_id) data ->
  exists data' current_time' g',
    normal_segment tourist_id (data, current_time, g) i
    = Ok (data', current_time', g')
    /\ Forall (normal_near d tourist_id) data'
    /\ (length data + 8 <= length data' <= length data + 12)%nat.
Proof.
  intros Hrange Hint Hroute Hi Hdata. unfold normal_segment.
  pose proof (Hint 8%Z 12%Z g ltac:(lia)) as Hnum.
  assert (Hsegment : exists start_point end_point,
             iloc base_route i = Ok start_point
             /\ iloc base_route (i + 1) = Ok end_point
             /\ In start_point (planned_route d)
             /\ Rabs (fst end_point - fst start_point) <= 0.001
             /\ Rabs (snd end_point - snd start_point) <= 0.001).
  { rewrite Hroute.
    do 4 (destruct i as [|i];
          [do 2 eexists; split; [reflexivity|]; split; [reflexivity|];
           split;
           [cbn [In];
            first [left; reflexivity | right; left; reflexivity
                  | right; right; left; reflexivity
                  | right; right; right; left; reflexivity]|];
           cbn [fst snd]; split; apply Rabs_le; lra|]).
    lia. }
  destruct Hsegment as [start_point [end_point [-> [-> [Hstart [Hlat Hlon]]]]]].
  cbn [bind]. destruct (randint 8 12 g) as [num_points g0]. cbn [fst] in Hnum.
  destruct (normal_points_near d tourist_id start_point end_point num_points
              Hrange Hstart Hlat Hlon Hnum (Z.to_nat num_points) 0 data
              current_time g0 ltac:(lia) Hdata)
    as [data' [time' [g' [Hrun [Hdata' Hlen]]]]].
  exists data', time', g'. split; [exact Hrun|]. split; [assumption|lia].
Qed.

Lemma generate_normal_movement_near d tourist_id start_time g :
  uniform_in_range -> randint_in_range ->
  planned_route d = base_route ->
  exists data g',
    generate_normal_movement tourist_id start_time g = Ok (data, g')
    /\ Forall (normal_near d tourist_id) data
    /\ (32 <= length data <= 48)%nat.
Proof.
  intros Hrange Hint Hroute.
  destruct (normal_segment_near d tourist_id [] start_time g 0
              Hrange Hint Hroute ltac:(lia) ltac:(constructor))
    as [data1 [time1 [g1 [Hrun1 [Hdata1 Hlen1]]]]].
  destruct (normal_segment_near d tourist_id data1 time1 g1 1
              Hrange Hint Hroute ltac:(lia) Hdata1)
    as [data2 [time2 [g2 [Hrun2 [Hdata2 Hlen2]]]]].
  destruct (normal_segment_near d tourist_id data2 time2 g2 2
              Hrange Hint Hroute ltac:(lia) Hdata2)
    as [data3 [time3 [g3 [Hrun3 [Hdata3 Hlen3]]]]].
  destruct (normal_segment_near d tourist_id data3 time3 g3 3
              Hrange Hint Hroute ltac:(lia) Hdata3)
    as [data4 [time4 [g4 [Hrun4 [Hdata4 Hlen4]]]]].
  exists data4, g4. split; [|split; [assumption|cbn [length] in Hlen1; lia]].
  unfold generate_normal_movement.
  cbn [base_route length Nat.sub seq for_each].
  unfold dataframe in Hrun1, Hrun2, Hrun3, Hrun4 |- *.
  rewrite Hrun1. cbn [bind]. rewrite Hrun2. cbn [bind].
  rewrite Hrun3. cbn [bind]. rewrite Hrun4. reflexivity.
Qed.

Lemma normal_near_route d tourist_id data :
  Forall (normal_near d tourist_id) data -> Forall (near_route d 0.0011) data.
Proof. apply List.Forall_impl. now intros row [Hnear _]. Qed.

Lemma normal_not_labelled d tourist_id label data :
  label <> "normal"%string ->
  Forall (normal_near d tourist_id) data -> labelled label data = 0%nat.
Proof.
  intros Hlabel. unfold labelled.
  induction 1 as [|row data [_ [_ Hrow]] _ IH]; [reflexivity|].
  cbn [List.map count_occ]. rewrite Hrow.
  destruct (string_dec "normal" label) as [Heq|_]; [congruence|exact IH].
Qed.

Lemma generate_stop_anomaly_near d tourist_id start_time g :
  uniform_in_range ->
  planned_route d = base_route ->
  let data := fst (generate_stop_anomaly tourist_id start_time g) in
  Forall (near_route d 0.0011) data
  /\ List.map Ping.anomaly_type data
     = repeat "normal"%string 3 ++ repeat "stopped_too_long"%string 8.
Proof.
  intros Hrange Hroute data. subst data. unfold generate_stop_anomaly.
  cbn [nth base_route seq fold_left noisy_ping].
  do 22 (draw Hrange; cbn [fold_left noisy_ping]).
  cbn [fst app]. split; [|reflexivity].
  repeat (constructor;
          [apply (near_route_at d 0.0011 _ 1 (12.9726, 77.5956));
           [now rewrite Hroute|cbn [fst snd Ping.lat Ping.lon]..];
           apply Rabs_le; lra|]).
  constructor.
Qed.

(** X20. Normal movement is never taken for a deviation: with draws in
    their ranges, [generate_normal_movement] returns between 32 and 48
    pings, all labelled [normal] and all within 0.0011 degrees of a
    waypoint, and a detector on the same route with a threshold of at least
    178.53 meters, the default 200 among them, reports none of them. *)
Theorem generate_normal_movement_not_deviating
    (d : detector StandardScaler IsolationForest)
    (tourist_id start_time : Z) (g : rng) :
  uniform_in_range -> randint_in_range ->
  planned_route d = base_route ->
  162300 * 0.0011 <= deviation_threshold_meters d ->
  exists data g',
    generate_normal_movement tourist_id start_time g = Ok (data, g')
    /\ (32 <= length data <= 48)%nat
    /\ Forall (fun row => Ping.anomaly_type row = "normal"%string) data
    /\ detect_route_deviation d data tourist_id = Ok [].
Proof.
  intros Hrange Hint Hroute Hthr.
  destruct (generate_normal_movement_near d tourist_id start_time g
              Hrange Hint Hroute) as [data [g' [Hrun [Hdata Hlen]]]].
  exists data, g'. split; [exact Hrun|]. split; [exact Hlen|]. split.
  - revert Hdata. apply List.Forall_impl. now intros row [_ [_ Hrow]].
  - apply (detect_route_deviation_all_near d data tourist_id 0.0011);
      [rewrite Hroute; cbn; lia|lra|exact Hthr|].
    now apply (normal_near_route d tourist_id).
Qed.

(** X21. The deviation detector finds nothing in the simulator's dataset:
    with draws in their ranges, [generate_complete_dataset] returns a frame
    in which five pings are labelled [route_deviation], and on it a
    detector on the same route with a threshold of at least 178.53 meters,
    the default 200 among them, returns the empty list for every
    entity. *)
Theorem generate_complete_dataset_no_deviation
    (d : detector StandardScaler IsolationForest) (now : Z) (g : rng) :
  uniform_in_range -> randint_in_range ->
  planned_route d = base_route ->
  162300 * 0.0011 <= deviation_threshold_meters d ->
  exists df g',
    generate_complete_dataset now g = Ok (df, g')
    /\ labelled "route_deviation" df = 5%nat
    /\ forall tourist_id, detect_route_deviation d df tourist_id = Ok [].
Proof.
  intros Hrange Hint Hroute Hthr. unfold generate_complete_dataset.
  destruct (generate_normal_movement_near d 1 (now - timedelta_hours 2)%Z g
              Hrange Hint Hroute) as [normal_data [g1 [-> [Hnormal _]]]].
  cbn [bind app].
  pose proof (generate_stop_anomaly_near d 2
                (now - timedelta_hours 2 + timedelta_minutes 30)%Z g1
                Hrange Hroute) as [Hstop Hstop_labels].
  destruct (generate_stop_anomaly 2 _ g1) as [stop_data g2].
  cbn [fst] in Hstop, Hstop_labels.
  pose proof (generate_deviation_anomaly_near d 3
                (now - timedelta_hours 2 + timedelta_hours 1)%Z g2
                Hrange Hroute) as [Hdeviation Hdeviation_labels].
  destruct (generate_deviation_anomaly 3 _ g2) as [deviation_data g3].
  cbn [fst] in Hdeviation, Hdeviation_labels.
  exists ((normal_data ++ stop_data) ++ deviation_data), g3.
  split; [reflexivity|]. split.
  - pose proof (normal_not_labelled d 1 "route_deviation" normal_data
                  ltac:(discriminate) Hnormal) as Hnone.
    unfold labelled in Hnone |- *.
    rewrite !List.map_app, !count_occ_app, Hnone, Hstop_labels, Hdeviation_labels.
    reflexivity.
  - intros tourist_id.
    apply (detect_route_deviation_all_near d _ tourist_id 0.0011);
      [rewrite Hroute; cbn; lia|lra|exact Hthr|].
    apply Forall_app. split; [apply Forall_app; split|]; try assumption.
    now apply (normal_near_route d 1).
Qed.

End Simulator.

(** ** The service of [api.py] *)

Section Service.

Variable to_datetime : string -> result R.
Context {StandardScaler IsolationForest : Type}.

(** [datetime.strptime(timestamp, format)] returns, rather than raising
    [ValueError]. *)
Variable strptime_ok : string -> string -> bool.

(** [round(x, 2)] *)
Variable round2 : pyfloat -> pyfloat.

Definition Rleb (x y : R) : bool := if Rle_dec x y then true else false.

(** The body of a [/check_anomaly] request once lines 58-79 have read it:
    a JSON object with the four required fields, [lat] and [lon] already
    through [float()]. *)
Record request : Type := mk_request {
  req_tourist_id : Z;
  req_lat : R;
  req_lon : R;
  req_timestamp : string
}.

(** What [check_anomaly] answers: an error with its HTTP code (the text
    of the exception, where the message embeds one, is left out), or the
    response dictionary of lines 140-161. *)
Inductive reply : Type :=
| Error_reply (code : Z) (error : string)
| Anomaly_reply (status : string) (tourist_id : Z) (timestamp : string)
    (lat lon : R) (anomalies : list (anomaly_kind * details_text * pyfloat))
    (reason : option details_text).

(** [check_anomaly()], lines 81-175, on the module-level [detector] and
    [tourist_history]: the dict as the request leaves it, and the reply. *)
Definition check_anomaly (d : detector StandardScaler IsolationForest)
    (tourist_history : gmap Z (list Ping.t)) (data : request)
  : gmap Z (list Ping.t) * reply :=
  let tourist_id := req_tourist_id data in
  let lat := req_lat data in
  let lon := req_lon data in
  let timestamp := req_timestamp data in
  if negb (Rleb (-90) lat && Rleb lat 90) then
    (tourist_history,
     Error_reply 400 "Invalid latitude. Must be between -90 and 90")
  else if negb (Rleb (-180) lon && Rleb lon 180) then
    (tourist_history,
     Error_reply 400 "Invalid longitude. Must be between -180 and 180")
  else if negb (strptime_ok timestamp "%Y-%m-%dT%H:%M:%S")
          && negb (strptime_ok timestamp "%Y-%m-%d %H:%M:%S") then
    (tourist_history,
     Error_reply 400
       "Invalid timestamp format. Use YYYY-MM-DDTHH:MM:SS or YYYY-MM-DD HH:MM:SS")
  else
    let historical_data := tourist_history !! tourist_id in
    match check_single_point to_datetime d tourist_id lat lon timestamp
            historical_data with
    | Raise ValueError => (tourist_history, Error_reply 400 "Invalid data format")
    | Raise _ => (tourist_history, Error_reply 500 "Internal server error")
    | Ok anomalies =>
        let tourist_history :=
          HistoryStore.store_point tourist_history
            (HistoryStore.mk_call tourist_id lat lon timestamp anomalies) in
        let status :=
          match anomalies with
          | _ :: _ => "anomaly"%string
          | [] => "normal"%string
          end in
        (tourist_history,
         Anomaly_reply status tourist_id timestamp lat lon
           (List.map
              (fun anomaly =>
                 (Anomaly.anomaly_type anomaly, Anomaly.details anomaly,
                  round2 (Anomaly.confidence anomaly)))
              anomalies)
           match anomalies with
           | anomaly :: _ => Some (Anomaly.details anomaly)
           | [] => None
           end)
    end.

(** What [get_tourist_history] answers: 404, or the entity's list and its
    length. *)
Inductive history_reply : Type :=
| Tourist_not_found
| History (tourist_id : Z) (history : list Ping.t) (total_points : nat).

(** [get_tourist_history(tourist_id)] *)
Definition get_tourist_history (tourist_history : gmap Z (list Ping.t))
    (tourist_id : Z) : history_reply :=
  match tourist_history !! tourist_id with
  | None => Tourist_not_found
  | Some history => History tourist_id history (length history)
  end.

(** The numbers of [get_stats]. *)
Record stats : Type := mk_stats {
  total_tourists : nat;
  total_data_points : nat;
  total_anomalies : nat;
  anomaly_rate : pyfloat
}.

(** [get_stats()]; the sums run over [tourist_history.values()]. *)
Definition get_stats (tourist_history : gmap Z (list Ping.t)) : result stats :=
  let values := List.map snd (map_to_list tourist_history) in
  let total_tourists := size tourist_history in
  let total_points := list_sum (List.map (fun history => length history) values) in
  let anomaly_count :=
    fold_left
      (fun anomaly_count history =>
         (anomaly_count + length (List.filter Ping.is_anomaly history))%nat)
      values 0%nat in
  do ratio <- py_div (INR anomaly_count) (INR (Nat.max total_points 1));
  Ok (mk_stats total_tourists total_points anomaly_count
        (round2 (Fin (ratio * 100)))).

(** The dict after a run of requests to a service started empty. *)
Definition serve (d : detector StandardScaler IsolationForest)
    (requests : list request) : gmap Z (list Ping.t) :=
  fold_left (fun tourist_history data => fst (check_anomaly d tourist_history data))
    requests ∅.

(** What validation guarantees of an entry stored under [tourist_id]. *)
Definition validated (tourist_id : Z) (point : Ping.t) : Prop :=
  Ping.tourist_id point = tourist_id
  /\ -90 <= Ping.lat point <= 90
  /\ -180 <= Ping.lon point <= 180
  /\ (strptime_ok (Ping.timestamp point) "%Y-%m-%dT%H:%M:%S" = true
      \/ strptime_ok (Ping.timestamp point) "%Y-%m-%d %H:%M:%S" = true).

(** Every list of the dict holds between 1 and 100 validated entries. *)
Definition well_kept (tourist_history : gmap Z (list Ping.t)) : Prop :=
  forall tourist_id history,
    tourist_history !! tourist_id = Some history ->
    (1 <= length history <= 100)%nat /\ Forall (validated tourist_id) history.

Lemma Rleb_true x y : Rleb x y = true <-> x <= y.
Proof. unfold Rleb. destruct (Rle_dec x y); split; (assumption || discriminate || easy). Qed.

Lemma store_point_lookup_Some (tourist_history : gmap Z (list Ping.t))
    (c : HistoryStore.stored_call) (tourist_id : Z) :
  HistoryStore.store_point tourist_history c !! tourist_id
  = if Z.eqb (HistoryStore.call_tourist_id c) tourist_id
    then Some (HistoryStore.last_100
                 ((tourist_history !!! tourist_id) ++ [HistoryStore.history_entry c]))
    else tourist_history !! tourist_id.
Proof.
  pose proof (HistoryStore.store_point_lookup tourist_history c tourist_id) as Htotal.
  destruct (Z.eqb_spec (HistoryStore.call_tourist_id c) tourist_id) as [Heq|Hne].
  - subst tourist_id. rewrite lookup_total_alt in Htotal.
    destruct (HistoryStore.store_point tourist_history c
              !! HistoryStore.call_tourist_id c) as [history|] eqn:Hnew.
    + cbn in Htotal. now rewrite Htotal.
    + unfold HistoryStore.store_point in Hnew.
      destruct (100 <? _)%nat; rewrite lookup_insert_eq in Hnew; discriminate.
  - unfold HistoryStore.store_point.
    destruct (100 <? _)%nat; rewrite ?lookup_insert_ne by assumption;
      destruct (tourist_history !! HistoryStore.call_tourist_id c);
      rewrite ?lookup_insert_ne by assumption; reflexivity.
Qed.

Lemma last_100_snoc_length {A} (xs : list A) (x : A) :
  (1 <= length (HistoryStore.last_100 (xs ++ [x])) <= 100)%nat.
Proof.
  unfold HistoryStore.last_100. rewrite length_skipn, length_app. cbn [length]. lia.
Qed.

Lemma last_100_Forall {A} (P : A -> Prop) (xs : list A) :
  Forall P xs -> Forall P (HistoryStore.last_100 xs).
Proof. unfold HistoryStore.last_100. apply Forall_drop. Qed.

(** One request, read off the handler. *)
Lemma check_anomaly_cases d tourist_history data :
  (fst (check_anomaly d tourist_history data) = tourist_history
   /\ exists code error,
        snd (check_anomaly d tourist_history data) = Error_reply code error
        /\ (code = 400 \/ code = 500)%Z)
  \/ (exists anomalies,
        check_single_point to_datetime d (req_tourist_id data) (req_lat data)
          (req_lon data) (req_timestamp data)
          (tourist_history !! req_tourist_id data) = Ok anomalies
        /\ fst (check_anomaly d tourist_history data)
           = HistoryStore.store_point tourist_history
               (HistoryStore.mk_call (req_tourist_id data) (req_lat data)
                  (req_lon data) (req_timestamp data) anomalies)
        /\ validated (req_tourist_id data)
             (HistoryStore.history_entry
                (HistoryStore.mk_call (req_tourist_id data) (req_lat data)
                   (req_lon data) (req_timestamp data) anomalies))
        /\ exists status shown reason,
             snd (check_anomaly d tourist_history data)
             = Anomaly_reply status (req_tourist_id data) (req_timestamp data)
                 (req_lat data) (req_lon data) shown reason
             /\ length shown = length anomalies).
Proof.
  unfold check_anomaly.
  destruct (Rleb (-90) (req_lat data) && Rleb (req_lat data) 90) eqn:Hlat;
    cbn [negb]; [|left; split; [reflexivity|eauto]].
  destruct (Rleb (-180) (req_lon data) && Rleb (req_lon data) 180) eqn:Hlon;
    cbn [negb]; [|left; split; [reflexivity|eauto]].
  destruct (strptime_ok (req_timestamp data) "%Y-%m-%dT%H:%M:%S") eqn:Hiso;
    cbn [negb andb].
  2: destruct (strptime_ok (req_timestamp data) "%Y-%m-%d %H:%M:%S") eqn:Hspace;
       cbn [negb]; [|left; split; [reflexivity|eauto]].
  all: apply andb_true_iff in Hlat as [Hlat1 Hlat2];
       apply andb_true_iff in Hlon as [Hlon1 Hlon2];
       apply Rleb_true in Hlat1, Hlat2, Hlon1, Hlon2.
  all: destruct (check_single_point _ _ _ _ _ _ _) as [anomalies|e];
       [right; exists anomalies; split; [reflexivity|]; split; [reflexivity|];
        split; [unfold validated; cbn; auto|];
        do 3 eexists; split; [reflexivity|apply length_map]
       |left; destruct e; (split; [reflexivity|eauto])].
Qed.

Lemma store_point_well_kept tourist_history c :
  well_kept tourist_history ->
  validated (HistoryStore.call_tourist_id c) (HistoryStore.history_entry c) ->
  well_kept (HistoryStore.store_point tourist_history c).
Proof.
  intros Hkept Hvalid tourist_id history. rewrite store_point_lookup_Some.
  destruct (Z.eqb_spec (HistoryStore.call_tourist_id c) tourist_id) as [<-|Hne];
    [|apply Hkept].
  intros [= <-]. split; [apply last_100_snoc_length|].
  apply last_100_Forall, Forall_app. split; [|constructor; [exact Hvalid|constructor]].
  rewrite lookup_total_alt.
  destruct (tourist_history !! HistoryStore.call_tourist_id c) as [history|] eqn:Hold;
    [|constructor].
  now apply (Hkept _ _ Hold).
Qed.

Lemma serve_snoc d requests data :
  serve d (requests ++ [data]) = fst (check_anomaly d (serve d requests) data).
Proof. unfold serve. now rewrite fold_left_app. Qed.

Lemma serve_well_kept d requests : well_kept (serve d requests).
Proof.
  induction requests as [|data requests IH] using rev_ind.
  - intros tourist_id history. unfold serve. cbn [fold_left].
    now rewrite lookup_empty.
  - rewrite serve_snoc.
    destruct (check_anomaly_cases d (serve d requests) data)
      as [[-> _]|[anomalies [_ [-> [Hvalid _]]]]]; [exact IH|].
    now apply store_point_well_kept.
Qed.

(** X15. Validation guards the store: after any run of [/check_anomaly]
    requests to a service started empty, [get_tourist_history] answers
    either 404 or a list of between 1 and 100 entries, its length beside
    it, all filed under the entity asked for, with a latitude in
    [-90, 90], a longitude in [-180, 180] and a timestamp [strptime]
    accepts in one of the two layouts. *)
Theorem get_tourist_history_validated
    (d : detector StandardScaler IsolationForest)
    (requests : list request) (tourist_id : Z) :
  match get_tourist_history (serve d requests) tourist_id with
  | Tourist_not_found => serve d requests !! tourist_id = None
  | History found history total_points =>
      found = tourist_id
      /\ total_points = length history
      /\ (1 <= total_points <= 100)%nat
      /\ Forall (validated tourist_id) history
  end.
Proof.
  unfold get_tourist_history.
  destruct (serve d requests !! tourist_id) as [history|] eqn:Hlookup;
    [|reflexivity].
  destruct (serve_well_kept d requests tourist_id history Hlookup) as [Hlen Hall].
  now repeat split.
Qed.

Lemma values_well_kept tourist_history :
  well_kept tourist_history ->
  Forall (fun history : list Ping.t => (1 <= length history <= 100)%nat)
    (List.map snd (map_to_list tourist_history)).
Proof.
  intros Hkept. apply List.Forall_forall. intros history Hin.
  apply in_map_iff in Hin as [[tourist_id history'] [<- Hin]].
  apply list_elem_of_In, elem_of_map_to_list in Hin.
  now destruct (Hkept _ _ Hin).
Qed.

Lemma sum_lengths_bounds (values : list (list Ping.t)) :
  Forall (fun history : list Ping.t => (1 <= length history <= 100)%nat) values ->
  (length values
   <= list_sum (List.map (fun history => length history) values)
   <= 100 * length values)%nat.
Proof.
  induction 1 as [|history values Hlen _ IH]; [simpl; lia|].
  change (list_sum (List.map (fun history => length history) (history :: values)))
    with (length history
          + list_sum (List.map (fun history => length history) values))%nat.
  cbn [length]. lia.
Qed.

Lemma anomaly_count_le (values : list (list Ping.t)) (count : nat) :
  (fold_left
     (fun anomaly_count history =>
        (anomaly_count + length (List.filter Ping.is_anomaly history))%nat)
     values count
   <= count + list_sum (List.map (fun history => length history) values))%nat.
Proof.
  revert count. induction values as [|history values IH]; intros count;
    [simpl; lia|].
  change (list_sum (List.map (fun history => length history) (history :: values)))
    with (length history
          + list_sum (List.map (fun history => length history) values))%nat.
  cbn [fold_left]. etransitivity; [apply IH|].
  pose proof (List.filter_length_le Ping.is_anomaly history). lia.
Qed.

Lemma share_in_percent (part whole : nat) :
  (part <= whole)%nat ->
  exists ratio,
    py_div (INR part) (INR (Nat.max whole 1)) = Ok ratio
    /\ 0 <= ratio * 100 <= 100.
Proof.
  intros Hle. unfold py_div.
  assert (Hpos : 0 < INR (Nat.max whole 1)) by (apply lt_0_INR; lia).
  destruct (Req_dec_T _ 0) as [Hzero|_]; [lra|].
  eexists. split; [reflexivity|].
  assert (Hpart : 0 <= INR part) by apply pos_INR.
  assert (Hwhole : INR part <= INR (Nat.max whole 1)) by (apply le_INR; lia).
  assert (0 <= INR part / INR (Nat.max whole 1) <= 1); [|lra].
  split.
  - apply Rmult_le_pos; [assumption|]. left. now apply Rinv_0_lt_compat.
  - apply Rmult_le_reg_r with (INR (Nat.max whole 1)); [assumption|].
    unfold Rdiv. rewrite Rmult_assoc, Rinv_l by lra. lra.
Qed.

(** X16. [get_stats] never divides by zero, on any dict: it counts no
    more anomalies than points and its rate is the rounding of a number
    between 0 and 100. After any run of [/check_anomaly] requests to a
    service started empty, it reports at least one and at most 100 points
    per entity. *)
Theorem get_stats_bounds :
  (forall tourist_history : gmap Z (list Ping.t),
      exists st,
        get_stats tourist_history = Ok st
        /\ (total_anomalies st <= total_data_points st)%nat
        /\ exists x, anomaly_rate st = round2 (Fin x) /\ 0 <= x <= 100)
  /\ (forall (d : detector StandardScaler IsolationForest) requests st,
        get_stats (serve d requests) = Ok st ->
        (total_tourists st <= total_data_points st <= 100 * total_tourists st)%nat).
Proof.
  split.
  - intros tourist_history. unfold get_stats.
    set (values := List.map snd (map_to_list tourist_history)).
    pose proof (anomaly_count_le values 0) as Hcount. cbn [Nat.add] in Hcount.
    destruct (share_in_percent _ _ Hcount) as [ratio [-> Hratio]]. cbn [bind].
    eexists. split; [reflexivity|]. cbn [total_anomalies total_data_points anomaly_rate].
    split; [exact Hcount|]. now exists (ratio * 100).
  - intros d requests st. unfold get_stats.
    set (values := List.map snd (map_to_list (serve d requests))).
    destruct (py_div _ _) as [ratio|]; cbn [bind]; [|discriminate].
    intros [= <-]. cbn [total_tourists total_data_points].
    pose proof (sum_lengths_bounds values
                  (values_well_kept _ (serve_well_kept d requests))) as Hsum.
    assert (Hsize : size (serve d requests) = length values).
    { unfold values. rewrite length_map. symmetry. apply length_map_to_list. }
    rewrite Hsize. exact Hsum.
Qed.

(** X17. One request to [check_anomaly]: an error reply carries code 400
    or 500 and leaves the dict as it was, and coordinates out of range or
    a timestamp in neither layout get one; a response dictionary means the
    coordinates were in range and [check_single_point] returned, its
    status is [anomaly] exactly when there is an anomaly, and the dict then
    holds, for that entity, the last 100 of the old list plus the new
    entry, every other entity's list being untouched. *)
Theorem check_anomaly_outcome (d : detector StandardScaler IsolationForest)
    (tourist_history : gmap Z (list Ping.t)) (data : request) :
  match snd (check_anomaly d tourist_history data) with
  | Error_reply code _ =>
      fst (check_anomaly d tourist_history data) = tourist_history
      /\ (code = 400 \/ code = 500)%Z
  | Anomaly_reply status tourist_id timestamp lat lon shown reason =>
      -90 <= req_lat data <= 90
      /\ -180 <= req_lon data <= 180
      /\ (strptime_ok (req_timestamp data) "%Y-%m-%dT%H:%M:%S"
          || strptime_ok (req_timestamp data) "%Y-%m-%d %H:%M:%S") = true
      /\ exists anomalies,
           check_single_point to_datetime d (req_tourist_id data) (req_lat data)
             (req_lon data) (req_timestamp data)
             (tourist_history !! req_tourist_id data) = Ok anomalies
           /\ (status = "anomaly"%string <-> anomalies <> [])
           /\ length shown = length anomalies
           /\ fst (check_anomaly d tourist_history data) !! req_tourist_id data
              = Some (HistoryStore.last_100
                        ((tourist_history !!! req_tourist_id data)
                         ++ [HistoryStore.history_entry
                               (HistoryStore.mk_call (req_tourist_id data)
                                  (req_lat data) (req_lon data)
                                  (req_timestamp data) anomalies)]))
           /\ forall other,
                other <> req_tourist_id data ->
                fst (check_anomaly d tourist_history data) !! other
                = tourist_history !! other
  end.
Proof.
  unfold check_anomaly.
  destruct (Rleb (-90) (req_lat data) && Rleb (req_lat data) 90) eqn:Hlat;
    cbn [negb]; [|cbn; auto].
  destruct (Rleb (-180) (req_lon data) && Rleb (req_lon data) 180) eqn:Hlon;
    cbn [negb]; [|cbn; auto].
  destruct (negb (strptime_ok (req_timestamp data) "%Y-%m-%dT%H:%M:%S")
            && negb (strptime_ok (req_timestamp data) "%Y-%m-%d %H:%M:%S"))
    eqn:Hformat; [cbn; auto|].
  apply andb_true_iff in Hlat as [Hlat1 Hlat2].
  apply andb_true_iff in Hlon as [Hlon1 Hlon2].
  apply Rleb_true in Hlat1, Hlat2, Hlon1, Hlon2.
  destruct (check_single_point _ _ _ _ _ _ _) as [anomalies|e] eqn:Hcheck;
    [|destruct e; cbn; auto].
  cbn [fst snd]. split; [lra|]. split; [lra|]. split.
  { destruct (strptime_ok _ "%Y-%m-%dT%H:%M:%S"); [reflexivity|].
    now destruct (strptime_ok _ "%Y-%m-%d %H:%M:%S"). }
  exists anomalies. split; [reflexivity|]. split.
  { destruct anomalies; split; intros; (congruence || discriminate || reflexivity). }
  split; [apply length_map|]. split.
  - rewrite store_point_lookup_Some. cbn [HistoryStore.call_tourist_id].
    now rewrite Z.eqb_refl.
  - intros other Hother. rewrite store_point_lookup_Some.
    cbn [HistoryStore.call_tourist_id].
    destruct (Z.eqb_spec (req_tourist_id data) other); [congruence|reflexivity].
Qed.

(** ** Batch analysis beside the real-time check *)

(** The scikit-learn calls the batch endpoint reaches through the
    detector. *)
Variable IsolationForest_new : R -> Z -> Z -> IsolationForest.
Variable fit_transform : StandardScaler -> matrix -> StandardScaler * result matrix.
Variable transform : StandardScaler -> matrix -> result matrix.
Variable fit : IsolationForest -> matrix -> IsolationForest * result unit.
Variable predict : IsolationForest -> matrix -> result (list Z).
Variable decision_function : IsolationForest -> matrix -> result (list R).

(** What [analyze_batch] answers: the 500 of its [except Exception], or
    the response dictionary of lines 222-240. *)
Inductive batch_reply : Type :=
| Batch_error (code : Z)
| Batch_success (total_points anomalies_detected : nat)
    (anomalies : list (Z * string * (R * R) * anomaly_kind * details_text * pyfloat)).

(** [analyze_batch()], lines 218-248, on a frame that has the four
    required columns: the module-level [detector] as the request leaves
    it, and the reply. Every anomaly carries its entity's id as
    [df['tourist_id'].unique()] yields it, a numpy integer, which
    [jsonify] refuses with a [TypeError]: a response that lists an anomaly
    ends in the 500 of [except Exception]. *)
Definition analyze_batch (d : detector StandardScaler IsolationForest)
    (df : dataframe) : detector StandardScaler IsolationForest * batch_reply :=
  let '(d, analysed) :=
    analyze_tourist_data to_datetime IsolationForest_new fit_transform transform
      fit predict decision_function d df true in
  match analysed with
  | Raise _ => (d, Batch_error 500)
  | Ok [] => (d, Batch_success (length df) 0 [])
  | Ok (_ :: _) => (d, Batch_error 500)
  end.

(** X19. The two endpoints share one detector, and a batch request trains
    it on the data it was sent; yet whatever batches came before, and
    however they ended, [check_anomaly] answers a request, and updates the
    dict, exactly as it would have without them. *)
Theorem check_anomaly_after_batches
    (d : detector StandardScaler IsolationForest) (batches : list dataframe)
    (tourist_history : gmap Z (list Ping.t)) (data : request) :
  check_anomaly
    (fold_left (fun d df => fst (analyze_batch d df)) batches d)
    tourist_history data
  = check_anomaly d tourist_history data.
Proof.
  revert d. induction batches as [|df batches IH]; intros d; [reflexivity|].
  cbn [fold_left]. rewrite IH. unfold check_anomaly.
  assert (Hsame : same_rules (fst (analyze_batch d df)) d).
  { unfold analyze_batch.
    pose proof (analyze_tourist_data_same_rules to_datetime IsolationForest_new
                  fit_transform transform fit predict decision_function d df true)
      as Hsame.
    destruct (analyze_tourist_data _ _ _ _ _ _ _ d df true)
      as [d' [[|anomaly anomalies]|e]]; exact Hsame. }
  now rewrite (same_rules_check_single_point to_datetime _ d _ _ _ _ _ Hsame).
Qed.

End Service.

(** ** The further theorems, applied *)

Module Checks.
Import Scenario.


Definition no_deviation_threshold : detector unit unit := new_detector tt 5 0.

Definition no_route : detector unit unit := mk_detector 5 200 [] None tt.

(** A ping some 60 meters from the first waypoint. *)
Definition strolling : dataframe :=
  [ping 1 12.9720 77.5950 "2024-01-15T10:00:00"].

(** Estimators that answer: the scaler changes nothing, and the forest
    calls every row an outlier with score -0.5. *)
Definition id_transform (s : unit) (X : matrix) : result matrix := Ok X.

Definition all_outliers (m : unit) (X : matrix) : result (list Z) :=
  Ok (List.map (fun _ => (-1)%Z) X).

Definition all_scores (m : unit) (X : matrix) : result (list R) :=
  Ok (List.map (fun _ => -0.5) X).

Definition trained : detector unit unit := set_ml_model detector0 tt.

Lemma haversine_distance_close_applied :
  GeoMath.haversine_distance 12.9716 77.5946 12.9726 77.5956 <= 162300 * 0.001.
Proof.
  apply GeoBounds.haversine_distance_close;
    [lra|unfold Rabs; destruct (Rcase_abs _); lra..].
Defined.

Lemma detect_stop_anomaly_records_applied :
  (length [dwell_stop] <= length (select_tourist dwell 1) - 1)%nat
  /\ Forall (fun a =>
       Anomaly.anomaly_type a = stopped_too_long
       /\ (exists row, In row dwell /\ placed_at 1 row a)
       /\ exists x, Anomaly.confidence a = Fin x /\ 1 <= x <= 2) [dwell_stop].
Proof.
  apply (detect_stop_anomaly_records Timestamp.to_datetime detector0 dwell 1).
  - cbn. lra.
  - exact dwell_detected.
Defined.

(** The record a detector without a route makes of that ping. *)
Definition off_any_route : Anomaly.t :=
  Anomaly.mk 1 "2024-01-15T10:00:00" 12.9720 77.5950
    route_deviation (Deviated PosInf) (Fin 3).

Lemma no_route_detected :
  detect_route_deviation no_route strolling 1
  = Ok [off_any_route].
Proof.
  unfold detect_route_deviation, strolling, select_tourist.
  cbn [List.filter ping Ping.tourist_id Z.eqb Pos.eqb for_each].
  unfold deviation_loop_body, route_min_distance.
  cbn [no_route planned_route deviation_threshold_meters length Nat.sub seq
       for_each bind pf_ltb].
  unfold pf_div. destruct (Req_dec_T 200 0) as [Hz|_]; [lra|].
  destruct (Rlt_dec 0 200) as [_|Hn]; [|lra].
  cbn [bind]. unfold pf_min. cbn [pf_ltb app Ping.timestamp Ping.lat Ping.lon].
  reflexivity.
Qed.

Lemma detect_route_deviation_records_applied :
  (length [off_any_route] <= length (select_tourist strolling 1))%nat
  /\ Forall (fun a =>
       Anomaly.anomaly_type a = route_deviation
       /\ (exists row, In row strolling /\ placed_at 1 row a)
       /\ exists x, Anomaly.confidence a = Fin x /\ 1 < x <= 3) [off_any_route].
Proof.
  apply (detect_route_deviation_records no_route strolling 1).
  - cbn. lra.
  - exact no_route_detected.
Defined.


Lemma detect_route_deviation_zero_threshold_applied :
  detect_route_deviation no_deviation_threshold
    [ping 1 12.9716 77.5946 "2024-01-15T10:00:00"] 1 = Ok [].
Proof.
  rewrite (detect_route_deviation_zero_threshold no_deviation_threshold);
    [|reflexivity|cbn; lia].
  cbn [select_tourist List.filter ping Ping.tourist_id Z.eqb Pos.eqb existsb].
  rewrite min_endpoint_distance_at_waypoint; [|cbn; lia|now left].
  unfold Rltb. destruct (Rlt_dec 0 0); [lra|reflexivity].
Defined.

Lemma detect_route_deviation_no_segment_applied :
  detect_route_deviation no_route dwell 1
  = Ok (List.map
          (fun row =>
             Anomaly.mk 1 (Ping.timestamp row) (Ping.lat row) (Ping.lon row)
               route_deviation (Deviated PosInf) (Fin 3))
          (select_tourist dwell 1)).
Proof.
  apply (detect_route_deviation_no_segment no_route dwell 1).
  - cbn. lia.
  - cbn. lra.
Defined.

Lemma prepare_ml_features_shape_applied :
  exists features,
    prepare_ml_features Timestamp.to_datetime detector0 dwell = Ok features
    /\ length features = 1%nat
    /\ Forall (feature_row_of Timestamp.to_datetime detector0 dwell) features.
Proof.
  eexists. split; [reflexivity|].
  apply (prepare_ml_features_shape Timestamp.to_datetime detector0 dwell).
  reflexivity.
Defined.

Lemma detect_ml_anomalies_aligned_applied :
  exists features anomalies,
    prepare_ml_features Timestamp.to_datetime trained dwell = Ok features
    /\ detect_ml_anomalies Timestamp.to_datetime id_transform all_outliers
         all_scores trained dwell = Ok anomalies
    /\ List.map position_confidence anomalies
       = labelled_outliers [(-1)%Z] [-0.5] 0 features.
Proof.
  do 2 eexists. split; [reflexivity|]. split; [reflexivity|].
  eapply (detect_ml_anomalies_aligned Timestamp.to_datetime id_transform
            all_outliers all_scores trained dwell tt);
    reflexivity.
Defined.

Lemma detect_route_deviation_near_route_applied :
  detect_route_deviation detector0 strolling 1 = Ok [].
Proof.
  apply (detect_route_deviation_near_route detector0 strolling 1 0.001).
  - cbn. lia.
  - lra.
  - cbn. lra.
  - constructor; [|constructor].
    exists (12.9716, 77.5946). split; [now left|].
    cbn [fst snd ping Ping.lat Ping.lon].
    split; unfold Rabs; destruct (Rcase_abs _); lra.
Defined.

Lemma train_ml_model_stores_model_applied :
  ml_model (fst (train_ml_model Timestamp.to_datetime (fun _ _ _ => tt)
                   scaled_as_is no_fit detector0 dwell)) <> None
  /\ snd (train_ml_model Timestamp.to_datetime (fun _ _ _ => tt)
            scaled_as_is no_fit detector0 dwell) = Raise (LibraryError 0).
Proof.
  split; [|reflexivity].
  apply (train_ml_model_stores_model Timestamp.to_datetime (fun _ _ _ => tt)
           scaled_as_is no_fit detector0 dwell); [reflexivity|].
  do 2 eexists. split; [reflexivity|]. split; [discriminate|].
  split; reflexivity.
Defined.

(** A generator whose every draw is the lower end of the range. *)
Definition lowest (a b : R) (g : unit) : R * unit := (a, g).

(** [strftime('%Y-%m-%d %H:%M:%S')] on a whole number of microseconds
    of the time line, for the years 1000 to 9999 (four digits without
    padding). *)
Definition civil_from_days (days : Z) : Z * Z * Z :=
  let z := (days + 719468)%Z in
  let era := (z / 146097)%Z in
  let doe := (z - era * 146097)%Z in
  let yoe := ((doe - doe / 1460 + doe / 36524 - doe / 146096) / 365)%Z in
  let doy := (doe - (365 * yoe + yoe / 4 - yoe / 100))%Z in
  let mp := ((5 * doy + 2) / 153)%Z in
  let day := (doy - (153 * mp + 2) / 5 + 1)%Z in
  let month := (if mp <? 10 then mp + 3 else mp - 9)%Z in
  let year := (yoe + era * 400 + (if month <=? 2 then 1 else 0))%Z in
  (year, month, day).

Definition digit (n : Z) : ascii := ascii_of_N (Z.to_N (48 + n mod 10)).

Definition two_digits (n : Z) : string :=
  String (digit (n / 10)) (String (digit n) EmptyString).

Definition strftime (t : Z) : string :=
  let seconds := (t / 1000000)%Z in
  let '(year, month, day) := civil_from_days (seconds / 86400) in
  let clock := (seconds mod 86400)%Z in
  (two_digits (year / 100) ++ two_digits year ++ "-" ++ two_digits month ++ "-"
   ++ two_digits day ++ " " ++ two_digits (clock / 3600) ++ ":"
   ++ two_digits (clock mod 3600 / 60) ++ ":" ++ two_digits (clock mod 60))%string.

(** Half past ten on 15 January 2024, in microseconds. *)
Definition half_past_ten : Z := 1705314600000000.

Lemma generate_deviation_anomaly_undetected_applied :
  detect_route_deviation detector0
    (fst (generate_deviation_anomaly lowest strftime 3 half_past_ten tt)) 3
  = Ok [].
Proof.
  apply (generate_deviation_anomaly_undetected lowest strftime detector0
           3 half_past_ten tt).
  - intros a b g Hab. cbn. lra.
  - reflexivity.
  - cbn. lra.
Defined.

Lemma generate_stop_anomaly_undetected_applied :
  detect_stop_anomaly Timestamp.to_datetime detector0
    (fst (generate_stop_anomaly lowest strftime 2 half_past_ten tt)) 2
  = Ok [].
Proof.
  apply (generate_stop_anomaly_undetected lowest strftime Timestamp.to_datetime
           detector0 2 half_past_ten tt).
  - intros k Hk.
    do 11 (destruct k as [|k]; [reflexivity|]). lia.
  - intros k Hk.
    do 10 (destruct k as [|k]; [reflexivity|]). lia.
  - cbn. lra.
Defined.

(** A generator whose every [randint] is the lower end of the range, and
    pauses of a minute and a half. *)
Definition lowest_int (a b : Z) (g : unit) : Z * unit := (a, g).

Definition ninety_seconds (minutes : R) : Z := 90000000.

Lemma generate_normal_movement_not_deviating_applied :
  exists data g',
    generate_normal_movement lowest strftime lowest_int ninety_seconds
      1 half_past_ten tt = Ok (data, g')
    /\ (32 <= length data <= 48)%nat
    /\ Forall (fun row => Ping.anomaly_type row = "normal"%string) data
    /\ detect_route_deviation detector0 data 1 = Ok [].
Proof.
  apply (generate_normal_movement_not_deviating lowest strftime lowest_int
           ninety_seconds detector0 1 half_past_ten tt).
  - intros a b g Hab. cbn. lra.
  - intros a b g Hab. cbn. lia.
  - reflexivity.
  - cbn. lra.
Defined.

Lemma generate_complete_dataset_no_deviation_applied :
  exists df g',
    generate_complete_dataset lowest strftime lowest_int ninety_seconds
      half_past_ten tt = Ok (df, g')
    /\ labelled "route_deviation" df = 5%nat
    /\ forall tourist_id, detect_route_deviation detector0 df tourist_id = Ok [].
Proof.
  apply (generate_complete_dataset_no_deviation lowest strftime lowest_int
           ninety_seconds detector0 half_past_ten tt).
  - intros a b g Hab. cbn. lra.
  - intros a b g Hab. cbn. lia.
  - reflexivity.
  - cbn. lra.
Defined.

End Checks.
